(** * The skill packager: [scripts/package_skill.py]

    A shallow embedding of the packaging script and the properties of its
    exclusion matcher, its rule loader and its archive walk.

    Python strings are modelled as [string] (code points below 256), paths as
    lists of components, the file system as a tree of directory entries and
    the effects of [package_skill] by explicit state passing. *)

From Stdlib Require Import List String Ascii Bool Arith ZArith Lia Permutation.
Import ListNotations.

Local Open Scope string_scope.
Local Open Scope list_scope.
Local Open Scope bool_scope.

(** ** Python string methods used by the script *)

Module PyStr.

(** [s.startswith(prefix)] *)
Fixpoint startswith (s prefix : string) {struct prefix} : bool :=
  match prefix with
  | EmptyString => true
  | String a prefix' =>
      match s with
      | EmptyString => false
      | String b s' => Ascii.eqb a b && startswith s' prefix'
      end
  end.

(** [s.endswith(suffix)]: some tail of [s] is [suffix]. *)
Fixpoint endswith (s suffix : string) : bool :=
  if String.eqb s suffix then true
  else match s with
       | EmptyString => false
       | String _ s' => endswith s' suffix
       end.

(** [sub in s] *)
Fixpoint contains (sub s : string) : bool :=
  if startswith s sub then true
  else match s with
       | EmptyString => false
       | String _ s' => contains sub s'
       end.

(** [s.split(sep)] for a one-character separator: the pieces between the
    occurrences of [sep]; never the empty list. *)
Fixpoint split (sep : ascii) (s : string) : list string :=
  match s with
  | EmptyString => [EmptyString]
  | String c s' =>
      if Ascii.eqb c sep then EmptyString :: split sep s'
      else match split sep s' with
           | [] => [String c EmptyString]
           | piece :: rest => String c piece :: rest
           end
  end.

(** [sep.join(pieces)] *)
Definition join (sep : string) (pieces : list string) : string :=
  String.concat sep pieces.

(** [l[i:j]] for [0 <= i <= j]. *)
Definition slice {A : Type} (l : list A) (i j : nat) : list A :=
  firstn (j - i) (skipn i l).

(** [range(n)]: empty when [n <= 0]. *)
Definition range (n : Z) : list nat := seq 0 (Z.to_nat n).

(** Characters removed by [str.strip()]: the code points below 256 for
    which [str.isspace()] holds. *)
Definition isspace (c : ascii) : bool :=
  let n := nat_of_ascii c in
  ((9 <=? n)%nat && (n <=? 13)%nat) || ((28 <=? n)%nat && (n <=? 32)%nat)
  || (n =? 133)%nat || (n =? 160)%nat.

Fixpoint lstrip (s : string) : string :=
  match s with
  | EmptyString => EmptyString
  | String c s' => if isspace c then lstrip s' else s
  end.

(** Drops the trailing white space: a character is kept when something
    that is not white space follows it or it is not white space itself. *)
Fixpoint rstrip (s : string) : string :=
  match s with
  | EmptyString => EmptyString
  | String c s' =>
      match rstrip s' with
      | EmptyString => if isspace c then EmptyString else String c EmptyString
      | t => String c t
      end
  end.

(** [s.strip()] *)
Definition strip (s : string) : string := rstrip (lstrip s).

(** Line boundaries of [str.splitlines()] below code point 256:
    LF, VT, FF, CR, FS, GS, RS and NEL; CR LF counts as one. *)
Definition islinebreak (c : ascii) : bool :=
  let n := nat_of_ascii c in
  ((10 <=? n)%nat && (n <=? 13)%nat) || ((28 <=? n)%nat && (n <=? 30)%nat)
  || (n =? 133)%nat.

Fixpoint rev_string (acc s : string) : string :=
  match s with
  | EmptyString => acc
  | String c s' => rev_string (String c acc) s'
  end.

(** [splitlines_from cur s]: [cur] is the line being read, reversed. *)
Fixpoint splitlines_from (cur : string) (s : string) : list string :=
  match s with
  | EmptyString =>
      match cur with
      | EmptyString => []
      | _ => [rev_string EmptyString cur]
      end
  | String c s' =>
      if islinebreak c then
        match s' with
        | String c' s'' =>
            if Ascii.eqb c "013" && Ascii.eqb c' "010"
            then rev_string EmptyString cur :: splitlines_from EmptyString s''
            else rev_string EmptyString cur :: splitlines_from EmptyString s'
        | EmptyString => [rev_string EmptyString cur]
        end
      else splitlines_from (String c cur) s'
  end.

(** [s.splitlines()] *)
Definition splitlines (s : string) : list string :=
  splitlines_from EmptyString s.

End PyStr.

(** ** [fnmatch.fnmatch] (CPython, POSIX)

    [os.path.normcase] is the identity on POSIX, so the match is case
    sensitive.  [fnmatch.translate] turns the pattern into a regular
    expression anchored at both ends: [*] is any run of characters
    (separators included), [?] is one character, [[seq]] and [[!seq]] are
    character classes with ranges, a [[] that is never closed is literal. *)

Module Fnmatch.

Inductive glob_item : Type :=
| Star
| AnyChar
| Lit (c : ascii)
| Class (negated : bool) (ranges : list (ascii * ascii)).

(** The text up to the first ["]"] and what follows it. *)
Fixpoint until_close (s : string) : option (string * string) :=
  match s with
  | EmptyString => None
  | String c s' =>
      if Ascii.eqb c "]" then Some (EmptyString, s')
      else match until_close s' with
           | Some (a, b) => Some (String c a, b)
           | None => None
           end
  end.

(** What follows a ["["]: an optional ["!"], an optional ["]"] that is a
    member, then everything up to the closing ["]"]. *)
Definition bracket (rest : string) : option (bool * string * string) :=
  let '(neg, r1) :=
    match rest with
    | String "!" r => (true, r)
    | _ => (false, rest)
    end in
  match r1 with
  | String "]" r2 =>
      match until_close r2 with
      | Some (a, b) => Some (neg, String "]" a, b)
      | None => None
      end
  | _ =>
      match until_close r1 with
      | Some (a, b) => Some (neg, a, b)
      | None => None
      end
  end.

(** Members of a class, left to right: [a-b] is a range when a character
    follows the hyphen, anything else stands for itself. *)
Fixpoint class_items (stuff : string) : list (ascii * ascii) :=
  match stuff with
  | EmptyString => []
  | String a r =>
      match r with
      | String "-" (String b r') => (a, b) :: class_items r'
      | _ => (a, a) :: class_items r
      end
  end.

(** [translate_from skip pat]: the first [skip] characters of [pat] were
    consumed by a character class. *)
Fixpoint translate_from (skip : nat) (pat : string) : list glob_item :=
  match pat with
  | EmptyString => []
  | String c rest =>
      match skip with
      | S skip' => translate_from skip' rest
      | O =>
          if Ascii.eqb c "*" then Star :: translate_from 0 rest
          else if Ascii.eqb c "?" then AnyChar :: translate_from 0 rest
          else if Ascii.eqb c "[" then
            match bracket rest with
            | Some (neg, stuff, remainder) =>
                Class neg (class_items stuff)
                :: translate_from (String.length rest - String.length remainder) rest
            | None => Lit "[" :: translate_from 0 rest
            end
          else Lit c :: translate_from 0 rest
      end
  end.

Definition translate (pat : string) : list glob_item := translate_from 0 pat.

Definition in_range (c : ascii) (r : ascii * ascii) : bool :=
  (nat_of_ascii (fst r) <=? nat_of_ascii c)%nat
  && (nat_of_ascii c <=? nat_of_ascii (snd r))%nat.

Fixpoint match_items (items : list glob_item) (s : string) : bool :=
  match items with
  | [] => match s with EmptyString => true | _ => false end
  | Star :: items' =>
      (fix star (t : string) : bool :=
         match_items items' t
         || match t with
            | EmptyString => false
            | String _ t' => star t'
            end) s
  | AnyChar :: items' =>
      match s with
      | String _ s' => match_items items' s'
      | EmptyString => false
      end
  | Lit c :: items' =>
      match s with
      | String d s' => Ascii.eqb c d && match_items items' s'
      | EmptyString => false
      end
  | Class negated ranges :: items' =>
      match s with
      | String d s' =>
          xorb negated (existsb (in_range d) ranges) && match_items items' s'
      | EmptyString => false
      end
  end.

(** [fnmatch.fnmatch(name, pat)] *)
Definition fnmatch (name pat : string) : bool := match_items (translate pat) name.

End Fnmatch.

(** ** Paths ([pathlib])

    An absolute, resolved path is the list of its components below ["/"];
    a relative path is the list of its components. *)

Definition Path := list string.
Definition RelPath := list string.

Module PyPath.

(** [p.relative_to(other)]: [None] stands for [ValueError]. *)
Fixpoint relative_to (p other : Path) {struct other} : option RelPath :=
  match other with
  | [] => Some p
  | o :: other' =>
      match p with
      | [] => None
      | c :: p' => if String.eqb c o then relative_to p' other' else None
      end
  end.

(** [str(rel)] for a relative path: the empty path prints as ["."]. *)
Definition str (rel : RelPath) : string :=
  match rel with
  | [] => "."
  | _ => PyStr.join "/" rel
  end.

(** [p.name]: the last component, empty for the root. *)
Definition name (p : Path) : string := last p EmptyString.

(** [p.parent]: the root is its own parent. *)
Definition parent (p : Path) : Path := removelast p.

(** [p / child] *)
Definition child (p : Path) (c : string) : Path := p ++ [c].

End PyPath.

(** ** The exclusion matcher: [should_exclude] *)

(** The inner loop, [for i in range(...)], of the segment-window tier. *)
Fixpoint window_loop (rel_parts : list string) (pattern_parts : list string)
    (pattern : string) (indices : list nat) : bool :=
  match indices with
  | [] => false
  | i :: indices' =>
      let test_path :=
        PyStr.join "/" (PyStr.slice rel_parts i (i + List.length pattern_parts)) in
      if Fnmatch.fnmatch test_path pattern then true
      else window_loop rel_parts pattern_parts pattern indices'
  end.

(** The three tiers tried for one pattern, in the order of the source. *)
Definition directory_tier (rel_path_str pattern : string) : bool :=
  PyStr.endswith pattern "/"
  && (PyStr.startswith rel_path_str pattern
      || PyStr.startswith (rel_path_str ++ "/") pattern).

Definition file_tier (rel_path_str name pattern : string) : bool :=
  Fnmatch.fnmatch rel_path_str pattern || Fnmatch.fnmatch name pattern.

Definition window_tier (rel_path_str pattern : string) : bool :=
  PyStr.contains "/" pattern
  && (let pattern_parts := PyStr.split "/" pattern in
      let rel_parts := PyStr.split "/" rel_path_str in
      window_loop rel_parts pattern_parts pattern
        (PyStr.range (Z.of_nat (List.length rel_parts)
                      - Z.of_nat (List.length pattern_parts) + 1))).

(** [for pattern in exclude_patterns: ...], returning at the first match. *)
Fixpoint pattern_loop (rel_path_str name : string) (exclude_patterns : list string)
    : bool :=
  match exclude_patterns with
  | [] => false
  | pattern :: rest =>
      if directory_tier rel_path_str pattern then true
      else if file_tier rel_path_str name pattern then true
      else if window_tier rel_path_str pattern then true
      else pattern_loop rel_path_str name rest
  end.

(** One pattern matches when one of its tiers does. *)
Definition pattern_matches (rel_path_str name pattern : string) : bool :=
  directory_tier rel_path_str pattern
  || file_tier rel_path_str name pattern
  || window_tier rel_path_str pattern.

Definition should_exclude (file_path skill_path : Path)
    (exclude_patterns : list string) : bool :=
  match exclude_patterns with
  | [] => false
  | _ =>
      match PyPath.relative_to file_path skill_path with
      | None => false
      | Some rel_path =>
          pattern_loop (PyPath.str rel_path) (PyPath.name file_path) exclude_patterns
      end
  end.

(** ** The file system

    The tree of a POSIX file system as [pathlib], [os] and [zipfile] of
    CPython 3.11 see it on Linux.  A directory records whether the process
    may list it (read permission) and search it (execute permission); a
    symbolic link records the path it names, made absolute and free of
    [.] and [..]; a special file is a device, a pipe or a socket.  The
    errors of the system calls that the script can tell apart are kept
    apart: a name that is not there ([ENOENT]), a component that is no
    directory ([ENOTDIR]), too many links ([ELOOP]), and the errors that
    [pathlib] does not swallow, a directory that may not be searched
    ([EACCES]) and a name or a path that is too long ([ENAMETOOLONG]). *)

Inductive kind : Type := KFile | KDir | KOther.

#[local] Unset Elimination Schemes.
Inductive node : Type :=
| File
| Dir (listable searchable : bool) (entries : list (string * node))
| Symlink (target : Path)
| Special.
#[local] Set Elimination Schemes.

(** Induction on a tree, with the property known of every entry of a
    directory. *)
Section NodeInduction.

Variable P : node -> Prop.
Hypothesis HFile : P File.
Hypothesis HDir :
  forall listable searchable entries,
    Forall (fun e => P (snd e)) entries -> P (Dir listable searchable entries).
Hypothesis HSymlink : forall target, P (Symlink target).
Hypothesis HSpecial : P Special.

Fixpoint node_nested_ind (n : node) : P n :=
  match n with
  | File => HFile
  | Dir listable searchable entries =>
      HDir listable searchable entries
        ((fix all (es : list (string * node)) : Forall (fun e => P (snd e)) es :=
            match es with
            | [] => Forall_nil _
            | e :: es' => Forall_cons e (node_nested_ind (snd e)) (all es')
            end) entries)
  | Symlink target => HSymlink target
  | Special => HSpecial
  end.

End NodeInduction.

Module FS.

(** The limits of Linux: the bytes of a name, the bytes of a path with
    its end, the links followed in one resolution. *)
Definition NAME_MAX : nat := 255.
Definition PATH_MAX : nat := 4096.
Definition SYMLOOP_MAX : nat := 40.

Definition name_too_long (c : string) : bool :=
  (NAME_MAX <? String.length c)%nat.

(** The bytes of the text of an absolute path. *)
Definition path_length (p : Path) : nat :=
  list_sum (map (fun c => S (String.length c)) p).

Definition too_long (p : Path) : bool := (PATH_MAX <=? path_length p)%nat.

Arguments name_too_long : simpl never.
Arguments too_long : simpl never.

Fixpoint assoc (name : string) (entries : list (string * node)) : option node :=
  match entries with
  | [] => None
  | (n, c) :: entries' => if String.eqb name n then Some c else assoc name entries'
  end.

(** Where going down a path ends, without following a link: at an entry,
    at a link with what is left of the path, at a name that is not there,
    below something that is no directory, or at an error: a directory
    that may not be searched, a name that is too long. *)
Inductive descent : Type :=
| At (n : node)
| Via (target rest : Path)
| NoEntry
| NotDir
| Denied.

Fixpoint descend (n : node) (p : Path) {struct p} : descent :=
  match n, p with
  | Symlink target, _ => Via target p
  | _, [] => At n
  | Dir _ searchable entries, c :: p' =>
      if negb searchable || name_too_long c then Denied
      else
        match assoc c entries with
        | Some child => descend child p'
        | None => NoEntry
        end
  | _, _ :: _ => NotDir
  end.

(** The end of a path resolution that follows links: the entry and the
    link-free path it was found at, the path whose last step found no
    name, or the error. *)
Inductive lookup : Type :=
| Resolved (q : Path) (n : node)
| NotFound (q : Path)
| NotDirectory
| Loop
| Error.

(** [fuel] is one more than the number of links that may be followed. *)
Fixpoint resolve_from (fuel : nat) (root : node) (p : Path) : lookup :=
  match fuel with
  | O => Loop
  | S fuel' =>
      match descend root p with
      | At n => Resolved p n
      | Via target rest => resolve_from fuel' root (target ++ rest)
      | NoEntry => NotFound p
      | NotDir => NotDirectory
      | Denied => Error
      end
  end.

(** The resolution of a path handed to a system call. *)
Definition resolve (root : node) (p : Path) : lookup :=
  if too_long p then Error else resolve_from (S SYMLOOP_MAX) root p.

(** The answer of [pathlib] to a question about a path: [Missing] for the
    errors it takes for an absent entry ([ENOENT], [ENOTDIR], [ELOOP]),
    [Refused] for the errors it raises. *)
Inductive answer (A : Type) : Type :=
| Found (a : A)
| Missing
| Refused.
Arguments Found {A} a.
Arguments Missing {A}.
Arguments Refused {A}.

Definition answer_of (l : lookup) : answer node :=
  match l with
  | Resolved _ n => Found n
  | NotFound _ | NotDirectory | Loop => Missing
  | Error => Refused
  end.

Definition kind_of (n : node) : kind :=
  match n with
  | File => KFile
  | Dir _ _ _ => KDir
  | Symlink _ | Special => KOther
  end.

Definition stat_node (root : node) (p : Path) : answer node :=
  answer_of (resolve root p).

(** [os.stat(p)], which follows links. *)
Definition stat (root : node) (p : Path) : answer kind :=
  match stat_node root p with
  | Found n => Found (kind_of n)
  | Missing => Missing
  | Refused => Refused
  end.

(** [p.exists()], [p.is_dir()], [p.is_file()]: [None] stands for the
    exception that [os.stat] raised and [pathlib] lets through. *)
Definition exists_ (root : node) (p : Path) : option bool :=
  match stat root p with
  | Found _ => Some true
  | Missing => Some false
  | Refused => None
  end.

Definition is_dir (root : node) (p : Path) : option bool :=
  match stat root p with
  | Found KDir => Some true
  | Found _ | Missing => Some false
  | Refused => None
  end.

Definition is_file (root : node) (p : Path) : option bool :=
  match stat root p with
  | Found KFile => Some true
  | Found _ | Missing => Some false
  | Refused => None
  end.

(** [base.rglob("*")] for the directory [n] at [base]: the entries of the
    directory, then what is below each of its directories, in the order
    of the listing.  A directory that may not be listed gives nothing, a
    directory that may not be searched is not entered, and neither is a
    link. *)
Fixpoint rglob_node (base : Path) (n : node) : list Path :=
  match n with
  | Dir listable searchable entries =>
      if listable then
        map (fun e => PyPath.child base (fst e)) entries
        ++ (if searchable
            then flat_map
                   (fun e => rglob_node (PyPath.child base (fst e)) (snd e))
                   entries
            else [])
      else []
  | _ => []
  end.

Definition rglob (root : node) (p : Path) : list Path :=
  match stat_node root p with
  | Found n => rglob_node p n
  | _ => []
  end.

Fixpoint set_entry (name : string) (c : node) (entries : list (string * node))
    : list (string * node) :=
  match entries with
  | [] => []
  | (n, old) :: entries' =>
      if String.eqb name n then (n, c) :: entries'
      else (n, old) :: set_entry name c entries'
  end.

(** The tree with [new] added at the link-free path [p], whose last name
    is not there yet and whose other names are directories. *)
Fixpoint add_at (new : node) (p : Path) (n : node) {struct p} : option node :=
  match n, p with
  | Dir listable searchable entries, c :: p' =>
      match assoc c entries, p' with
      | None, [] => Some (Dir listable searchable (entries ++ [(c, new)]))
      | Some child, _ :: _ =>
          match add_at new p' child with
          | Some child' => Some (Dir listable searchable (set_entry c child' entries))
          | None => None
          end
      | _, _ => None
      end
  | _, _ => None
  end.

(** [os.mkdir(p)]: the tree with the directory, [FileNotFoundError], or
    another [OSError].  The links of the parent are followed, the last
    name is not.  [ok] tells whether the system lets the directory be
    made where nothing in the tree forbids it; [listable] and
    [searchable] are the permissions that the umask leaves to the process
    on the directory it makes. *)
Inductive mkdir_result : Type :=
| Made (root' : node)
| FileNotFound
| OtherError.

Definition os_mkdir (ok : Path -> bool) (listable searchable : bool)
    (root : node) (p : Path) : mkdir_result :=
  if too_long p then OtherError
  else
    match p with
    | [] => OtherError
    | _ :: _ =>
        match resolve_from (S SYMLOOP_MAX) root (PyPath.parent p) with
        | Resolved q (Dir _ search entries) =>
            if negb search || name_too_long (PyPath.name p) then OtherError
            else
              match assoc (PyPath.name p) entries with
              | Some _ => OtherError
              | None =>
                  if ok p then
                    match
                      add_at (Dir listable searchable [])
                        (PyPath.child q (PyPath.name p)) root
                    with
                    | Some root' => Made root'
                    | None => OtherError
                    end
                  else OtherError
              end
        | Resolved _ _ => OtherError
        | NotFound _ => FileNotFound
        | _ => OtherError
        end
    end.

(** [Path.mkdir(parents=True, exist_ok=True)] on the path [rev rp], whose
    parent is [rev (tl rp)]: the tree it leaves, and false when it raises.
<<
    try:
        os.mkdir(self, mode)
    except FileNotFoundError:
        if not parents or self.parent == self:
            raise
        self.parent.mkdir(parents=True, exist_ok=True)
        self.mkdir(mode, parents=False, exist_ok=exist_ok)
    except OSError:
        if not exist_ok or not self.is_dir():
            raise
>>
*)
Fixpoint path_mkdir (ok : Path -> bool) (listable searchable : bool)
    (root : node) (rp : list string) {struct rp} : node * bool :=
  match os_mkdir ok listable searchable root (rev rp) with
  | Made root' => (root', true)
  | FileNotFound =>
      match rp with
      | [] => (root, false)
      | _ :: rp' =>
          let '(root1, made) := path_mkdir ok listable searchable root rp' in
          if made then
            match os_mkdir ok listable searchable root1 (rev rp) with
            | Made root2 => (root2, true)
            | FileNotFound => (root1, false)
            | OtherError =>
                (root1,
                 match is_dir root1 (rev rp) with Some true => true | _ => false end)
            end
          else (root1, false)
      end
  | OtherError =>
      (root, match is_dir root (rev rp) with Some true => true | _ => false end)
  end.

Definition mkdir_p (ok : Path -> bool) (listable searchable : bool) (p : Path)
    (root : node) : node * bool :=
  path_mkdir ok listable searchable root (rev p).

(** [open(p, "w+b")], as [zipfile.ZipFile(p, "w")] does it: links are
    followed, a file or a special file that is there is opened, a name
    that is not there is created as a regular file, when its directory is
    there.  [None] stands for the [OSError]. *)
Definition open_write (root : node) (p : Path) : option node :=
  match resolve root p with
  | Resolved _ (Dir _ _ _) => None
  | Resolved _ _ => Some root
  | NotFound q => add_at File q root
  | _ => None
  end.

Fixpoint nodupb (names : list string) : bool :=
  match names with
  | [] => true
  | n :: names' => negb (existsb (String.eqb n) names') && nodupb names'
  end.

(** No directory of the tree holds a name twice. *)
Fixpoint unique_names (n : node) : bool :=
  match n with
  | Dir _ _ entries =>
      nodupb (map fst entries) && forallb (fun e => unique_names (snd e)) entries
  | _ => true
  end.

(** The path names an entry without going through a link, as a path that
    [Path.resolve()] returned does when it exists. *)
Definition resolved (root : node) (p : Path) : bool :=
  match descend root p with
  | At _ => true
  | _ => false
  end.

(** The number of entries below a directory that satisfy [f], in the
    directories that may be listed and searched; links are not entered. *)
Fixpoint count_below (f : node -> bool) (n : node) : nat :=
  match n with
  | Dir listable searchable entries =>
      if listable && searchable then
        list_sum
          (map (fun e => (if f (snd e) then 1 else 0) + count_below f (snd e))
             entries)
      else 0
  | _ => 0
  end.

Definition is_regular_node (n : node) : bool :=
  match n with
  | File => true
  | _ => false
  end.

(** A link that leads to a regular file; the link itself is the first of
    the links followed. *)
Definition is_file_link_node (root : node) (n : node) : bool :=
  match n with
  | Symlink target =>
      match resolve_from SYMLOOP_MAX root target with
      | Resolved _ File => true
      | _ => false
      end
  | _ => false
  end.

Definition regular_files_under (root : node) (p : Path) : nat :=
  match stat_node root p with
  | Found n => count_below is_regular_node n
  | _ => 0
  end.

Definition file_links_under (root : node) (p : Path) : nat :=
  match stat_node root p with
  | Found n => count_below (is_file_link_node root) n
  | _ => 0
  end.

(** The walk from a directory comes to the entry at [rel] below it: every
    directory on the way may be listed, and searched to go on. *)
Fixpoint reaches (n : node) (rel : RelPath) : bool :=
  match n, rel with
  | Dir listable searchable entries, c :: rel' =>
      listable
      && match assoc c entries with
         | Some child =>
             match rel' with
             | [] => true
             | _ :: _ => searchable && reaches child rel'
             end
         | None => false
         end
  | _, _ => false
  end.

End FS.

(** ** The rule loader: [read_skillignore] *)

(** What the script cannot decide from the tree. *)
Record Env : Type := {
  (** [Path.cwd()] *)
  cwd : Path;
  (** The decoded text read at a path that is no directory, [None] when
      reading it fails. *)
  file_text : Path -> option string;
  (** [quick_validate.validate_skill], imported by the script, by its
      contract: whether the skill is valid, and a message. *)
  validate_skill : Path -> bool * string;
  (** The system lets [os.mkdir] make this directory. *)
  mkdir_ok : Path -> bool;
  (** The permissions that the umask leaves to the process on a directory
      it makes: to list it, to search it. *)
  new_dir_listable : bool;
  new_dir_searchable : bool;
  (** The system lets this file be opened for writing. *)
  open_ok : Path -> bool;
  (** [zipf.write] can read this file and store it. *)
  store_ok : Path -> bool;
  (** Closing the archive, which writes its directory, goes through. *)
  close_ok : Path -> bool
}.

(** [p.read_text()]: [None] stands for an exception.  A directory cannot
    be read; a regular file or a special file is read as far as the
    system and the decoding allow. *)
Definition read_text (env : Env) (root : node) (p : Path) : option string :=
  match FS.stat root p with
  | FS.Found KFile | FS.Found KOther => file_text env p
  | _ => None
  end.

(** The body of [for line in content.splitlines()]. *)
Fixpoint collect_patterns (patterns : list string) (lines : list string)
    : list string :=
  match lines with
  | [] => patterns
  | line :: lines' =>
      let line := PyStr.strip line in
      if negb (String.eqb line EmptyString) && negb (PyStr.startswith line "#")
      then collect_patterns (patterns ++ [line]) lines'
      else collect_patterns patterns lines'
  end.

(** [None] stands for the exception of [skillignore_path.exists()], which
    is called outside the [try]. *)
Definition read_skillignore (env : Env) (root : node) (skill_path : Path)
    : option (list string) :=
  let skillignore_path := PyPath.child skill_path ".skillignore" in
  match FS.exists_ root skillignore_path with
  | None => None
  | Some false => Some []
  | Some true =>
      match read_text env root skillignore_path with
      | Some content => Some (collect_patterns [] (PyStr.splitlines content))
      | None => Some []
      end
  end.

(** A trimmed line is a pattern when it is not empty and not a comment. *)
Definition is_pattern_line (line : string) : bool :=
  negb (String.eqb line EmptyString) && negb (PyStr.startswith line "#").

(** The patterns as the specification words them: the trimmed lines that
    are not empty and do not start with ["#"], in file order. *)
Definition spec_patterns (content : string) : list string :=
  filter is_pattern_line (map PyStr.strip (PyStr.splitlines content)).

(** ** The packager: [package_skill] *)

Inductive message : Type :=
| MsgNotFound (skill_path : Path)
| MsgNotDirectory (skill_path : Path)
| MsgNoSkillMd (skill_path : Path)
| MsgValidating
| MsgValidationFailed (text : string)
| MsgFixErrors
| MsgValid (text : string)
| MsgUsingIgnore (n : nat)
| MsgAdded (arcname : RelPath)
| MsgExcluded (n : nat)
| MsgSuccess (skill_filename : Path)
| MsgPackaged (n : nat)
| MsgZipError.

Inductive event : Type :=
| Stdout (m : message)
| Mkdir (p : Path)
| ZipOpen (p : Path)
| ZipWrite (file_path : Path) (arcname : RelPath)
| ZipClose.

Record State : Type := {
  fs : node;
  log : list event
}.

Definition is_zip_write (ev : event) : bool :=
  match ev with ZipWrite _ _ => true | _ => false end.

Definition emit (st : State) (e : event) : State :=
  {| fs := fs st; log := log st ++ [e] |}.

Definition print (st : State) (m : message) : State := emit st (Stdout m).

(** What [package_skill] does at its end: it returns [None], it returns
    [skill_filename] (with the two counters as they stand then), or an
    exception leaves it. *)
Inductive outcome : Type :=
| ReturnNone
| ReturnPath (skill_filename : Path) (files_added files_excluded : nat)
| Raised.

(** [for file_path in skill_path.rglob("*")]; [None] when [is_file],
    [relative_to] or [zipf.write] raises. *)
Fixpoint walk (env : Env) (skill_path : Path) (exclude_patterns : list string)
    (files : list Path) (files_added files_excluded : nat) (st : State)
    : option (nat * nat) * State :=
  match files with
  | [] => (Some (files_added, files_excluded), st)
  | file_path :: files' =>
      match FS.is_file (fs st) file_path with
      | None => (None, st)
      | Some true =>
          if should_exclude file_path skill_path exclude_patterns then
            walk env skill_path exclude_patterns files' files_added
              (S files_excluded) st
          else
            match PyPath.relative_to file_path (PyPath.parent skill_path) with
            | None => (None, st)
            | Some arcname =>
                if store_ok env file_path then
                  walk env skill_path exclude_patterns files'
                    (S files_added) files_excluded
                    (print (emit st (ZipWrite file_path arcname)) (MsgAdded arcname))
                else (None, st)
            end
      | Some false =>
          walk env skill_path exclude_patterns files' files_added files_excluded st
      end
  end.

(** [output_path.mkdir(parents=True, exist_ok=True)]; the boolean is false
    when it raises. *)
Definition mkdir (env : Env) (st : State) (output_path : Path) : State * bool :=
  let '(root', made) :=
    FS.mkdir_p (mkdir_ok env) (new_dir_listable env) (new_dir_searchable env) output_path (fs st) in
  ({| fs := root'; log := log st ++ [Mkdir output_path] |}, made).

(** [zipfile.ZipFile(skill_filename, "w", ...)]; [None] when it raises. *)
Definition zip_open (env : Env) (st : State) (skill_filename : Path) : option State :=
  if open_ok env skill_filename then
    match FS.open_write (fs st) skill_filename with
    | Some root' => Some {| fs := root'; log := log st ++ [ZipOpen skill_filename] |}
    | None => None
    end
  else None.

(** Lines 137-142: the output directory, the state after it and whether
    it is there; false when [mkdir] raises. *)
Definition output_stage (env : Env) (st : State) (output_dir : option Path)
    : Path * State * bool :=
  match output_dir with
  | Some d => let '(st', made) := mkdir env st d in (d, st', made)
  | None => (cwd env, st, true)
  end.

(** Lines 148-149. *)
Definition announce (st : State) (exclude_patterns : list string) : State :=
  match exclude_patterns with
  | [] => st
  | _ => print st (MsgUsingIgnore (List.length exclude_patterns))
  end.

(** [skill_path] is the path that line 110 has resolved; [output_dir] is
    [None] when the argument is [None] or empty, and the path that line
    138 resolves otherwise.  The tests of lines 113, 117 and 123, [mkdir]
    on line 140 and [read_skillignore] on line 147 stand outside the
    [try]: what they raise leaves the function. *)
Definition package_skill (env : Env) (root : node) (skill_path : Path)
    (output_dir : option Path) : outcome * State :=
  let st := {| fs := root; log := [] |} in
  match FS.exists_ (fs st) skill_path with
  | None => (Raised, st)
  | Some false => (ReturnNone, print st (MsgNotFound skill_path))
  | Some true =>
  match FS.is_dir (fs st) skill_path with
  | None => (Raised, st)
  | Some false => (ReturnNone, print st (MsgNotDirectory skill_path))
  | Some true =>
  let skill_md := PyPath.child skill_path "SKILL.md" in
  match FS.exists_ (fs st) skill_md with
  | None => (Raised, st)
  | Some false => (ReturnNone, print st (MsgNoSkillMd skill_path))
  | Some true =>
      let st := print st MsgValidating in
      let '(valid, text) := validate_skill env skill_path in
      if negb valid then
        (ReturnNone, print (print st (MsgValidationFailed text)) MsgFixErrors)
      else
        let st := print st (MsgValid text) in
        let skill_name := PyPath.name skill_path in
        let '(output_path, st, made) := output_stage env st output_dir in
        if negb made then (Raised, st)
        else
          let skill_filename := PyPath.child output_path (skill_name ++ ".skill") in
          match read_skillignore env (fs st) skill_path with
          | None => (Raised, st)
          | Some exclude_patterns =>
              let st := announce st exclude_patterns in
              match zip_open env st skill_filename with
              | None => (ReturnNone, print st MsgZipError)
              | Some st =>
                  match
                    walk env skill_path exclude_patterns
                      (FS.rglob (fs st) skill_path) 0 0 st
                  with
                  | (Some (files_added, files_excluded), st) =>
                      let st :=
                        if (0 <? files_excluded)%nat
                        then print st (MsgExcluded files_excluded) else st in
                      let st := emit st ZipClose in
                      if close_ok env skill_filename then
                        let st := print st (MsgSuccess skill_filename) in
                        let st := print st (MsgPackaged files_added) in
                        (ReturnPath skill_filename files_added files_excluded, st)
                      else (ReturnNone, print st MsgZipError)
                  | (None, st) =>
                      (ReturnNone, print (emit st ZipClose) MsgZipError)
                  end
              end
          end
  end end end.

(** ** The command line: [main] *)







(** ** The stages of a run, to state its properties *)

(** The end of the four checks at the head of [package_skill]: they pass
    with the message of the validator, one of them fails, or one of them
    raises. *)
Inductive verdict : Type :=
| Passed (text : string)
| Failed
| Crashed.

Definition checks (env : Env) (root : node) (skill_path : Path) : verdict :=
  match FS.exists_ root skill_path with
  | None => Crashed
  | Some false => Failed
  | Some true =>
      match FS.is_dir root skill_path with
      | None => Crashed
      | Some false => Failed
      | Some true =>
          match FS.exists_ root (PyPath.child skill_path "SKILL.md") with
          | None => Crashed
          | Some false => Failed
          | Some true =>
              let '(valid, text) := validate_skill env skill_path in
              if valid then Passed text else Failed
          end
      end
  end.

(** The state once the checks have passed. *)
Definition validated (root : node) (text : string) : State :=
  {| fs := root; log := [Stdout MsgValidating; Stdout (MsgValid text)] |}.

(** Lines 153-180: from the opening of the archive to the end. *)
Definition zip_stage (env : Env) (skill_path skill_filename : Path)
    (exclude_patterns : list string) (st : State) : outcome * State :=
  match zip_open env st skill_filename with
  | None => (ReturnNone, print st MsgZipError)
  | Some st =>
      match
        walk env skill_path exclude_patterns (FS.rglob (fs st) skill_path) 0 0 st
      with
      | (Some (files_added, files_excluded), st) =>
          let st :=
            if (0 <? files_excluded)%nat
            then print st (MsgExcluded files_excluded) else st in
          let st := emit st ZipClose in
          if close_ok env skill_filename then
            let st := print st (MsgSuccess skill_filename) in
            let st := print st (MsgPackaged files_added) in
            (ReturnPath skill_filename files_added files_excluded, st)
          else (ReturnNone, print st MsgZipError)
      | (None, st) => (ReturnNone, print (emit st ZipClose) MsgZipError)
      end
  end.

(** Lines 144-180: from the name of the archive to the end. *)
Definition archive_stage (env : Env) (skill_path output_path : Path) (st : State)
    : outcome * State :=
  let skill_filename :=
    PyPath.child output_path (PyPath.name skill_path ++ ".skill") in
  match read_skillignore env (fs st) skill_path with
  | None => (Raised, st)
  | Some exclude_patterns =>
      zip_stage env skill_path skill_filename exclude_patterns
        (announce st exclude_patterns)
  end.

(** The members of the archive, in the order they were written. *)
Fixpoint members (events : list event) : list (Path * RelPath) :=
  match events with
  | [] => []
  | ZipWrite file_path arcname :: events' => (file_path, arcname) :: members events'
  | _ :: events' => members events'
  end.

(** The events on the archive: opening, writing and closing it. *)
Definition is_zip_event (ev : event) : bool :=
  match ev with
  | ZipOpen _ | ZipWrite _ _ | ZipClose => true
  | _ => false
  end.

(** The event of writing a member. *)
Definition write_event (m : Path * RelPath) : event := ZipWrite (fst m) (snd m).

(** [file_path.is_file()] holds. *)
Definition is_file_at (root : node) (file_path : Path) : bool :=
  match FS.is_file root file_path with
  | Some true => true
  | _ => false
  end.

(** A file met by the walk is stored, or it is counted as excluded. *)
Definition stored (root : node) (skill_path : Path) (exclude_patterns : list string)
    (file_path : Path) : bool :=
  is_file_at root file_path
  && negb (should_exclude file_path skill_path exclude_patterns).

Definition left_out (root : node) (skill_path : Path) (exclude_patterns : list string)
    (file_path : Path) : bool :=
  is_file_at root file_path && should_exclude file_path skill_path exclude_patterns.

(** The member made of a file: its path relative to the parent of the
    skill directory. *)
Definition member_of (skill_path file_path : Path) : list (Path * RelPath) :=
  match PyPath.relative_to file_path (PyPath.parent skill_path) with
  | Some arcname => [(file_path, arcname)]
  | None => []
  end.

(** A pattern without [*], [?] and [[]. *)
Fixpoint is_literal (pat : string) : bool :=
  match pat with
  | EmptyString => true
  | String c pat' =>
      negb (Ascii.eqb c "*") && negb (Ascii.eqb c "?") && negb (Ascii.eqb c "[")
      && is_literal pat'
  end.

(** What [file_path.is_file()] answers for an entry of a directory that
    may be searched, when the path of the entry is not too long. *)
Definition entry_is_file (root : node) (n : node) : option bool :=
  match n with
  | File => Some true
  | Symlink target =>
      match FS.resolve_from FS.SYMLOOP_MAX root target with
      | FS.Resolved _ File => Some true
      | FS.Error => None
      | _ => Some false
      end
  | _ => Some false
  end.

(** How the end of a descent may change when entries are added to a tree
    where a name was not there: directories and, when [files] holds,
    regular files. *)
Definition grown_end (files : bool) (d d' : FS.descent) : Prop :=
  match d with
  | FS.At m => exists m', d' = FS.At m' /\ FS.kind_of m' = FS.kind_of m
  | FS.Via target rest => d' = FS.Via target rest
  | FS.NoEntry =>
      match d' with
      | FS.At m' => FS.kind_of m' = KDir \/ (files = true /\ FS.kind_of m' = KFile)
      | FS.Via _ _ => False
      | FS.NotDir => files = true
      | _ => True
      end
  | FS.NotDir => d' = FS.NotDir
  | FS.Denied => d' = FS.Denied
  end.

(** The tree [n'] is the tree [n] with such entries added. *)
Definition grows (files : bool) (n n' : node) : Prop :=
  forall p, grown_end files (FS.descend n p) (FS.descend n' p).

(** The two entries that a run adds: an empty directory, a regular file. *)
Definition addable (files : bool) (new : node) : Prop :=
  (exists listable searchable, new = Dir listable searchable [])
  \/ (new = File /\ files = true).

(** ** Examples *)

(** A skill directory with a rules file that excludes [build/]. *)
Definition example_root : node :=
  Dir true true
    [("home",
      Dir true true
        [("my-skill",
          Dir true true
            [("SKILL.md", File);
             ("notes.md", File);
             (".skillignore", File);
             ("build", Dir true true [("out.bin", File)])])])].

(** The same without rules, with a link to [SKILL.md]. *)
Definition linked_root : node :=
  Dir true true
    [("home",
      Dir true true
        [("my-skill",
          Dir true true
            [("SKILL.md", File);
             ("link.md", Symlink ["home"; "my-skill"; "SKILL.md"])])])].

(** A directory without [SKILL.md]. *)
Definition bare_root : node :=
  Dir true true
    [("home", Dir true true [("my-skill", Dir true true [("notes.md", File)])])].

(** A skill directory whose rules file is a link into a directory that
    the user may not search. *)
Definition vault_root : node :=
  Dir true true
    [("home",
      Dir true true
        [("my-skill",
          Dir true true
            [("SKILL.md", File);
             (".skillignore", Symlink ["vault"; "rules"])])]);
     ("vault", Dir false false [("rules", File)])].

(** A skill directory with a link to the place of the archive, with a
    directory that may not be listed and with a pipe. *)
Definition odd_root : node :=
  Dir true true
    [("home",
      Dir true true
        [("my-skill",
          Dir true true
            [("SKILL.md", File);
             ("last.skill", Symlink ["home"; "dist"; "my-skill.skill"]);
             ("private", Dir false true [("key.pem", File)]);
             ("pipe", Special)]);
         ("dist", Dir true true [])])].

(** An output directory in which the archive is a link to a device. *)
Definition device_root : node :=
  Dir true true
    [("dev", Dir true true [("null", Special)]);
     ("home",
      Dir true true
        [("my-skill", Dir true true [("SKILL.md", File)]);
         ("dist",
          Dir true true [("my-skill.skill", Symlink ["dev"; "null"])])])].

(** An output directory in which the archive is a link that dangles. *)
Definition dangling_root : node :=
  Dir true true
    [("home",
      Dir true true
        [("my-skill", Dir true true [("SKILL.md", File)]);
         ("dist",
          Dir true true [("my-skill.skill", Symlink ["home"; "real.zip"])])])].

Definition example_env : Env :=
  {| cwd := ["home"];
     file_text := fun p =>
       if list_eq_dec String.string_dec p ["home"; "my-skill"; ".skillignore"]
       then Some ("# build output" ++ String "010" ("  build/  " ++ String "010" EmptyString))%string
       else None;
     validate_skill := fun _ => (true, "Skill is valid!");
     mkdir_ok := fun _ => true;
     new_dir_listable := true;
     new_dir_searchable := true;
     open_ok := fun _ => true;
     store_ok := fun _ => true;
     close_ok := fun _ => true |}.

(** The same surroundings with a disk too full to store anything. *)
Definition full_disk_env : Env :=
  {| cwd := cwd example_env;
     file_text := file_text example_env;
     validate_skill := validate_skill example_env;
     mkdir_ok := mkdir_ok example_env;
     new_dir_listable := true;
     new_dir_searchable := true;
     open_ok := open_ok example_env;
     store_ok := fun _ => false;
     close_ok := close_ok example_env |}.

(** The same surroundings where only [/home/out] can be made. *)
Definition one_dir_env : Env :=
  {| cwd := cwd example_env;
     file_text := file_text example_env;
     validate_skill := validate_skill example_env;
     mkdir_ok := fun p =>
       if list_eq_dec String.string_dec p ["home"; "out"] then true else false;
     new_dir_listable := true;
     new_dir_searchable := true;
     open_ok := open_ok example_env;
     store_ok := store_ok example_env;
     close_ok := close_ok example_env |}.

Example strip_inner_space : PyStr.strip "  a b  " = "a b".
Proof. reflexivity. Qed.
Example strip_blank : PyStr.strip "   " = EmptyString.
Proof. reflexivity. Qed.
Example range_negative : PyStr.range (1 - 3 + 1) = [].
Proof. reflexivity. Qed.
Example fnmatch_star_spans_separator : Fnmatch.fnmatch "a/b/c.txt" "a*.txt" = true.
Proof. reflexivity. Qed.
Example fnmatch_empty_range : Fnmatch.fnmatch "m" "[z-a]" = false.
Proof. reflexivity. Qed.
Example should_exclude_nested_window :
  should_exclude ["my-skill"; "src"; "build"; "output"; "file.txt"] ["my-skill"]
    ["build/output"] = true.
Proof. reflexivity. Qed.
Example should_exclude_basename :
  should_exclude ["my-skill"; "src"; "node_modules"] ["my-skill"] ["node_modules"]
  = true.
Proof. reflexivity. Qed.

Example read_skillignore_example :
  read_skillignore example_env example_root ["home"; "my-skill"] = Some ["build/"].
Proof. reflexivity. Qed.

Example package_skill_example :
  fst (package_skill example_env example_root ["home"; "my-skill"] (Some ["home"; "dist"]))
  = ReturnPath ["home"; "dist"; "my-skill.skill"] 3 1.
Proof. reflexivity. Qed.

(** The link to the archive dangles before the run and is stored by it;
    the directory that may not be listed is passed over. *)
Example package_skill_odd :
  FS.is_file odd_root ["home"; "my-skill"; "last.skill"] = Some false
  /\ fst (package_skill example_env odd_root ["home"; "my-skill"] (Some ["home"; "dist"]))
     = ReturnPath ["home"; "dist"; "my-skill.skill"] 2 0.
Proof. split; reflexivity. Qed.

(** An archive that is a link to a device is opened and written. *)
Example package_skill_device :
  package_skill example_env device_root ["home"; "my-skill"] (Some ["home"; "dist"])
  = (ReturnPath ["home"; "dist"; "my-skill.skill"] 1 0,
     {| fs := device_root;
        log := [Stdout MsgValidating; Stdout (MsgValid "Skill is valid!");
                Mkdir ["home"; "dist"];
                ZipOpen ["home"; "dist"; "my-skill.skill"];
                ZipWrite ["home"; "my-skill"; "SKILL.md"] ["my-skill"; "SKILL.md"];
                Stdout (MsgAdded ["my-skill"; "SKILL.md"]);
                ZipClose;
                Stdout (MsgSuccess ["home"; "dist"; "my-skill.skill"]);
                Stdout (MsgPackaged 1)] |}).
Proof. reflexivity. Qed.

(** An archive that is a dangling link is created where the link leads. *)
Example package_skill_dangling :
  FS.exists_ dangling_root ["home"; "dist"; "my-skill.skill"] = Some false
  /\ package_skill example_env dangling_root ["home"; "my-skill"]
       (Some ["home"; "dist"])
     = (ReturnPath ["home"; "dist"; "my-skill.skill"] 1 0,
        {| fs :=
             Dir true true
               [("home",
                 Dir true true
                   [("my-skill", Dir true true [("SKILL.md", File)]);
                    ("dist",
                     Dir true true
                       [("my-skill.skill", Symlink ["home"; "real.zip"])]);
                    ("real.zip", File)])];
           log := [Stdout MsgValidating; Stdout (MsgValid "Skill is valid!");
                   Mkdir ["home"; "dist"];
                   ZipOpen ["home"; "dist"; "my-skill.skill"];
                   ZipWrite ["home"; "my-skill"; "SKILL.md"] ["my-skill"; "SKILL.md"];
                   Stdout (MsgAdded ["my-skill"; "SKILL.md"]);
                   ZipClose;
                   Stdout (MsgSuccess ["home"; "dist"; "my-skill.skill"]);
                   Stdout (MsgPackaged 1)] |}).
Proof. split; reflexivity. Qed.

(** A skill directory below a directory that may not be searched: the
    first test raises. *)
Example package_skill_locked :
  package_skill example_env
    (Dir true true [("home", Dir true false [("my-skill", Dir true true [])])])
    ["home"; "my-skill"] None
  = (Raised,
     {| fs := Dir true true
                [("home", Dir true false [("my-skill", Dir true true [])])];
        log := [] |}).
Proof. reflexivity. Qed.

(** [mkdir] makes the parent and then fails. *)
Example mkdir_leaves_parent :
  FS.mkdir_p (mkdir_ok one_dir_env) true true ["home"; "out"; "v1"] bare_root
  = (Dir true true
       [("home",
         Dir true true
           [("my-skill", Dir true true [("notes.md", File)]);
            ("out", Dir true true [])])],
     false).
Proof. reflexivity. Qed.

Example fnmatch_star : Fnmatch.fnmatch "src/build/out.bin" "*.bin" = true.
Proof. reflexivity. Qed.
Example fnmatch_class : Fnmatch.fnmatch "bx.txt" "[!a-][a-z].t?t" = true.
Proof. reflexivity. Qed.
Example fnmatch_open_bracket : Fnmatch.fnmatch "[!]" "[!]" = true.
Proof. reflexivity. Qed.
Example split_trailing : PyStr.split "/" "build/" = ["build"; EmptyString].
Proof. reflexivity. Qed.
Example splitlines_crlf :
  PyStr.splitlines (String "a" (String "013" (String "010" (String "010" "b"))))
  = ["a"; EmptyString; "b"].
Proof. reflexivity. Qed.
(** ** Facts about the string helpers *)

Section StringFacts.

Lemma contains_slash_cons (c : ascii) (s : string) :
  PyStr.contains "/" (String c s) = Ascii.eqb c "/" || PyStr.contains "/" s.
Proof.
  cbn [PyStr.contains PyStr.startswith]. rewrite andb_true_r, Ascii.eqb_sym.
  destruct (Ascii.eqb c "/"); reflexivity.
Qed.

Lemma split_nonempty (sep : ascii) (s : string) : PyStr.split sep s <> [].
Proof.
  destruct s as [| c s]; simpl; [discriminate |].
  destruct (Ascii.eqb c sep); [discriminate |].
  destruct (PyStr.split sep s); discriminate.
Qed.

(** A string without separator is its own single piece. *)
Lemma split_no_slash (s : string) :
  PyStr.contains "/" s = false -> PyStr.split "/" s = [s].
Proof.
  induction s as [| c s IH]; intros H; [reflexivity |].
  rewrite contains_slash_cons in H. apply orb_false_iff in H as [Hc Hs].
  simpl. rewrite Hc, (IH Hs). reflexivity.
Qed.

(** The pattern has at least two pieces exactly when it has a separator. *)
Lemma split_two_contains (s : string) :
  2 <= List.length (PyStr.split "/" s) -> PyStr.contains "/" s = true.
Proof.
  intros H. destruct (PyStr.contains "/" s) eqn:E; [reflexivity |].
  rewrite (split_no_slash s E) in H. simpl in H. lia.
Qed.

Lemma split_app_slash (x rest : string) :
  PyStr.contains "/" x = false ->
  PyStr.split "/" (x ++ String "/" rest) = x :: PyStr.split "/" rest.
Proof.
  induction x as [| c x IH]; intros H; [reflexivity |].
  rewrite contains_slash_cons in H. apply orb_false_iff in H as [Hc Hx].
  simpl. rewrite Hc, (IH Hx). reflexivity.
Qed.

(** Splitting what was joined gives the components back. *)
Lemma split_join (parts : list string) :
  parts <> [] ->
  Forall (fun c => PyStr.contains "/" c = false) parts ->
  PyStr.split "/" (PyStr.join "/" parts) = parts.
Proof.
  induction parts as [| x parts IH]; intros Hne Hall; [congruence |].
  inversion Hall as [| ? ? Hx Hrest]; subst.
  destruct parts as [| y parts].
  - simpl. apply split_no_slash; assumption.
  - change (PyStr.join "/" (x :: y :: parts))
      with (x ++ String "/" (PyStr.join "/" (y :: parts)))%string.
    rewrite split_app_slash by assumption.
    rewrite IH by (assumption || discriminate). reflexivity.
Qed.

Lemma startswith_app (a b : string) : PyStr.startswith (a ++ b) a = true.
Proof.
  induction a as [| c a IH]; simpl; [reflexivity |].
  rewrite Ascii.eqb_refl. exact IH.
Qed.

End StringFacts.

(** ** Facts about paths *)

Section PathFacts.

Lemma relative_to_app (base rel : list string) :
  PyPath.relative_to (base ++ rel) base = Some rel.
Proof.
  induction base as [| c base IH]; simpl; [reflexivity |].
  rewrite String.eqb_refl. exact IH.
Qed.

Lemma relative_to_inv (p other : Path) (rel : RelPath) :
  PyPath.relative_to p other = Some rel -> p = other ++ rel.
Proof.
  revert p. induction other as [| o other IH]; intros p H; simpl in *.
  - congruence.
  - destruct p as [| c p]; [discriminate |].
    destruct (String.eqb_spec c o) as [-> | _]; [| discriminate].
    f_equal. apply IH. assumption.
Qed.

Lemma parent_name (p : Path) :
  p <> [] -> p = PyPath.parent p ++ [PyPath.name p].
Proof. intros H. apply app_removelast_last. assumption. Qed.

End PathFacts.

(** ** The matcher as a disjunction over the patterns *)

Section Matcher.

Variables rel_path_str name : string.

Lemma pattern_loop_existsb (patterns : list string) :
  pattern_loop rel_path_str name patterns
  = existsb (pattern_matches rel_path_str name) patterns.
Proof.
  induction patterns as [| p ps IH]; [reflexivity |].
  simpl. unfold pattern_matches.
  destruct (directory_tier rel_path_str p); [reflexivity |].
  destruct (file_tier rel_path_str name p); [reflexivity |].
  destruct (window_tier rel_path_str p); [reflexivity |].
  exact IH.
Qed.

Lemma pattern_loop_in (patterns : list string) (p : string) :
  In p patterns -> pattern_matches rel_path_str name p = true ->
  pattern_loop rel_path_str name patterns = true.
Proof.
  intros Hin Hp. rewrite pattern_loop_existsb.
  apply existsb_exists. exists p. split; assumption.
Qed.

End Matcher.

Lemma window_loop_existsb (rel_parts pattern_parts : list string) (pattern : string)
    (indices : list nat) :
  window_loop rel_parts pattern_parts pattern indices
  = existsb (fun i =>
               Fnmatch.fnmatch
                 (PyStr.join "/"
                    (PyStr.slice rel_parts i (i + List.length pattern_parts)))
                 pattern) indices.
Proof.
  induction indices as [| i rest IH]; [reflexivity |].
  simpl. destruct (Fnmatch.fnmatch _ pattern); [reflexivity | exact IH].
Qed.

Lemma in_range_lt (i : nat) (n : Z) : (Z.of_nat i < n)%Z -> In i (PyStr.range n).
Proof. intros H. unfold PyStr.range. apply in_seq. lia. Qed.

Lemma existsb_permutation {A : Type} (f : A -> bool) (l l' : list A) :
  Permutation l l' -> existsb f l = existsb f l'.
Proof.
  induction 1 as [| x l l' _ IH | x y l | l l' l'' _ IH1 _ IH2]; simpl.
  - reflexivity.
  - rewrite IH. reflexivity.
  - destruct (f x), (f y); reflexivity.
  - congruence.
Qed.

Lemma existsb_incl {A : Type} (f : A -> bool) (l l' : list A) :
  incl l l' -> existsb f l = true -> existsb f l' = true.
Proof.
  intros Hincl H. apply existsb_exists in H as [x [Hin Hx]].
  apply existsb_exists. exists x. split; [apply Hincl |]; assumption.
Qed.

(** [should_exclude] when the pattern list is not empty and the file lies
    under the root. *)
Lemma should_exclude_relative (file_path skill_path : Path) (rel_path : RelPath)
    (patterns : list string) :
  PyPath.relative_to file_path skill_path = Some rel_path ->
  should_exclude file_path skill_path patterns
  = existsb (pattern_matches (PyPath.str rel_path) (PyPath.name file_path)) patterns.
Proof.
  intros Hrel. unfold should_exclude. rewrite Hrel.
  destruct patterns; [reflexivity |]. apply pattern_loop_existsb.
Qed.

(** ** Properties of the matcher *)

(** C1 (as amended): a pattern [p] of [k >= 2] segments, that is one with
    a separator in it, excludes every file under the root one of whose
    windows of [k] consecutive relative-path components, joined with ["/"],
    matches [p]. *)
Theorem segment_window_match :
  forall (file_path skill_path : Path) (rel_path : RelPath)
         (patterns : list string) (p : string) (i : nat),
    PyPath.relative_to file_path skill_path = Some rel_path ->
    Forall (fun c => PyStr.contains "/" c = false) rel_path ->
    In p patterns ->
    2 <= List.length (PyStr.split "/" p) ->
    i + List.length (PyStr.split "/" p) <= List.length rel_path ->
    Fnmatch.fnmatch
      (PyStr.join "/"
         (PyStr.slice rel_path i (i + List.length (PyStr.split "/" p)))) p = true ->
    should_exclude file_path skill_path patterns = true.
Proof.
  intros file_path skill_path rel_path patterns p i Hrel Hparts Hin Hk Hn Hmatch.
  rewrite (should_exclude_relative _ _ _ _ Hrel).
  apply existsb_exists. exists p. split; [assumption |].
  unfold pattern_matches.
  assert (Hw : window_tier (PyPath.str rel_path) p = true).
  { unfold window_tier. rewrite (split_two_contains p Hk). simpl andb.
    assert (Hne : rel_path <> []) by (intros ->; simpl in Hn; lia).
    assert (Hstr : PyPath.str rel_path = PyStr.join "/" rel_path)
      by (destruct rel_path; [congruence | reflexivity]).
    rewrite Hstr, (split_join rel_path Hne Hparts).
    rewrite window_loop_existsb. apply existsb_exists. exists i.
    split; [apply in_range_lt; lia | exact Hmatch]. }
  rewrite Hw. apply orb_true_r.
Qed.

Lemma segment_window_match_witness :
  should_exclude ["my-skill"; "src"; "build"; "output"; "file.txt"] ["my-skill"]
    ["*.tmp"; "build/output"] = true.
Proof.
  apply (segment_window_match
           ["my-skill"; "src"; "build"; "output"; "file.txt"] ["my-skill"]
           ["src"; "build"; "output"; "file.txt"]
           ["*.tmp"; "build/output"] "build/output" 1).
  - reflexivity.
  - repeat constructor.
  - simpl. right. left. reflexivity.
  - simpl. lia.
  - simpl. lia.
  - reflexivity.
Defined.

(** C1 (as stated) fails for a one-segment pattern: ["build"] matches the
    window made of the first component of [build/out.bin], and the file is
    not excluded, because the window tier is only tried for patterns that
    contain a separator. *)
Lemma one_segment_window_not_excluded :
  PyPath.relative_to ["my-skill"; "build"; "out.bin"] ["my-skill"]
    = Some ["build"; "out.bin"]
  /\ In "build" ["build"]
  /\ List.length (PyStr.split "/" "build") = 1
  /\ 0 + 1 <= List.length ["build"; "out.bin"]
  /\ Fnmatch.fnmatch (PyStr.join "/" (PyStr.slice ["build"; "out.bin"] 0 (0 + 1)))
       "build" = true
  /\ should_exclude ["my-skill"; "build"; "out.bin"] ["my-skill"] ["build"] = false.
Proof.
  repeat split; try reflexivity.
  - left. reflexivity.
  - simpl. lia.
Qed.

(** C3: a pattern ending in ["/"] excludes every file whose relative path,
    or whose relative path followed by ["/"], starts with it. *)
Theorem directory_pattern_excludes :
  forall (file_path skill_path : Path) (rel_path : RelPath)
         (patterns : list string) (p : string),
    In p patterns ->
    PyStr.endswith p "/" = true ->
    PyPath.relative_to file_path skill_path = Some rel_path ->
    PyStr.startswith (PyPath.str rel_path) p = true
    \/ PyStr.startswith (PyPath.str rel_path ++ "/") p = true ->
    should_exclude file_path skill_path patterns = true.
Proof.
  intros file_path skill_path rel_path patterns p Hin Hend Hrel Hstart.
  rewrite (should_exclude_relative _ _ _ _ Hrel).
  apply existsb_exists. exists p. split; [assumption |].
  unfold pattern_matches, directory_tier. rewrite Hend.
  destruct Hstart as [-> | ->]; simpl; [reflexivity |].
  rewrite orb_true_r. reflexivity.
Qed.

Lemma directory_pattern_excludes_witness :
  should_exclude ["my-skill"; "build"; "out.bin"] ["my-skill"] ["*.tmp"; "build/"]
  = true
  /\ should_exclude ["my-skill"; "build"] ["my-skill"] ["build/"] = true.
Proof.
  split.
  - apply (directory_pattern_excludes
             ["my-skill"; "build"; "out.bin"] ["my-skill"] ["build"; "out.bin"]
             ["*.tmp"; "build/"] "build/").
    + simpl. right. left. reflexivity.
    + reflexivity.
    + reflexivity.
    + left. reflexivity.
  - apply (directory_pattern_excludes
             ["my-skill"; "build"] ["my-skill"] ["build"] ["build/"] "build/").
    + simpl. left. reflexivity.
    + reflexivity.
    + reflexivity.
    + right. reflexivity.
Defined.

(** C7: the answer does not depend on the order of the patterns. *)
Theorem should_exclude_permutation :
  forall (file_path skill_path : Path) (patterns patterns' : list string),
    Permutation patterns patterns' ->
    should_exclude file_path skill_path patterns
    = should_exclude file_path skill_path patterns'.
Proof.
  intros file_path skill_path patterns patterns' Hperm.
  destruct (PyPath.relative_to file_path skill_path) as [rel_path |] eqn:Hrel.
  - rewrite !(should_exclude_relative _ _ _ _ Hrel).
    apply existsb_permutation. assumption.
  - unfold should_exclude. rewrite Hrel.
    destruct patterns, patterns'; reflexivity.
Qed.

Lemma should_exclude_permutation_witness :
  should_exclude ["my-skill"; "build"; "out.bin"] ["my-skill"] ["*.tmp"; "build/"]
  = should_exclude ["my-skill"; "build"; "out.bin"] ["my-skill"] ["build/"; "*.tmp"].
Proof.
  apply should_exclude_permutation. apply perm_swap.
Defined.

(** C8: a file outside the root is never excluded; the [ValueError] of
    [relative_to] is caught and nothing is raised. *)
Theorem outside_root_not_excluded :
  forall (file_path skill_path : Path) (patterns : list string),
    (forall rel_path : RelPath, file_path <> skill_path ++ rel_path) ->
    PyPath.relative_to file_path skill_path = None
    /\ should_exclude file_path skill_path patterns = false.
Proof.
  intros file_path skill_path patterns Hout.
  assert (Hrel : PyPath.relative_to file_path skill_path = None).
  { destruct (PyPath.relative_to file_path skill_path) as [rel_path |] eqn:Hrel;
      [| reflexivity].
    exfalso. apply (Hout rel_path). apply relative_to_inv. assumption. }
  split; [assumption |].
  unfold should_exclude. rewrite Hrel. destruct patterns; reflexivity.
Qed.

Lemma outside_root_not_excluded_witness :
  should_exclude ["other"; "notes.tmp"] ["my-skill"] ["*.tmp"; "other/"] = false.
Proof.
  apply (outside_root_not_excluded ["other"; "notes.tmp"] ["my-skill"]
           ["*.tmp"; "other/"]).
  intros rel_path. simpl. discriminate.
Defined.

(** C9: with no pattern, no file is excluded. *)
Theorem no_pattern_no_exclusion :
  forall file_path skill_path : Path, should_exclude file_path skill_path [] = false.
Proof. intros file_path skill_path. reflexivity. Qed.

(** C10: a file excluded by a pattern list is excluded by every list that
    holds all its patterns. *)
Theorem should_exclude_monotone :
  forall (file_path skill_path : Path) (patterns patterns' : list string),
    incl patterns patterns' ->
    should_exclude file_path skill_path patterns = true ->
    should_exclude file_path skill_path patterns' = true.
Proof.
  intros file_path skill_path patterns patterns' Hincl Hex.
  destruct (PyPath.relative_to file_path skill_path) as [rel_path |] eqn:Hrel.
  - rewrite (should_exclude_relative _ _ _ _ Hrel) in Hex.
    rewrite (should_exclude_relative _ _ _ _ Hrel).
    apply (existsb_incl _ patterns); assumption.
  - unfold should_exclude in Hex. rewrite Hrel in Hex.
    destruct patterns; discriminate.
Qed.

Lemma should_exclude_monotone_witness :
  should_exclude ["my-skill"; "build"; "out.bin"] ["my-skill"]
    ["*.md"; "build/"; "?"] = true.
Proof.
  apply (should_exclude_monotone _ _ ["build/"]).
  - intros p [<- | []]. simpl. right. left. reflexivity.
  - reflexivity.
Defined.

(** ** More on glob patterns *)

Section GlobFacts.

Lemma translate_literal (pat : string) :
  is_literal pat = true ->
  Fnmatch.translate pat = map Fnmatch.Lit (list_ascii_of_string pat).
Proof.
  unfold Fnmatch.translate.
  induction pat as [| c pat IH]; intros H; [reflexivity |].
  cbn [is_literal] in H. rewrite !andb_true_iff, !negb_true_iff in H.
  destruct H as [[[Hstar Hany] Hopen] Hrest].
  cbn [Fnmatch.translate_from list_ascii_of_string map].
  rewrite Hstar, Hany, Hopen, (IH Hrest). reflexivity.
Qed.

Lemma match_literal (pat : string) :
  forall s,
    Fnmatch.match_items (map Fnmatch.Lit (list_ascii_of_string pat)) s
    = String.eqb s pat.
Proof.
  induction pat as [| c pat IH]; intros [| d s]; try reflexivity.
  cbn [list_ascii_of_string map Fnmatch.match_items String.eqb].
  rewrite IH, Ascii.eqb_sym. reflexivity.
Qed.

(** A pattern without wildcard matches itself and nothing else. *)
Lemma fnmatch_literal (s pat : string) :
  is_literal pat = true -> Fnmatch.fnmatch s pat = String.eqb s pat.
Proof.
  intros H. unfold Fnmatch.fnmatch. rewrite (translate_literal pat H).
  apply match_literal.
Qed.

(** [*] followed by plain text matches the strings that end with it. *)
Lemma fnmatch_star_literal (s suffix : string) :
  is_literal suffix = true ->
  Fnmatch.fnmatch s (String "*" suffix) = PyStr.endswith s suffix.
Proof.
  intros H. unfold Fnmatch.fnmatch, Fnmatch.translate.
  cbn [Fnmatch.translate_from]. rewrite Ascii.eqb_refl.
  fold (Fnmatch.translate suffix). rewrite (translate_literal suffix H).
  cbn [Fnmatch.match_items].
  induction s as [| c s IH]; cbn [PyStr.endswith]; rewrite match_literal.
  - rewrite orb_false_r. destruct (String.eqb EmptyString suffix); reflexivity.
  - rewrite IH. destruct (String.eqb (String c s) suffix); reflexivity.
Qed.

Lemma endswith_slash_contains (s : string) :
  PyStr.endswith s "/" = true -> PyStr.contains "/" s = true.
Proof.
  induction s as [| c s IH]; [discriminate |].
  cbn [PyStr.endswith]. rewrite contains_slash_cons.
  destruct (String.eqb_spec (String c s) "/") as [E | _].
  - injection E as -> _. reflexivity.
  - intros H. rewrite (IH H). apply orb_true_r.
Qed.

End GlobFacts.

(** ** More on the matcher *)

(** X1: a file is excluded exactly when it lies under the root and one
    pattern of the list matches it through one of the three tiers. *)
Theorem should_exclude_iff :
  forall (file_path skill_path : Path) (patterns : list string),
    should_exclude file_path skill_path patterns = true <->
    exists rel_path pattern,
      PyPath.relative_to file_path skill_path = Some rel_path
      /\ In pattern patterns
      /\ (directory_tier (PyPath.str rel_path) pattern = true
          \/ file_tier (PyPath.str rel_path) (PyPath.name file_path) pattern = true
          \/ window_tier (PyPath.str rel_path) pattern = true).
Proof.
  intros file_path skill_path patterns.
  destruct (PyPath.relative_to file_path skill_path) as [rel_path |] eqn:Hrel.
  - rewrite (should_exclude_relative _ _ _ _ Hrel), existsb_exists.
    unfold pattern_matches. split.
    + intros [p [Hin Hp]]. exists rel_path, p.
      rewrite !orb_true_iff in Hp. tauto.
    + intros [rel' [p [E [Hin Hp]]]]. injection E as <-. exists p.
      rewrite !orb_true_iff. tauto.
  - split.
    + unfold should_exclude. rewrite Hrel. destruct patterns; discriminate.
    + intros [rel' [p [E _]]]. discriminate.
Qed.

(** X2: excluding by two lists put together is excluding by one of them. *)
Theorem should_exclude_app :
  forall (file_path skill_path : Path) (patterns patterns' : list string),
    should_exclude file_path skill_path (patterns ++ patterns')
    = should_exclude file_path skill_path patterns
      || should_exclude file_path skill_path patterns'.
Proof.
  intros file_path skill_path patterns patterns'.
  destruct (PyPath.relative_to file_path skill_path) as [rel_path |] eqn:Hrel.
  - rewrite !(should_exclude_relative _ _ _ _ Hrel). apply existsb_app.
  - unfold should_exclude. rewrite Hrel.
    destruct patterns, patterns'; reflexivity.
Qed.

(** Without a separator in the pattern only the file tier can match. *)
Lemma pattern_matches_no_separator (rel_path_str name pattern : string) :
  PyStr.contains "/" pattern = false ->
  pattern_matches rel_path_str name pattern
  = Fnmatch.fnmatch rel_path_str pattern || Fnmatch.fnmatch name pattern.
Proof.
  intros Hp. unfold pattern_matches, directory_tier, window_tier, file_tier.
  rewrite Hp. destruct (PyStr.endswith pattern "/") eqn:Hend.
  - rewrite (endswith_slash_contains pattern Hend) in Hp. discriminate.
  - simpl. rewrite orb_false_r. reflexivity.
Qed.

(** X3: patterns without a separator are tried on the whole relative path
    and on the base name only. *)
Theorem one_segment_patterns :
  forall (file_path skill_path : Path) (rel_path : RelPath) (patterns : list string),
    PyPath.relative_to file_path skill_path = Some rel_path ->
    Forall (fun p => PyStr.contains "/" p = false) patterns ->
    should_exclude file_path skill_path patterns
    = existsb (fun p => Fnmatch.fnmatch (PyPath.str rel_path) p
                        || Fnmatch.fnmatch (PyPath.name file_path) p) patterns.
Proof.
  intros file_path skill_path rel_path patterns Hrel Hall.
  rewrite (should_exclude_relative _ _ _ _ Hrel).
  induction Hall as [| p ps Hp _ IH]; [reflexivity |].
  cbn [existsb]. rewrite IH, (pattern_matches_no_separator _ _ p Hp).
  reflexivity.
Qed.

Lemma one_segment_patterns_witness :
  should_exclude ["my-skill"; "build"; "out.bin"] ["my-skill"] ["build"; "*.tmp"]
  = false.
Proof.
  rewrite (one_segment_patterns ["my-skill"; "build"; "out.bin"] ["my-skill"]
             ["build"; "out.bin"] ["build"; "*.tmp"]).
  - reflexivity.
  - reflexivity.
  - repeat constructor.
Defined.

(** X4: a plain name (no wildcard, no separator) excludes the entry whose
    relative path or base name is that name and nothing else: the files
    inside a directory of that name are kept. *)
Theorem literal_pattern_excludes_name_only :
  forall (file_path skill_path : Path) (rel_path : RelPath) (pattern : string),
    PyPath.relative_to file_path skill_path = Some rel_path ->
    is_literal pattern = true ->
    PyStr.contains "/" pattern = false ->
    should_exclude file_path skill_path [pattern]
    = String.eqb (PyPath.str rel_path) pattern
      || String.eqb (PyPath.name file_path) pattern.
Proof.
  intros file_path skill_path rel_path pattern Hrel Hlit Hslash.
  rewrite (should_exclude_relative _ _ _ _ Hrel). cbn [existsb].
  rewrite (pattern_matches_no_separator _ _ pattern Hslash).
  rewrite !(fnmatch_literal _ pattern Hlit), orb_false_r. reflexivity.
Qed.

Lemma literal_pattern_excludes_name_only_witness :
  should_exclude ["my-skill"; "node_modules"; "lib"; "index.js"] ["my-skill"]
    ["node_modules"] = false
  /\ should_exclude ["my-skill"; "src"; "node_modules"] ["my-skill"]
       ["node_modules"] = true.
Proof.
  split.
  - rewrite (literal_pattern_excludes_name_only
               ["my-skill"; "node_modules"; "lib"; "index.js"] ["my-skill"]
               ["node_modules"; "lib"; "index.js"] "node_modules");
      reflexivity.
  - rewrite (literal_pattern_excludes_name_only
               ["my-skill"; "src"; "node_modules"] ["my-skill"]
               ["src"; "node_modules"] "node_modules");
      reflexivity.
Defined.

(** X5: [*] followed by plain text without separator, such as [*.pyc],
    excludes the files whose relative path or base name ends with that
    text, at any depth, and no other. *)
Theorem suffix_pattern_excludes :
  forall (file_path skill_path : Path) (rel_path : RelPath) (suffix : string),
    PyPath.relative_to file_path skill_path = Some rel_path ->
    is_literal suffix = true ->
    PyStr.contains "/" suffix = false ->
    should_exclude file_path skill_path [String "*" suffix]
    = PyStr.endswith (PyPath.str rel_path) suffix
      || PyStr.endswith (PyPath.name file_path) suffix.
Proof.
  intros file_path skill_path rel_path suffix Hrel Hlit Hslash.
  rewrite (should_exclude_relative _ _ _ _ Hrel). cbn [existsb].
  rewrite (pattern_matches_no_separator _ _ (String "*" suffix))
    by (rewrite contains_slash_cons, Hslash; reflexivity).
  rewrite !(fnmatch_star_literal _ suffix Hlit), orb_false_r. reflexivity.
Qed.

Lemma suffix_pattern_excludes_witness :
  should_exclude ["my-skill"; "src"; "cache"; "mod.pyc"] ["my-skill"] ["*.pyc"]
  = true.
Proof.
  rewrite (suffix_pattern_excludes ["my-skill"; "src"; "cache"; "mod.pyc"]
             ["my-skill"] ["src"; "cache"; "mod.pyc"] ".pyc");
    reflexivity.
Defined.

(** ** Directory patterns are anchored at the root *)

Section Anchored.

Lemma endswith_app (a b : string) : PyStr.endswith (a ++ b) b = true.
Proof.
  induction a as [| c a IH]; cbn [String.append].
  - destruct b; cbn [PyStr.endswith]; rewrite String.eqb_refl; reflexivity.
  - cbn [PyStr.endswith]. rewrite IH.
    destruct (String.eqb (String c (a ++ b)) b); reflexivity.
Qed.

Lemma string_app_assoc (a b c : string) :
  ((a ++ b) ++ c)%string = (a ++ (b ++ c))%string.
Proof. induction a as [| x a IH]; simpl; [| rewrite IH]; reflexivity. Qed.

Lemma startswith_refl (s : string) : PyStr.startswith s s = true.
Proof. induction s as [| c s IH]; simpl; [| rewrite Ascii.eqb_refl]; auto. Qed.

Lemma contains_slash_app (a b : string) :
  PyStr.contains "/" (a ++ String "/" b) = true.
Proof.
  induction a as [| c a IH]; [reflexivity |].
  change (String c a ++ String "/" b)%string with (String c (a ++ String "/" b)).
  rewrite contains_slash_cons, IH. apply orb_true_r.
Qed.

Lemma is_literal_slash (d : string) :
  is_literal d = true -> is_literal (d ++ "/") = true.
Proof.
  induction d as [| c d IH]; [reflexivity |].
  simpl. rewrite !andb_true_iff. intros [H Hd]. split; [exact H | exact (IH Hd)].
Qed.

(** A text without separator is not the start of a directory pattern. *)
Lemma startswith_no_slash (c d : string) :
  PyStr.contains "/" c = false -> PyStr.startswith c (d ++ "/") = false.
Proof.
  revert c. induction d as [| x d IH]; intros [| y c] Hc; try reflexivity.
  - rewrite contains_slash_cons in Hc. apply orb_false_iff in Hc as [Hy _].
    cbn [String.append PyStr.startswith]. rewrite Ascii.eqb_sym, Hy. reflexivity.
  - rewrite contains_slash_cons in Hc. apply orb_false_iff in Hc as [_ Hc].
    cbn [String.append PyStr.startswith]. rewrite (IH c Hc). apply andb_false_r.
Qed.

(** A path starts with a directory pattern when its first component is
    the name of the directory. *)
Lemma startswith_component (c d t : string) :
  PyStr.contains "/" c = false -> PyStr.contains "/" d = false ->
  PyStr.startswith (c ++ String "/" t) (d ++ "/") = String.eqb c d.
Proof.
  revert c. induction d as [| x d IH]; intros [| y c] Hc Hd.
  - reflexivity.
  - rewrite contains_slash_cons in Hc. apply orb_false_iff in Hc as [Hy _].
    cbn [String.append PyStr.startswith]. rewrite Ascii.eqb_sym, Hy. reflexivity.
  - rewrite contains_slash_cons in Hd. apply orb_false_iff in Hd as [Hx _].
    cbn [String.append PyStr.startswith]. rewrite Hx. reflexivity.
  - rewrite contains_slash_cons in Hc, Hd.
    apply orb_false_iff in Hc as [_ Hc]. apply orb_false_iff in Hd as [_ Hd].
    cbn [String.append PyStr.startswith]. rewrite (IH c Hc Hd), Ascii.eqb_sym. reflexivity.
Qed.

(** Two components joined are a directory pattern only when the second is
    empty. *)
Lemma joined_is_pattern (a b d : string) :
  PyStr.contains "/" a = false -> PyStr.contains "/" d = false ->
  (a ++ String "/" b)%string = (d ++ "/")%string -> b = EmptyString.
Proof.
  revert d. induction a as [| x a IH]; intros [| y d] Ha Hd E; simpl in E.
  - injection E as ->. reflexivity.
  - injection E as <- _. rewrite contains_slash_cons in Hd. discriminate.
  - injection E as -> _. rewrite contains_slash_cons in Ha. discriminate.
  - injection E as _ E. rewrite contains_slash_cons in Ha, Hd.
    apply orb_false_iff in Ha as [_ Ha]. apply orb_false_iff in Hd as [_ Hd].
    exact (IH d Ha Hd E).
Qed.

Lemma window_loop_false (rel_parts pattern_parts : list string) (pattern : string)
    (indices : list nat) :
  (forall i, In i indices ->
     Fnmatch.fnmatch
       (PyStr.join "/" (PyStr.slice rel_parts i (i + List.length pattern_parts)))
       pattern = false) ->
  window_loop rel_parts pattern_parts pattern indices = false.
Proof.
  intros H. rewrite window_loop_existsb.
  destruct (existsb _ indices) eqn:E; [| reflexivity].
  apply existsb_exists in E as [i [Hi Hm]]. rewrite (H i Hi) in Hm. discriminate.
Qed.

(** A window of two components. *)
Lemma slice_two (rel : list string) (i : nat) :
  i + 2 <= List.length rel ->
  exists a b, In a rel /\ In b rel /\ PyStr.slice rel i (i + 2) = [a; b].
Proof.
  revert i. induction rel as [| x rel IH]; intros i Hi; [simpl in Hi; lia |].
  destruct i as [| i].
  - destruct rel as [| y rel]; [simpl in Hi; lia |].
    exists x, y. simpl. auto.
  - destruct (IH i) as [a [b [Ha [Hb E]]]]; [simpl in Hi; lia |].
    exists a, b. repeat split; [right; assumption | right; assumption |].
    unfold PyStr.slice in *. replace (S i + 2 - S i) with (i + 2 - i) by lia.
    exact E.
Qed.

End Anchored.

(** X16: a directory pattern made of a plain name followed by ["/"]
    excludes the entries whose first relative component is that name, and
    no other: a directory of that name deeper in the tree is kept. *)
Theorem directory_pattern_anchored :
  forall (file_path skill_path : Path) (first : string) (rest : RelPath)
         (d : string),
    PyPath.relative_to file_path skill_path = Some (first :: rest) ->
    Forall (fun c => c <> EmptyString /\ PyStr.contains "/" c = false)
      (first :: rest) ->
    is_literal d = true ->
    PyStr.contains "/" d = false ->
    should_exclude file_path skill_path [(d ++ "/")%string] = String.eqb first d.
Proof.
  intros file_path skill_path first rest d Hrel Hwf Hlit Hd.
  assert (Hfree : Forall (fun c => PyStr.contains "/" c = false) (first :: rest)).
  { eapply Forall_impl; [| exact Hwf]. intros c [_ H]. exact H. }
  pose proof (Forall_inv Hfree) as Hfirst.
  rewrite (should_exclude_relative _ _ _ _ Hrel). cbn [existsb].
  rewrite orb_false_r. unfold pattern_matches.
  set (rel_path_str := PyPath.str (first :: rest)).
  (* the directory tier *)
  assert (Hstart : PyStr.startswith rel_path_str (d ++ "/")
                   = match rest with [] => false | _ => String.eqb first d end).
  { subst rel_path_str. destruct rest as [| r rest].
    - apply startswith_no_slash. assumption.
    - change (PyPath.str (first :: r :: rest))
        with (first ++ String "/" (PyStr.join "/" (r :: rest)))%string.
      apply startswith_component; assumption. }
  assert (Hstart' : PyStr.startswith (rel_path_str ++ "/") (d ++ "/")
                    = String.eqb first d).
  { subst rel_path_str. destruct rest as [| r rest].
    - apply startswith_component; assumption.
    - change (PyPath.str (first :: r :: rest))
        with (first ++ String "/" (PyStr.join "/" (r :: rest)))%string.
      rewrite string_app_assoc. cbn [String.append].
      apply startswith_component; assumption. }
  assert (Hdir : directory_tier rel_path_str (d ++ "/") = String.eqb first d).
  { unfold directory_tier. rewrite endswith_app, Hstart, Hstart'.
    destruct rest; [reflexivity | apply orb_diag]. }
  rewrite Hdir. destruct (String.eqb first d) eqn:Heq; [reflexivity |].
  (* the file tier *)
  assert (Hfile : file_tier rel_path_str (PyPath.name file_path) (d ++ "/") = false).
  { unfold file_tier. rewrite !(fnmatch_literal _ _ (is_literal_slash d Hlit)).
    apply orb_false_iff. split.
    - destruct (String.eqb_spec rel_path_str (d ++ "/")) as [E | _]; [| reflexivity].
      rewrite E, startswith_refl in Hstart. destruct rest; discriminate.
    - destruct (String.eqb_spec (PyPath.name file_path) (d ++ "/")) as [E | _];
        [| reflexivity].
      assert (Hname : In (PyPath.name file_path) (first :: rest)).
      { rewrite (relative_to_inv _ _ _ Hrel). unfold PyPath.name.
        destruct (exists_last (l := first :: rest) ltac:(discriminate))
          as [l [x Hl]].
        rewrite Hl, app_assoc, last_last. apply in_or_app. right. left.
        reflexivity. }
      rewrite Forall_forall in Hfree. specialize (Hfree _ Hname).
      rewrite E, contains_slash_app in Hfree. discriminate. }
  (* the window tier *)
  assert (Hwin : window_tier rel_path_str (d ++ "/") = false).
  { unfold window_tier. rewrite contains_slash_app. cbn [andb].
    rewrite (split_app_slash d EmptyString Hd). cbn [PyStr.split List.length].
    subst rel_path_str.
    replace (PyPath.str (first :: rest)) with (PyStr.join "/" (first :: rest))
      by reflexivity.
    rewrite (split_join (first :: rest) ltac:(discriminate) Hfree).
    apply window_loop_false. intros i Hi. cbn [List.length].
    unfold PyStr.range in Hi. apply in_seq in Hi.
    destruct (slice_two (first :: rest) i) as [a [b [Ha [Hb ->]]]]; [lia |].
    rewrite (fnmatch_literal _ _ (is_literal_slash d Hlit)).
    change (PyStr.join "/" [a; b]) with (a ++ String "/" b)%string.
    destruct (String.eqb_spec (a ++ String "/" b) (d ++ "/")) as [E | _];
      [| reflexivity].
    rewrite Forall_forall in Hwf, Hfree.
    destruct (Hwf b Hb) as [Hne _]. exfalso. apply Hne.
    exact (joined_is_pattern a b d (Hfree a Ha) Hd E). }
  rewrite Hfile, Hwin. reflexivity.
Qed.

Lemma directory_pattern_anchored_witness :
  should_exclude ["my-skill"; "src"; "build"; "out.bin"] ["my-skill"] ["build/"]
  = false
  /\ should_exclude ["my-skill"; "build"; "out.bin"] ["my-skill"] ["build/"] = true.
Proof.
  split.
  - change "build/" with ("build" ++ "/")%string.
    rewrite (directory_pattern_anchored ["my-skill"; "src"; "build"; "out.bin"]
               ["my-skill"] "src" ["build"; "out.bin"] "build");
      try reflexivity.
    repeat constructor; discriminate.
  - change "build/" with ("build" ++ "/")%string.
    rewrite (directory_pattern_anchored ["my-skill"; "build"; "out.bin"]
               ["my-skill"] "build" ["out.bin"] "build");
      try reflexivity.
    repeat constructor; discriminate.
Defined.


(** ** Facts about the file system *)

Section FileSystemFacts.

Lemma assoc_none (name : string) (entries : list (string * node)) :
  FS.assoc name entries = None ->
  existsb (String.eqb name) (map fst entries) = false.
Proof.
  induction entries as [| [m c] es IH]; simpl; [reflexivity |].
  destruct (String.eqb name m); [discriminate | exact IH].
Qed.

Lemma assoc_in (name : string) (c : node) (entries : list (string * node)) :
  FS.assoc name entries = Some c -> In (name, c) entries.
Proof.
  induction entries as [| [m d] es IH]; simpl; [discriminate |].
  destruct (String.eqb_spec name m) as [-> | _].
  - intros H. injection H as ->. left. reflexivity.
  - intros H. right. apply IH. assumption.
Qed.

(** In a directory without repeated names, every entry is the one found
    under its name. *)
Lemma assoc_unique (name : string) (c : node) (entries : list (string * node)) :
  FS.nodupb (map fst entries) = true ->
  In (name, c) entries -> FS.assoc name entries = Some c.
Proof.
  induction entries as [| [m d] es IH]; simpl; intros Hnd Hin; [contradiction |].
  apply andb_true_iff in Hnd as [Hfresh Hnd].
  destruct Hin as [E | Hin].
  - injection E as -> ->. rewrite String.eqb_refl. reflexivity.
  - destruct (String.eqb_spec name m) as [-> | _]; [| apply IH; assumption].
    apply negb_true_iff in Hfresh.
    assert (Hex : existsb (String.eqb m) (map fst es) = true).
    { apply existsb_exists. exists m. split; [| apply String.eqb_refl].
      apply (in_map fst es (m, c)). assumption. }
    congruence.
Qed.

(** Going down a path in two steps. *)
Lemma descend_app (p q : Path) :
  forall n,
    FS.descend n (p ++ q)
    = match FS.descend n p with
      | FS.At m => FS.descend m q
      | FS.Via target rest => FS.Via target (rest ++ q)
      | d => d
      end.
Proof.
  induction p as [| c p IH]; intros n.
  - destruct n; destruct q; reflexivity.
  - destruct n as [| listable searchable entries | target |]; try reflexivity.
    cbn [app FS.descend].
    destruct (negb searchable || FS.name_too_long c); [reflexivity |].
    destruct (FS.assoc c entries) as [child |]; [apply IH | reflexivity].
Qed.

(** The entry at the end of a descent is no link. *)
Lemma descend_at_not_link (p : Path) :
  forall n m, FS.descend n p = FS.At m -> forall target, m <> Symlink target.
Proof.
  induction p as [| c p IH]; intros n m H target.
  - destruct n; simpl in H; try discriminate; injection H as <-; discriminate.
  - destruct n as [| listable searchable entries | |]; try discriminate.
    cbn [FS.descend] in H.
    destruct (negb searchable || FS.name_too_long c); [discriminate |].
    destruct (FS.assoc c entries) as [child |]; [| discriminate].
    exact (IH child m H target).
Qed.

Lemma descend_at_nil (n m : node) : FS.descend n [] = FS.At m -> n = m.
Proof. destruct n; simpl; congruence. Qed.

Lemma unique_names_descend (p : Path) :
  forall n m,
    FS.unique_names n = true -> FS.descend n p = FS.At m ->
    FS.unique_names m = true.
Proof.
  induction p as [| c p IH]; intros n m Hu H.
  - apply descend_at_nil in H. congruence.
  - destruct n as [| listable searchable entries | |]; try discriminate.
    cbn [FS.descend] in H.
    destruct (negb searchable || FS.name_too_long c); [discriminate |].
    destruct (FS.assoc c entries) as [child |] eqn:Ha; [| discriminate].
    apply (IH child m); [| assumption].
    simpl in Hu. apply andb_true_iff in Hu as [_ Hall].
    rewrite forallb_forall in Hall.
    exact (Hall (c, child) (assoc_in _ _ _ Ha)).
Qed.

Lemma path_length_app (p q : Path) :
  FS.path_length (p ++ q) = FS.path_length p + FS.path_length q.
Proof.
  unfold FS.path_length. rewrite map_app, list_sum_app. reflexivity.
Qed.

Lemma too_long_app (p q : Path) :
  FS.too_long p = true -> FS.too_long (p ++ q) = true.
Proof.
  unfold FS.too_long. rewrite path_length_app, !Nat.leb_le. lia.
Qed.

Lemma resolve_from_error_app (fuel : nat) (root : node) :
  forall p q,
    FS.resolve_from fuel root p = FS.Error ->
    FS.resolve_from fuel root (p ++ q) = FS.Error.
Proof.
  induction fuel as [| fuel IH]; intros p q H; [discriminate |].
  cbn [FS.resolve_from] in *. rewrite descend_app.
  destruct (FS.descend root p) as [m | target rest | | |]; try discriminate.
  - rewrite app_assoc. apply IH. assumption.
  - reflexivity.
Qed.

(** What is refused at a path is refused below it. *)
Lemma stat_refused_app (root : node) (p q : Path) :
  FS.stat root p = FS.Refused -> FS.stat root (p ++ q) = FS.Refused.
Proof.
  unfold FS.stat, FS.stat_node, FS.resolve. intros H.
  destruct (FS.too_long p) eqn:Hp.
  - rewrite (too_long_app p q Hp). reflexivity.
  - assert (He : FS.resolve_from (S FS.SYMLOOP_MAX) root p = FS.Error).
    { destruct (FS.resolve_from (S FS.SYMLOOP_MAX) root p); try discriminate.
      reflexivity. }
    rewrite (resolve_from_error_app _ _ _ q He).
    destruct (FS.too_long (p ++ q)); reflexivity.
Qed.

Lemma exists_is_dir_none (root : node) (p : Path) :
  FS.is_dir root p = None <-> FS.exists_ root p = None.
Proof.
  unfold FS.is_dir, FS.exists_.
  destruct (FS.stat root p) as [[| |] | |]; split; congruence.
Qed.

Lemma length_filter_map {A B : Type} (f : B -> bool) (k : A -> B) (l : list A) :
  List.length (filter f (map k l))
  = list_sum (map (fun x => if f (k x) then 1 else 0) l).
Proof.
  induction l as [| x l IH]; simpl; [reflexivity |].
  destruct (f (k x)); simpl; rewrite IH; reflexivity.
Qed.

Lemma length_filter_flat_map {A B : Type} (f : B -> bool) (g : A -> list B)
    (l : list A) :
  List.length (filter f (flat_map g l))
  = list_sum (map (fun x => List.length (filter f (g x))) l).
Proof.
  induction l as [| x l IH]; simpl; [reflexivity |].
  rewrite filter_app, length_app, IH. reflexivity.
Qed.

Lemma list_sum_map_add {A : Type} (a b : A -> nat) (l : list A) :
  list_sum (map a l) + list_sum (map b l) = list_sum (map (fun x => a x + b x) l).
Proof. induction l as [| x l IH]; simpl; lia. Qed.

(** [is_file()] on an entry of a directory answers only when the
    directory may be searched, and then by the entry. *)
Lemma is_file_entry (root : node) (base : Path) (listable searchable : bool)
    (entries : list (string * node)) (c : string) (child : node) (b : bool) :
  FS.descend root base = FS.At (Dir listable searchable entries) ->
  FS.nodupb (map fst entries) = true ->
  In (c, child) entries ->
  FS.is_file root (PyPath.child base c) = Some b ->
  searchable = true
  /\ FS.name_too_long c = false
  /\ entry_is_file root child = Some b.
Proof.
  intros Hd Hnd Hin.
  unfold FS.is_file, FS.stat, FS.stat_node, FS.resolve, PyPath.child.
  destruct (FS.too_long (base ++ [c])); [discriminate |].
  cbn [FS.resolve_from]. rewrite descend_app, Hd. cbn [FS.descend].
  destruct searchable; [| discriminate]. cbn [negb orb].
  destruct (FS.name_too_long c); [discriminate |].
  rewrite (assoc_unique c child entries Hnd Hin).
  destruct child as [| l s es | target |]; cbn [FS.descend entry_is_file].
  - intros H. auto.
  - intros H. auto.
  - rewrite app_nil_r.
    destruct (FS.resolve_from FS.SYMLOOP_MAX root target) as [q [| | |] | | | |];
      cbn [FS.answer_of FS.kind_of]; intros H; auto; discriminate.
  - intros H. auto.
Qed.

Lemma entry_is_file_node (root n : node) (b : bool) :
  entry_is_file root n = Some b ->
  b = FS.is_regular_node n || FS.is_file_link_node root n.
Proof.
  destruct n as [| l s es | target |];
    cbn [entry_is_file FS.is_regular_node FS.is_file_link_node orb];
    try congruence.
  destruct (FS.resolve_from FS.SYMLOOP_MAX root target) as [q [| | |] | | | |];
    congruence.
Qed.

(** When [is_file()] answers for every entry that the walk meets, those
    for which it holds are as many as the tree holds. *)
Lemma rglob_node_count (root : node) :
  forall (n : node) (base : Path),
    FS.unique_names n = true ->
    FS.descend root base = FS.At n ->
    (forall p, In p (FS.rglob_node base n) -> FS.is_file root p <> None) ->
    List.length (filter (is_file_at root) (FS.rglob_node base n))
    = FS.count_below
        (fun m => FS.is_regular_node m || FS.is_file_link_node root m) n.
Proof.
  induction n as [| listable searchable entries IH | |] using node_nested_ind;
    intros base Hu Hd Hall; try reflexivity.
  simpl in Hu. apply andb_true_iff in Hu as [Hnd Hus].
  rewrite forallb_forall in Hus. rewrite Forall_forall in IH.
  cbn [FS.rglob_node FS.count_below] in *.
  destruct listable; [| reflexivity]. cbn [andb].
  assert (Hentry : forall e, In e entries ->
            exists b, FS.is_file root (PyPath.child base (fst e)) = Some b
                      /\ searchable = true
                      /\ FS.name_too_long (fst e) = false
                      /\ entry_is_file root (snd e) = Some b).
  { intros [c child] Hin.
    destruct (FS.is_file root (PyPath.child base c)) as [b |] eqn:Hf.
    - exists b. split; [exact Hf |].
      exact (is_file_entry _ _ _ _ _ _ _ _ Hd Hnd Hin Hf).
    - exfalso. apply (Hall (PyPath.child base c)); [| assumption].
      apply in_or_app. left.
      apply (in_map (fun e => PyPath.child base (fst e)) entries (c, child) Hin). }
  destruct searchable.
  - rewrite filter_app, length_app, length_filter_map, length_filter_flat_map.
    rewrite list_sum_map_add. f_equal. apply map_ext_in. intros e Hin.
    destruct (Hentry e Hin) as [b [Hf [_ [Hname Hb]]]].
    f_equal.
    + unfold is_file_at. rewrite Hf, <- (entry_is_file_node _ _ _ Hb).
      destruct b; reflexivity.
    + destruct (snd e) as [| l s es | target |] eqn:Hsnd; try reflexivity.
      rewrite <- Hsnd. apply (IH e Hin).
      * apply Hus. assumption.
      * unfold PyPath.child. rewrite descend_app, Hd. cbn [FS.descend negb orb].
        rewrite Hname.
        destruct e as [c child]. simpl in Hsnd. subst child. cbn [fst snd].
        rewrite (assoc_unique c _ entries Hnd Hin). reflexivity.
      * intros p Hp. apply Hall. apply in_or_app. right.
        apply in_flat_map. exists e. split; assumption.
  - destruct entries as [| e entries]; [reflexivity |].
    destruct (Hentry e (or_introl eq_refl)) as [b [_ [Hs _]]]. discriminate.
Qed.

(** Every path met by the walk lies strictly below its starting point. *)
Lemma rglob_node_below :
  forall (n : node) (base file_path : Path),
    In file_path (FS.rglob_node base n) ->
    exists rel, rel <> [] /\ file_path = base ++ rel.
Proof.
  induction n as [| listable searchable entries IH | |] using node_nested_ind;
    intros base file_path Hin; try contradiction.
  rewrite Forall_forall in IH. cbn [FS.rglob_node] in Hin.
  destruct listable; [| contradiction].
  apply in_app_or in Hin as [Hin | Hin].
  - apply in_map_iff in Hin as [e [<- _]].
    exists [fst e]. split; [discriminate | reflexivity].
  - destruct searchable; [| contradiction].
    apply in_flat_map in Hin as [e [He Hin]].
    destruct (IH e He _ _ Hin) as [rel [_ ->]].
    exists (fst e :: rel). split; [discriminate |].
    unfold PyPath.child. rewrite <- app_assoc. reflexivity.
Qed.

Lemma rglob_below (root : node) (p file_path : Path) :
  In file_path (FS.rglob root p) ->
  exists rel, rel <> [] /\ file_path = p ++ rel.
Proof.
  unfold FS.rglob. destruct (FS.stat_node root p); try contradiction.
  apply rglob_node_below.
Qed.

(** At a path that goes through no link, [os.stat] finds the entry. *)
Lemma stat_node_resolved (root : node) (p : Path) (n : node) :
  FS.descend root p = FS.At n ->
  FS.stat_node root p = if FS.too_long p then FS.Refused else FS.Found n.
Proof.
  intros H. unfold FS.stat_node, FS.resolve.
  destruct (FS.too_long p); [reflexivity |].
  cbn [FS.resolve_from]. rewrite H. reflexivity.
Qed.

End FileSystemFacts.

(** ** Trees grow: what a run adds to the tree takes nothing away *)

Section Growth.

Lemma grown_end_refl (files : bool) (d : FS.descent) : grown_end files d d.
Proof. destruct d; simpl; eauto. Qed.

Lemma grown_end_trans (files : bool) (d1 d2 d3 : FS.descent) :
  grown_end files d1 d2 -> grown_end files d2 d3 -> grown_end files d1 d3.
Proof.
  destruct d1 as [m1 | t1 r1 | | |]; simpl.
  - intros [m2 [-> H2]] [m3 [-> H3]]. exists m3. split; congruence.
  - intros ->. simpl. auto.
  - destruct d2 as [m2 | t2 r2 | | |]; simpl; try tauto.
    + intros H [m3 [-> H3]]. rewrite H3. assumption.
    + intros H ->. assumption.
    + intros _ ->. exact I.
  - intros ->. simpl. auto.
  - intros ->. simpl. auto.
Qed.

Lemma grows_refl (files : bool) (n : node) : grows files n n.
Proof. intros p. apply grown_end_refl. Qed.

Lemma grows_trans (files : bool) (n1 n2 n3 : node) :
  grows files n1 n2 -> grows files n2 n3 -> grows files n1 n3.
Proof. intros H1 H2 p. exact (grown_end_trans _ _ _ _ (H1 p) (H2 p)). Qed.

Lemma grown_end_files (d d' : FS.descent) :
  grown_end false d d' -> grown_end true d d'.
Proof.
  destruct d; simpl; auto. destruct d'; auto.
  intros [H | [H _]]; [left; assumption | discriminate].
Qed.

Lemma grows_files (n n' : node) : grows false n n' -> grows true n n'.
Proof. intros H p. apply grown_end_files, H. Qed.

Lemma assoc_set_entry (name d : string) (n : node) (entries : list (string * node)) :
  FS.assoc d (FS.set_entry name n entries)
  = if String.eqb d name
    then match FS.assoc name entries with Some _ => Some n | None => None end
    else FS.assoc d entries.
Proof.
  induction entries as [| [m c] es IH]; simpl.
  - destruct (String.eqb d name); reflexivity.
  - destruct (String.eqb_spec name m) as [-> | Hnm]; simpl.
    + destruct (String.eqb d m); reflexivity.
    + rewrite IH. destruct (String.eqb_spec d name) as [-> | _]; [| reflexivity].
      destruct (String.eqb_spec name m); [contradiction | reflexivity].
Qed.

Lemma assoc_snoc (name d : string) (n : node) (entries : list (string * node)) :
  FS.assoc d (entries ++ [(name, n)])
  = match FS.assoc d entries with
    | Some c => Some c
    | None => if String.eqb d name then Some n else None
    end.
Proof.
  induction entries as [| [m c] es IH]; simpl; [reflexivity |].
  destruct (String.eqb d m); [reflexivity | exact IH].
Qed.

Lemma grown_end_new (files : bool) (new : node) (p : Path) :
  addable files new -> grown_end files FS.NoEntry (FS.descend new p).
Proof.
  intros [[l [s ->]] | [-> ->]]; destruct p as [| c p]; simpl; auto.
  destruct (negb s || FS.name_too_long c); exact I.
Qed.

Lemma add_at_grows (files : bool) (new : node) (q : Path) :
  addable files new ->
  forall n n', FS.add_at new q n = Some n' -> grows files n n'.
Proof.
  intros Hnew. induction q as [| c q IH]; intros n n' H.
  - destruct n; discriminate.
  - destruct n as [| listable searchable entries | |]; try discriminate.
    cbn [FS.add_at] in H.
    destruct (FS.assoc c entries) as [child |] eqn:Ha.
    + destruct q as [| c2 q]; [discriminate |].
      destruct (FS.add_at new (c2 :: q) child) as [child' |] eqn:Hc;
        [| discriminate].
      injection H as <-. intros [| d p]; [simpl; eauto |].
      cbn [FS.descend].
      destruct (negb searchable || FS.name_too_long d); [reflexivity |].
      rewrite assoc_set_entry.
      destruct (String.eqb_spec d c) as [-> | _]; [| apply grown_end_refl].
      rewrite Ha. exact (IH child child' Hc p).
    + destruct q as [| c2 q]; [| discriminate].
      injection H as <-. intros [| d p]; [simpl; eauto |].
      cbn [FS.descend].
      destruct (negb searchable || FS.name_too_long d); [reflexivity |].
      rewrite assoc_snoc.
      destruct (FS.assoc d entries) as [ch |] eqn:Hd; [apply grown_end_refl |].
      destruct (String.eqb d c); [| exact I].
      apply grown_end_new. assumption.
Qed.

Lemma map_fst_set_entry (name : string) (n : node) (entries : list (string * node)) :
  map fst (FS.set_entry name n entries) = map fst entries.
Proof.
  induction entries as [| [m c] es IH]; simpl; [reflexivity |].
  destruct (String.eqb name m); simpl; [| rewrite IH]; reflexivity.
Qed.

Lemma forallb_set_entry (f : string * node -> bool) (name : string) (n : node)
    (entries : list (string * node)) :
  forallb f entries = true ->
  (forall m, f (m, n) = true) ->
  forallb f (FS.set_entry name n entries) = true.
Proof.
  intros Hall Hn. induction entries as [| [m c] es IH]; simpl; [reflexivity |].
  simpl in Hall. apply andb_true_iff in Hall as [Hc Hes].
  destruct (String.eqb name m); simpl.
  - rewrite Hn, Hes. reflexivity.
  - rewrite Hc, (IH Hes). reflexivity.
Qed.

Lemma nodupb_snoc (l : list string) (x : string) :
  FS.nodupb l = true -> existsb (String.eqb x) l = false ->
  FS.nodupb (l ++ [x]) = true.
Proof.
  induction l as [| y l IH]; simpl; intros Hnd Hx; [reflexivity |].
  apply andb_true_iff in Hnd as [Hy Hnd].
  apply orb_false_iff in Hx as [Hxy Hx].
  rewrite existsb_app, (IH Hnd Hx). simpl.
  rewrite String.eqb_sym, Hxy.
  apply negb_true_iff in Hy. rewrite Hy. reflexivity.
Qed.

Lemma unique_names_child (listable searchable : bool)
    (entries : list (string * node)) (name : string) (child : node) :
  FS.unique_names (Dir listable searchable entries) = true ->
  FS.assoc name entries = Some child ->
  FS.unique_names child = true.
Proof.
  simpl. intros Hu Ha. apply andb_true_iff in Hu as [_ Hall].
  rewrite forallb_forall in Hall.
  exact (Hall (name, child) (assoc_in _ _ _ Ha)).
Qed.

(** Adding an entry under a new name keeps names unique. *)
Lemma add_at_unique (new : node) (q : Path) :
  FS.unique_names new = true ->
  forall n n',
    FS.unique_names n = true -> FS.add_at new q n = Some n' ->
    FS.unique_names n' = true.
Proof.
  intros Hnew. induction q as [| c q IH]; intros n n' Hu H.
  - destruct n; discriminate.
  - destruct n as [| listable searchable entries | |]; try discriminate.
    cbn [FS.add_at] in H.
    destruct (FS.assoc c entries) as [child |] eqn:Ha.
    + destruct q as [| c2 q]; [discriminate |].
      destruct (FS.add_at new (c2 :: q) child) as [child' |] eqn:Hc;
        [| discriminate].
      injection H as <-.
      pose proof (IH child child' (unique_names_child _ _ _ _ _ Hu Ha) Hc) as Hc'.
      simpl in Hu. apply andb_true_iff in Hu as [Hnd Hall].
      simpl. rewrite map_fst_set_entry, Hnd. simpl.
      apply forallb_set_entry; [assumption | intros m; exact Hc'].
    + destruct q as [| c2 q]; [| discriminate].
      injection H as <-.
      simpl in Hu. apply andb_true_iff in Hu as [Hnd Hall].
      simpl. rewrite map_app, forallb_app. simpl.
      rewrite (nodupb_snoc _ _ Hnd (assoc_none _ _ Ha)), Hall, Hnew. reflexivity.
Qed.

(** The entry added is found where it was added. *)
Lemma add_at_descend (new : node) (q : Path) :
  (forall target, new <> Symlink target) ->
  forall n n',
    FS.descend n q = FS.NoEntry -> FS.add_at new q n = Some n' ->
    FS.descend n' q = FS.At new.
Proof.
  intros Hnew. induction q as [| c q IH]; intros n n' Hd H.
  - destruct n; discriminate.
  - destruct n as [| listable searchable entries | |]; try discriminate.
    cbn [FS.add_at] in H. cbn [FS.descend] in Hd.
    destruct (negb searchable || FS.name_too_long c) eqn:Hc; [discriminate |].
    destruct (FS.assoc c entries) as [child |] eqn:Ha.
    + destruct q as [| c2 q]; [discriminate |].
      destruct (FS.add_at new (c2 :: q) child) as [child' |] eqn:Hadd;
        [| discriminate].
      injection H as <-. cbn [FS.descend]. rewrite Hc, assoc_set_entry.
      rewrite String.eqb_refl, Ha. exact (IH child child' Hd Hadd).
    + destruct q as [| c2 q]; [| discriminate].
      injection H as <-. cbn [FS.descend]. rewrite Hc, assoc_snoc, Ha.
      rewrite String.eqb_refl.
      destruct new; try reflexivity. exfalso. exact (Hnew _ eq_refl).
Qed.

(** An entry is added only in a directory that is there. *)
Lemma add_at_parent (new : node) (c : string) (d : Path) :
  forall n n',
    FS.add_at new (d ++ [c]) n = Some n' -> FS.descend n d <> FS.NoEntry.
Proof.
  induction d as [| x d IH]; intros n n' H.
  - destruct n; discriminate.
  - destruct n as [| listable searchable entries | |]; try discriminate.
    cbn [app FS.add_at] in H. cbn [FS.descend].
    destruct (negb searchable || FS.name_too_long x); [discriminate |].
    destruct (FS.assoc x entries) as [child |].
    + destruct (d ++ [c]) as [| c2 q] eqn:Hq; [discriminate |].
      destruct (FS.add_at new (c2 :: q) child) as [child' |] eqn:Hadd;
        [| discriminate].
      exact (IH child child' Hadd).
    + destruct (d ++ [c]) eqn:Hq; [| discriminate].
      destruct d; discriminate.
Qed.

Section Resolution.

Variable files : bool.
Variables root root' : node.
Hypothesis Hgrow : grows files root root'.

(** What a resolution finds in the tree, it finds in the grown tree. *)
Lemma grows_resolve_from (fuel : nat) :
  forall p,
    match FS.resolve_from fuel root p with
    | FS.Resolved q m =>
        exists m', FS.resolve_from fuel root' p = FS.Resolved q m'
                   /\ FS.kind_of m' = FS.kind_of m
    | FS.NotFound q =>
        match FS.resolve_from fuel root' p with
        | FS.Resolved q' m' =>
            q' = q
            /\ (FS.kind_of m' = KDir \/ (files = true /\ FS.kind_of m' = KFile))
        | _ => True
        end
    | l => FS.resolve_from fuel root' p = l
    end.
Proof.
  induction fuel as [| fuel IH]; intros p; [reflexivity |].
  cbn [FS.resolve_from]. pose proof (Hgrow p) as Hp.
  destruct (FS.descend root p) as [m | target rest | | |]; simpl in Hp.
  - destruct Hp as [m' [-> Hk]]. eauto.
  - rewrite Hp. apply IH.
  - destruct (FS.descend root' p); try exact I; [| contradiction].
    split; [reflexivity | assumption].
  - rewrite Hp. reflexivity.
  - rewrite Hp. reflexivity.
Qed.

Lemma grows_stat_found (p : Path) (k : kind) :
  FS.stat root p = FS.Found k -> FS.stat root' p = FS.Found k.
Proof.
  unfold FS.stat, FS.stat_node, FS.resolve.
  destruct (FS.too_long p); [discriminate |].
  pose proof (grows_resolve_from (S FS.SYMLOOP_MAX) p) as H.
  destruct (FS.resolve_from (S FS.SYMLOOP_MAX) root p) as [q m | q | | |];
    try discriminate.
  destruct H as [m' [-> Hk]]. simpl. congruence.
Qed.

Lemma grows_stat_refused (p : Path) :
  FS.stat root p = FS.Refused -> FS.stat root' p = FS.Refused.
Proof.
  unfold FS.stat, FS.stat_node, FS.resolve.
  destruct (FS.too_long p); [reflexivity |].
  pose proof (grows_resolve_from (S FS.SYMLOOP_MAX) p) as H.
  destruct (FS.resolve_from (S FS.SYMLOOP_MAX) root p) as [q m | q | | |];
    try discriminate.
  rewrite H. reflexivity.
Qed.

Lemma grows_stat_missing (p : Path) :
  FS.stat root p = FS.Missing ->
  FS.stat root' p = FS.Missing
  \/ FS.stat root' p = FS.Refused
  \/ FS.stat root' p = FS.Found KDir
  \/ (files = true /\ FS.stat root' p = FS.Found KFile).
Proof.
  unfold FS.stat, FS.stat_node, FS.resolve.
  destruct (FS.too_long p); [discriminate |].
  pose proof (grows_resolve_from (S FS.SYMLOOP_MAX) p) as H.
  destruct (FS.resolve_from (S FS.SYMLOOP_MAX) root p) as [q m | q | | |];
    try discriminate; intros _.
  - destruct (FS.resolve_from (S FS.SYMLOOP_MAX) root' p) as [q' m' | | | |];
      simpl; auto.
    destruct H as [_ [H | [Hf H]]]; rewrite H; auto.
  - rewrite H. auto.
  - rewrite H. auto.
Qed.

(** A path that named nothing leads, through the same links, to what was
    added for it. *)
Lemma grows_resolve_created (fuel : nat) (q : Path) (m' : node) :
  FS.descend root' q = FS.At m' ->
  forall p,
    FS.resolve_from fuel root p = FS.NotFound q ->
    FS.resolve_from fuel root' p = FS.Resolved q m'.
Proof.
  intros Hq. induction fuel as [| fuel IH]; intros p; [discriminate |].
  cbn [FS.resolve_from]. pose proof (Hgrow p) as Hp.
  destruct (FS.descend root p) as [m | target rest | | |]; simpl in Hp;
    try discriminate.
  - rewrite Hp. apply IH.
  - intros E. injection E as ->. rewrite Hq. reflexivity.
Qed.

Lemma grows_resolved (p : Path) :
  FS.resolved root p = true -> FS.resolved root' p = true.
Proof.
  unfold FS.resolved. pose proof (Hgrow p) as Hp.
  destruct (FS.descend root p); try discriminate.
  destruct Hp as [m' [-> _]]. reflexivity.
Qed.

End Resolution.

Lemma resolve_from_not_found (fuel : nat) (root : node) (q : Path) :
  forall p,
    FS.resolve_from fuel root p = FS.NotFound q -> FS.descend root q = FS.NoEntry.
Proof.
  induction fuel as [| fuel IH]; intros p; [discriminate |].
  cbn [FS.resolve_from].
  destruct (FS.descend root p) as [m | target rest | | |] eqn:Hd;
    try discriminate.
  - apply IH.
  - intros E. injection E as <-. assumption.
Qed.

Lemma resolve_from_resolved (fuel : nat) (root : node) (q : Path) (m : node) :
  forall p,
    FS.resolve_from fuel root p = FS.Resolved q m -> FS.descend root q = FS.At m.
Proof.
  induction fuel as [| fuel IH]; intros p; [discriminate |].
  cbn [FS.resolve_from].
  destruct (FS.descend root p) as [m0 | target rest | | |] eqn:Hd;
    try discriminate.
  - intros E. injection E as <- <-. assumption.
  - apply IH.
Qed.

(** A file can be opened or created only in a directory. *)
Lemma resolve_from_parent (root : node) (c : string) (fuel : nat) :
  forall d,
    match FS.resolve_from fuel root (d ++ [c]) with
    | FS.Resolved _ _ => True
    | FS.NotFound q => FS.add_at File q root <> None
    | _ => False
    end ->
    exists q listable searchable entries,
      FS.resolve_from fuel root d = FS.Resolved q (Dir listable searchable entries).
Proof.
  induction fuel as [| fuel IH]; intros d; [contradiction |].
  cbn [FS.resolve_from]. rewrite descend_app.
  destruct (FS.descend root d) as [m | target rest | | |] eqn:Hd; try contradiction.
  - destruct m as [| listable searchable entries | target |]; try contradiction.
    + eauto.
    + exfalso. exact (descend_at_not_link _ _ _ Hd target eq_refl).
  - rewrite app_assoc. apply IH.
  - intros H. exfalso.
    destruct (FS.add_at File (d ++ [c]) root) as [r |] eqn:Hadd; [| congruence].
    exact (add_at_parent _ _ _ _ _ Hadd Hd).
Qed.

Lemma too_long_prefix (p q : Path) :
  FS.too_long (p ++ q) = false -> FS.too_long p = false.
Proof.
  intros H. destruct (FS.too_long p) eqn:Hp; [| reflexivity].
  rewrite (too_long_app p q Hp) in H. discriminate.
Qed.

(** [os.mkdir] adds a directory or leaves the tree as it is. *)
Lemma os_mkdir_made (ok : Path -> bool) (l s : bool) (root root' : node)
    (p : Path) :
  FS.os_mkdir ok l s root p = FS.Made root' ->
  grows false root root'
  /\ (FS.unique_names root = true -> FS.unique_names root' = true).
Proof.
  unfold FS.os_mkdir. destruct (FS.too_long p); [discriminate |].
  destruct p as [| c p]; [discriminate |].
  destruct (FS.resolve_from (S FS.SYMLOOP_MAX) root (PyPath.parent (c :: p)))
    as [q [| listable searchable entries | |] | | | |]; try discriminate.
  destruct (negb searchable || FS.name_too_long (PyPath.name (c :: p)));
    [discriminate |].
  destruct (FS.assoc (PyPath.name (c :: p)) entries); [discriminate |].
  destruct (ok (c :: p)); [| discriminate].
  destruct (FS.add_at (Dir l s []) _ root) as [r |] eqn:Hadd;
    [| discriminate].
  intros E. injection E as <-. split.
  - apply (add_at_grows false _ _ (or_introl (ex_intro _ l (ex_intro _ s eq_refl))) _ _ Hadd).
  - intros Hu. exact (add_at_unique (Dir l s []) _ eq_refl _ _ Hu Hadd).
Qed.

(** [Path.mkdir] adds directories, also when it raises in the end. *)
Lemma path_mkdir_grows (ok : Path -> bool) (l s : bool) (rp : list string) :
  forall root root' made,
    FS.path_mkdir ok l s root rp = (root', made) ->
    grows false root root'
    /\ (FS.unique_names root = true -> FS.unique_names root' = true).
Proof.
  induction rp as [| c rp IH]; intros root root' made H; cbn [FS.path_mkdir] in H.
  - destruct (FS.os_mkdir ok l s root (rev [])) as [r | |] eqn:Hm.
    + injection H as <- _. exact (os_mkdir_made _ _ _ _ _ _ Hm).
    + injection H as <- _. split; [apply grows_refl | auto].
    + injection H as <- _. split; [apply grows_refl | auto].
  - destruct (FS.os_mkdir ok l s root (rev (c :: rp))) as [r | |] eqn:Hm.
    + injection H as <- _. exact (os_mkdir_made _ _ _ _ _ _ Hm).
    + destruct (FS.path_mkdir ok l s root rp) as [root1 made1] eqn:Hp.
      destruct (IH _ _ _ Hp) as [Hg1 Hu1].
      destruct made1; [| injection H as <- _; split; assumption].
      destruct (FS.os_mkdir ok l s root1 (rev (c :: rp))) as [r | |] eqn:Hm2.
      * injection H as <- _. destruct (os_mkdir_made _ _ _ _ _ _ Hm2) as [Hg2 Hu2].
        split; [exact (grows_trans _ _ _ _ Hg1 Hg2) | auto].
      * injection H as <- _. split; assumption.
      * injection H as <- _. split; assumption.
    + injection H as <- _. split; [apply grows_refl | auto].
Qed.

(** When [Path.mkdir] returns, the directory is there. *)
Lemma os_mkdir_is_dir (ok : Path -> bool) (l s : bool) (root root' : node)
    (p : Path) :
  FS.os_mkdir ok l s root p = FS.Made root' -> FS.is_dir root' p = Some true.
Proof.
  unfold FS.os_mkdir. destruct (FS.too_long p) eqn:Hlong; [discriminate |].
  destruct p as [| c p]; [discriminate |].
  destruct (FS.resolve_from (S FS.SYMLOOP_MAX) root (PyPath.parent (c :: p)))
    as [q [| listable searchable entries | |] | | | |] eqn:Hres; try discriminate.
  destruct (negb searchable || FS.name_too_long (PyPath.name (c :: p))) eqn:Hc;
    [discriminate |].
  destruct (FS.assoc (PyPath.name (c :: p)) entries) eqn:Ha; [discriminate |].
  destruct (ok (c :: p)); [| discriminate].
  destruct (FS.add_at (Dir l s []) _ root) as [r |] eqn:Hadd;
    [| discriminate].
  intros E. injection E as <-.
  pose proof (add_at_grows false _ _ (or_introl (ex_intro _ l (ex_intro _ s eq_refl))) _ _ Hadd) as Hg.
  pose proof (resolve_from_resolved _ _ _ _ _ Hres) as Hq.
  assert (Hnew : FS.descend r (PyPath.child q (PyPath.name (c :: p)))
                 = FS.At (Dir l s [])).
  { apply (add_at_descend (Dir l s []) _ ltac:(intros t; discriminate)
             root r); [| assumption].
    unfold PyPath.child. rewrite descend_app, Hq. cbn [FS.descend].
    rewrite Hc, Ha. reflexivity. }
  pose proof (grows_resolve_from false root r Hg (S FS.SYMLOOP_MAX)
                (PyPath.parent (c :: p))) as Hpar.
  rewrite Hres in Hpar. destruct Hpar as [m' [Hpar Hk]].
  unfold FS.is_dir, FS.stat, FS.stat_node, FS.resolve. rewrite Hlong.
  assert (Hsplit : c :: p = PyPath.parent (c :: p) ++ [PyPath.name (c :: p)]).
  { unfold PyPath.parent, PyPath.name. apply app_removelast_last. discriminate. }
  rewrite Hsplit at 1.
  assert (Hgo : forall fuel p0 m0 x n0,
            FS.resolve_from fuel r p0 = FS.Resolved q m0 ->
            FS.descend r (q ++ [x]) = FS.At n0 ->
            FS.resolve_from fuel r (p0 ++ [x]) = FS.Resolved (q ++ [x]) n0).
  { clear. induction fuel as [| fuel IH]; intros p0 m0 x n0; [discriminate |].
    cbn [FS.resolve_from]. rewrite (descend_app p0 [x]).
    destruct (FS.descend r p0) as [m | target rest | | |] eqn:Hd;
      try discriminate.
    - intros E Hx. injection E as <- <-.
      rewrite (descend_app p0 [x]), Hd in Hx. rewrite Hx. reflexivity.
    - rewrite (app_assoc target rest [x]). apply IH. }
  rewrite (Hgo _ _ _ _ _ Hpar Hnew). reflexivity.
Qed.

Lemma path_mkdir_is_dir (ok : Path -> bool) (l s : bool) (rp : list string) :
  forall root root',
    FS.path_mkdir ok l s root rp = (root', true) ->
    FS.is_dir root' (rev rp) = Some true.
Proof.
  assert (Hb : forall r p,
            match FS.is_dir r p with Some true => true | _ => false end = true ->
            FS.is_dir r p = Some true).
  { intros r p. destruct (FS.is_dir r p) as [[|] |]; congruence. }
  destruct rp as [| c rp]; intros root root' H; cbn [FS.path_mkdir] in H.
  - destruct (FS.os_mkdir ok l s root (rev [])) as [r | |] eqn:Hm.
    + injection H as <-. exact (os_mkdir_is_dir _ _ _ _ _ _ Hm).
    + discriminate.
    + injection H as <- H. exact (Hb _ _ H).
  - destruct (FS.os_mkdir ok l s root (rev (c :: rp))) as [r | |] eqn:Hm.
    + injection H as <-. exact (os_mkdir_is_dir _ _ _ _ _ _ Hm).
    + destruct (FS.path_mkdir ok l s root rp) as [root1 made1].
      destruct made1; [| discriminate].
      destruct (FS.os_mkdir ok l s root1 (rev (c :: rp))) as [r | |] eqn:Hm2.
      * injection H as <-. exact (os_mkdir_is_dir _ _ _ _ _ _ Hm2).
      * discriminate.
      * injection H as <- H. exact (Hb _ _ H).
    + injection H as <- H. exact (Hb _ _ H).
Qed.

(** Opening a file for writing adds at most that file; afterwards the
    path names something that is no directory, in a directory. *)
Lemma open_write_inv (root root' : node) (p : Path) :
  FS.open_write root p = Some root' ->
  grows true root root'
  /\ (FS.unique_names root = true -> FS.unique_names root' = true)
  /\ (FS.stat root' p = FS.Found KFile \/ FS.stat root' p = FS.Found KOther).
Proof.
  unfold FS.open_write, FS.resolve, FS.stat, FS.stat_node, FS.resolve.
  destruct (FS.too_long p); [discriminate |].
  destruct (FS.resolve_from (S FS.SYMLOOP_MAX) root p) as [q m | q | | |] eqn:Hres;
    try discriminate.
  - intros H.
    assert (E : root' = root /\ (FS.kind_of m = KFile \/ FS.kind_of m = KOther)).
    { destruct m; try discriminate; injection H as <-; simpl; auto. }
    destruct E as [-> Hk]. rewrite Hres. simpl.
    split; [apply grows_refl |]. split; [auto |].
    destruct Hk as [-> | ->]; auto.
  - intros Hadd.
    pose proof (add_at_grows true File q (or_intror (conj eq_refl eq_refl))
                  _ _ Hadd) as Hg.
    split; [assumption |]. split.
    + intros Hu. exact (add_at_unique File _ eq_refl _ _ Hu Hadd).
    + left.
      assert (Hq : FS.descend root' q = FS.At File).
      { apply (add_at_descend File _ ltac:(intros t; discriminate) root root'
                 (resolve_from_not_found _ _ _ _ Hres) Hadd). }
      rewrite (grows_resolve_created true root root' Hg _ _ _ Hq _ Hres).
      reflexivity.
Qed.

Lemma open_write_parent (root root' : node) (d : Path) (c : string) :
  FS.open_write root (PyPath.child d c) = Some root' ->
  FS.is_dir root' d = Some true.
Proof.
  intros H. destruct (open_write_inv _ _ _ H) as [Hg _].
  assert (Hd : FS.stat root d = FS.Found KDir).
  { revert H. unfold FS.open_write, FS.resolve, FS.stat, FS.stat_node, FS.resolve,
      PyPath.child.
    destruct (FS.too_long (d ++ [c])) eqn:Hlong; [discriminate |].
    rewrite (too_long_prefix _ _ Hlong). intros H.
    destruct (resolve_from_parent root c (S FS.SYMLOOP_MAX) d)
      as [q [listable [searchable [entries ->]]]]; [| reflexivity].
    destruct (FS.resolve_from (S FS.SYMLOOP_MAX) root (d ++ [c]));
      try discriminate; [exact I | congruence]. }
  unfold FS.is_dir. rewrite (grows_stat_found true root root' Hg _ _ Hd).
  reflexivity.
Qed.

End Growth.

(** ** The rule loader *)

Section RuleLoader.

Lemma collect_patterns_filter (patterns lines : list string) :
  collect_patterns patterns lines
  = patterns ++ filter is_pattern_line (map PyStr.strip lines).
Proof.
  revert patterns. induction lines as [| line lines IH]; intros patterns;
    cbn [collect_patterns map filter].
  - rewrite app_nil_r. reflexivity.
  - change (negb (PyStr.strip line =? EmptyString)
            && negb (PyStr.startswith (PyStr.strip line) "#"))
      with (is_pattern_line (PyStr.strip line)).
    destruct (is_pattern_line (PyStr.strip line)).
    + rewrite IH, <- app_assoc. reflexivity.
    + apply IH.
Qed.

Lemma rstrip_head (s t : string) (c : ascii) :
  PyStr.rstrip s = String c t -> exists s', s = String c s'.
Proof.
  destruct s as [| d s]; simpl; [discriminate |].
  destruct (PyStr.rstrip s).
  - destruct (PyStr.isspace d); [discriminate |].
    intros H. injection H as -> _. eauto.
  - intros H. injection H as -> _. eauto.
Qed.

Lemma lstrip_head (s t : string) (c : ascii) :
  PyStr.lstrip s = String c t -> PyStr.isspace c = false.
Proof.
  induction s as [| d s IH]; simpl; [discriminate |].
  destruct (PyStr.isspace d) eqn:E; [exact IH |].
  intros H. injection H as <- _. exact E.
Qed.

(** A trimmed line does not begin with white space. *)
Lemma strip_head (s t : string) (c : ascii) :
  PyStr.strip s = String c t -> PyStr.isspace c = false.
Proof.
  unfold PyStr.strip. intros H.
  destruct (rstrip_head _ _ _ H) as [s' Hs']. exact (lstrip_head _ _ _ Hs').
Qed.

(** Every pattern read is a trimmed line of the file that is neither empty
    nor a comment. *)
Lemma spec_patterns_in (content pattern : string) :
  In pattern (spec_patterns content) <->
  (exists line, PyStr.strip line = pattern /\ In line (PyStr.splitlines content))
  /\ pattern <> EmptyString /\ PyStr.startswith pattern "#" = false.
Proof.
  unfold spec_patterns. rewrite filter_In, in_map_iff. unfold is_pattern_line.
  rewrite andb_true_iff, !negb_true_iff, String.eqb_neq. tauto.
Qed.

End RuleLoader.

(** ** More on the rule loader *)

Section Trimming.

Lemma rstrip_idempotent (s : string) : PyStr.rstrip (PyStr.rstrip s) = PyStr.rstrip s.
Proof.
  induction s as [| c s IH]; [reflexivity |].
  cbn [PyStr.rstrip]. destruct (PyStr.rstrip s) as [| d t] eqn:E.
  - destruct (PyStr.isspace c) eqn:Hc; [reflexivity |].
    cbn [PyStr.rstrip]. rewrite Hc. reflexivity.
  - cbn [PyStr.rstrip] in *. rewrite IH. reflexivity.
Qed.

Lemma lstrip_fixed (s : string) :
  (forall c t, s = String c t -> PyStr.isspace c = false) -> PyStr.lstrip s = s.
Proof.
  destruct s as [| c t]; intros H; [reflexivity |].
  simpl. rewrite (H c t eq_refl). reflexivity.
Qed.

(** Trimming what is trimmed changes nothing. *)
Lemma strip_idempotent (s : string) : PyStr.strip (PyStr.strip s) = PyStr.strip s.
Proof.
  unfold PyStr.strip. rewrite lstrip_fixed; [apply rstrip_idempotent |].
  intros c t E. destruct (rstrip_head _ _ _ E) as [s' Hs'].
  exact (lstrip_head _ _ _ Hs').
Qed.

(** The last character of a string, if any. *)
Lemma rstrip_last (s t : string) (c : ascii) :
  PyStr.rstrip s = (t ++ String c EmptyString)%string -> PyStr.isspace c = false.
Proof.
  revert t. induction s as [| d s IH]; intros t; cbn [PyStr.rstrip].
  - destruct t; discriminate.
  - destruct (PyStr.rstrip s) as [| e u] eqn:E.
    + destruct (PyStr.isspace d) eqn:Hd; [destruct t; discriminate |].
      destruct t as [| x [| y t]]; simpl; intros H; try discriminate.
      injection H as <-. assumption.
    + destruct t as [| x t]; simpl; intros H; [discriminate |].
      injection H as _ H. exact (IH t H).
Qed.

End Trimming.


(** The rules read do not change when directories are added to the tree:
    a rules file that was not there can only have become a directory,
    which cannot be read. *)
Lemma read_skillignore_grows (env : Env) (root root' : node) (skill_path : Path)
    (patterns : list string) :
  grows false root root' ->
  read_skillignore env root' skill_path = Some patterns ->
  read_skillignore env root skill_path = Some patterns.
Proof.
  intros Hg. unfold read_skillignore, read_text, FS.exists_.
  destruct (FS.stat root (PyPath.child skill_path ".skillignore")) as [k | |] eqn:Hs.
  - rewrite (grows_stat_found false root root' Hg _ _ Hs). auto.
  - destruct (grows_stat_missing false root root' Hg _ Hs)
      as [-> | [-> | [-> | [Hf _]]]]; try discriminate; auto.
  - rewrite (grows_stat_refused false root root' Hg _ Hs). discriminate.
Qed.

(** ** Properties of the rule loader *)

(** C5 (code defect): the test [skillignore_path.exists()] stands before
    the [try] of [read_skillignore].  When the rules file is a link into a
    directory that may not be searched, the test raises [PermissionError],
    no empty list is returned and the exception leaves [package_skill]
    as well. *)
Theorem read_skillignore_raises :
  FS.exists_ vault_root ["home"; "my-skill"; ".skillignore"] = None
  /\ read_skillignore example_env vault_root ["home"; "my-skill"] = None
  /\ package_skill example_env vault_root ["home"; "my-skill"] None
     = (Raised,
        {| fs := vault_root;
           log := [Stdout MsgValidating; Stdout (MsgValid "Skill is valid!")] |}).
Proof. repeat split. Qed.

(** X20: when the test for the rules file does not raise,
    [read_skillignore] returns the trimmed lines of the file that are not
    empty and do not start with ["#"], in file order, and the empty list
    when the file is absent or cannot be read; when the test raises, so
    does [read_skillignore]. *)
Theorem read_skillignore_refines :
  forall (env : Env) (root : node) (directoryPath : Path),
    read_skillignore env root directoryPath
    = match FS.exists_ root (PyPath.child directoryPath ".skillignore") with
      | None => None
      | Some false => Some []
      | Some true =>
          match read_text env root (PyPath.child directoryPath ".skillignore") with
          | Some content => Some (spec_patterns content)
          | None => Some []
          end
      end.
Proof.
  intros env root directoryPath. unfold read_skillignore.
  destruct (FS.exists_ root (PyPath.child directoryPath ".skillignore"))
    as [[|] |]; try reflexivity.
  destruct (read_text env root (PyPath.child directoryPath ".skillignore"))
    as [content |]; [| reflexivity].
  f_equal. apply collect_patterns_filter.
Qed.

(** X6: every pattern that [read_skillignore] returns is not empty, is not
    a comment and carries no white space at either end. *)
Theorem read_skillignore_trimmed :
  forall (env : Env) (root : node) (skill_path : Path) (patterns : list string)
         (pattern : string),
    read_skillignore env root skill_path = Some patterns ->
    In pattern patterns ->
    pattern <> EmptyString
    /\ PyStr.startswith pattern "#" = false
    /\ PyStr.strip pattern = pattern
    /\ (forall c t, pattern = String c t -> PyStr.isspace c = false)
    /\ (forall c t, pattern = (t ++ String c EmptyString)%string ->
                    PyStr.isspace c = false).
Proof.
  intros env root skill_path patterns pattern Hread Hin.
  unfold read_skillignore in Hread.
  destruct (FS.exists_ root _) as [[|] |]; try discriminate.
  2:{ injection Hread as <-. contradiction. }
  destruct (read_text env root _) as [content |].
  2:{ injection Hread as <-. contradiction. }
  injection Hread as <-. rewrite collect_patterns_filter in Hin.
  apply spec_patterns_in in Hin as [[line [<- _]] [Hne Hc]].
  repeat split; try assumption.
  - apply strip_idempotent.
  - intros c t E. exact (strip_head _ _ _ E).
  - intros c t E. exact (rstrip_last _ _ _ E).
Qed.

Lemma read_skillignore_trimmed_witness :
  PyStr.strip "build/" = "build/".
Proof.
  apply (read_skillignore_trimmed example_env example_root ["home"; "my-skill"]
           ["build/"] "build/").
  - reflexivity.
  - simpl. left. reflexivity.
Defined.

(** ** The walk *)

Section Walk.

Variable env : Env.
Variable skill_path : Path.
Variable exclude_patterns : list string.

Lemma members_app (l l' : list event) : members (l ++ l') = members l ++ members l'.
Proof.
  induction l as [| ev l IH]; [reflexivity |].
  destruct ev; simpl; rewrite IH; reflexivity.
Qed.

Lemma in_members (file_path : Path) (arcname : RelPath) (events : list event) :
  In (ZipWrite file_path arcname) events <-> In (file_path, arcname) (members events).
Proof.
  induction events as [| ev events IH]; [tauto |].
  destruct ev; simpl; rewrite <- IH; split;
    try (intros [E | H]; [discriminate | assumption]); try tauto.
  - intros [E | H]; [injection E as -> ->; auto | auto].
  - intros [E | H]; [injection E as -> ->; auto | auto].
Qed.

(** The walk leaves the tree as it is. *)
Lemma walk_fs (files : list Path) :
  forall files_added files_excluded st r st',
    walk env skill_path exclude_patterns files files_added files_excluded st
    = (r, st') ->
    fs st' = fs st.
Proof.
  induction files as [| file_path files IH];
    intros files_added files_excluded st r st' H; cbn [walk] in H.
  - congruence.
  - destruct (FS.is_file (fs st) file_path) as [[|] |];
      [| exact (IH _ _ _ _ _ H) | congruence].
    destruct (should_exclude file_path skill_path exclude_patterns);
      [exact (IH _ _ _ _ _ H) |].
    destruct (PyPath.relative_to file_path (PyPath.parent skill_path));
      [| congruence].
    destruct (store_ok env file_path); [| congruence].
    exact (IH _ _ _ _ _ H).
Qed.

(** A walk that ends well got an answer from [is_file()] for every entry;
    it has stored the files that are not excluded, in the order it met
    them, and counted the others. *)
Lemma walk_members (files : list Path) :
  forall files_added files_excluded st a e st',
    walk env skill_path exclude_patterns files files_added files_excluded st
    = (Some (a, e), st') ->
    members (log st')
    = members (log st)
      ++ flat_map (member_of skill_path)
           (filter (stored (fs st) skill_path exclude_patterns) files)
    /\ a = files_added
           + List.length (filter (stored (fs st) skill_path exclude_patterns) files)
    /\ e = files_excluded
           + List.length (filter (left_out (fs st) skill_path exclude_patterns) files)
    /\ (forall f, In f files -> FS.is_file (fs st) f <> None)
    /\ (forall f, In f files ->
                  stored (fs st) skill_path exclude_patterns f = true ->
                  store_ok env f = true).
Proof.
  induction files as [| f files IH];
    intros files_added files_excluded st a e st' H; cbn [walk] in H.
  - injection H as <- <- <-. simpl. rewrite app_nil_r.
    repeat split; try lia; contradiction.
  - cbn [filter].
    destruct (FS.is_file (fs st) f) as [[|] |] eqn:Hf; [| | discriminate].
    + destruct (should_exclude f skill_path exclude_patterns) eqn:Hex.
      * assert (Hs : stored (fs st) skill_path exclude_patterns f = false)
          by (unfold stored, is_file_at; rewrite Hf, Hex; reflexivity).
        assert (Hl : left_out (fs st) skill_path exclude_patterns f = true)
          by (unfold left_out, is_file_at; rewrite Hf, Hex; reflexivity).
        rewrite Hs, Hl.
        destruct (IH _ _ _ _ _ _ H) as [Hm [Ha [He [Hans Hok]]]].
        repeat split; [assumption | assumption | simpl; lia | |].
        -- intros x [<- | Hx]; [congruence | auto].
        -- intros x [<- | Hx] Hst; [congruence | auto].
      * assert (Hs : stored (fs st) skill_path exclude_patterns f = true)
          by (unfold stored, is_file_at; rewrite Hf, Hex; reflexivity).
        assert (Hl : left_out (fs st) skill_path exclude_patterns f = false)
          by (unfold left_out, is_file_at; rewrite Hf, Hex; reflexivity).
        rewrite Hs, Hl.
        destruct (PyPath.relative_to f (PyPath.parent skill_path)) as [arc |]
          eqn:Hrel; [| discriminate].
        destruct (store_ok env f) eqn:Hstore; [| discriminate].
        destruct (IH _ _ _ _ _ _ H) as [Hm [Ha [He [Hans Hok]]]].
        cbn [print emit fs log] in Hm, Ha, He, Hans, Hok.
        rewrite !members_app in Hm. simpl in Hm. rewrite app_nil_r in Hm.
        repeat split; [| simpl; lia | assumption | |].
        -- rewrite Hm. cbn [flat_map]. unfold member_of at 2. rewrite Hrel.
           rewrite <- app_assoc. reflexivity.
        -- intros x [<- | Hx]; [congruence | auto].
        -- intros x [<- | Hx] Hst; [assumption | auto].
    + assert (Hs : stored (fs st) skill_path exclude_patterns f = false)
        by (unfold stored, is_file_at; rewrite Hf; reflexivity).
      assert (Hl : left_out (fs st) skill_path exclude_patterns f = false)
        by (unfold left_out, is_file_at; rewrite Hf; reflexivity).
      rewrite Hs, Hl.
      destruct (IH _ _ _ _ _ _ H) as [Hm [Ha [He [Hans Hok]]]].
      repeat split; try assumption.
      * intros x [<- | Hx]; [congruence | auto].
      * intros x [<- | Hx] Hst; [congruence | auto].
Qed.

(** Whatever its end, a walk adds nothing but member writes to the events
    on the archive. *)
Lemma walk_zip_events (files : list Path) :
  forall files_added files_excluded st r st',
    walk env skill_path exclude_patterns files files_added files_excluded st
    = (r, st') ->
    exists ws,
      filter is_zip_event (log st')
      = filter is_zip_event (log st) ++ map write_event ws.
Proof.
  induction files as [| f files IH];
    intros files_added files_excluded st r st' H; cbn [walk] in H.
  - injection H as _ <-. exists []. rewrite app_nil_r. reflexivity.
  - destruct (FS.is_file (fs st) f) as [[|] |];
      [| exact (IH _ _ _ _ _ H)
       | injection H as _ <-; exists []; rewrite app_nil_r; reflexivity].
    destruct (should_exclude f skill_path exclude_patterns);
      [exact (IH _ _ _ _ _ H) |].
    destruct (PyPath.relative_to f (PyPath.parent skill_path)) as [arc |];
      [| injection H as _ <-; exists []; rewrite app_nil_r; reflexivity].
    destruct (store_ok env f);
      [| injection H as _ <-; exists []; rewrite app_nil_r; reflexivity].
    destruct (IH _ _ _ _ _ H) as [ws Hws].
    exists ((f, arc) :: ws). rewrite Hws. cbn [print emit log].
    rewrite !filter_app. simpl. rewrite app_nil_r, <- app_assoc. reflexivity.
Qed.

End Walk.

(** ** The stages of a run *)

Section Stages.

Variable env : Env.

Lemma checks_passed (root : node) (skill_path : Path) (text : string) :
  checks env root skill_path = Passed text <->
  FS.exists_ root skill_path = Some true
  /\ FS.is_dir root skill_path = Some true
  /\ FS.exists_ root (PyPath.child skill_path "SKILL.md") = Some true
  /\ validate_skill env skill_path = (true, text).
Proof.
  unfold checks.
  destruct (FS.exists_ root skill_path) as [[|] |];
    try (split; [discriminate | intros [? _]; discriminate]).
  destruct (FS.is_dir root skill_path) as [[|] |];
    try (split; [discriminate | intros [_ [? _]]; discriminate]).
  destruct (FS.exists_ root (PyPath.child skill_path "SKILL.md")) as [[|] |];
    try (split; [discriminate | intros [_ [_ [? _]]]; discriminate]).
  destruct (validate_skill env skill_path) as [[|] text'].
  - split; [intros H; injection H as ->; auto | intros [_ [_ [_ H]]]; congruence].
  - split; [discriminate | intros [_ [_ [_ H]]]; discriminate].
Qed.

(** A check raises only where [os.stat] is refused. *)
Lemma checks_crashed (root : node) (skill_path : Path) :
  checks env root skill_path = Crashed ->
  FS.exists_ root skill_path = None
  \/ FS.exists_ root (PyPath.child skill_path "SKILL.md") = None.
Proof.
  unfold checks.
  destruct (FS.exists_ root skill_path) as [[|] |] eqn:He; auto; try discriminate.
  destruct (FS.is_dir root skill_path) as [[|] |] eqn:Hd; try discriminate.
  - destruct (FS.exists_ root (PyPath.child skill_path "SKILL.md")) as [[|] |];
      auto; try discriminate.
    destruct (validate_skill env skill_path) as [[|] text']; discriminate.
  - apply exists_is_dir_none in Hd. congruence.
Qed.

(** The checks fail, without an exception, when one of the three tests
    on the tree answers no. *)
Lemma checks_failed (root : node) (skill_path : Path) :
  FS.exists_ root skill_path = Some false
  \/ FS.is_dir root skill_path = Some false
  \/ FS.exists_ root (PyPath.child skill_path "SKILL.md") = Some false ->
  checks env root skill_path = Failed.
Proof.
  unfold checks. intros H.
  assert (Hmd : FS.exists_ root skill_path = None ->
                FS.exists_ root (PyPath.child skill_path "SKILL.md") = None).
  { unfold FS.exists_, PyPath.child. intros Hn.
    rewrite (stat_refused_app root skill_path ["SKILL.md"]); [reflexivity |].
    destruct (FS.stat root skill_path); try discriminate. reflexivity. }
  destruct (FS.exists_ root skill_path) as [[|] |] eqn:He.
  - destruct (FS.is_dir root skill_path) as [[|] |] eqn:Hd.
    + destruct (FS.exists_ root (PyPath.child skill_path "SKILL.md")) as [[|] |];
        try reflexivity;
        destruct H as [H | [H | H]]; discriminate.
    + reflexivity.
    + apply exists_is_dir_none in Hd. congruence.
  - reflexivity.
  - specialize (Hmd eq_refl).
    destruct H as [H | [H | H]]; try discriminate; [| congruence].
    assert (Hd : FS.is_dir root skill_path = None)
      by (apply exists_is_dir_none; assumption).
    congruence.
Qed.

(** A run, by the end of its checks. *)
Lemma package_skill_checks (root : node) (skill_path : Path)
    (output_dir : option Path) :
  match checks env root skill_path with
  | Crashed =>
      package_skill env root skill_path output_dir
      = (Raised, {| fs := root; log := [] |})
  | Failed =>
      exists events,
        package_skill env root skill_path output_dir
        = (ReturnNone, {| fs := root; log := events |})
        /\ forall ev, In ev events -> exists m, ev = Stdout m
  | Passed text =>
      package_skill env root skill_path output_dir
      = let '(output_path, st1, made) :=
          output_stage env (validated root text) output_dir in
        if made then archive_stage env skill_path output_path st1
        else (Raised, st1)
  end.
Proof.
  unfold checks, package_skill. cbn [fs].
  destruct (FS.exists_ root skill_path) as [[|] |]; [| | reflexivity].
  2:{ eexists. split; [reflexivity |]. intros ev [<- | []]. eauto. }
  destruct (FS.is_dir root skill_path) as [[|] |]; [| | reflexivity].
  2:{ eexists. split; [reflexivity |]. intros ev [<- | []]. eauto. }
  destruct (FS.exists_ root (PyPath.child skill_path "SKILL.md")) as [[|] |];
    [| | reflexivity].
  2:{ eexists. split; [reflexivity |]. intros ev [<- | []]. eauto. }
  destruct (validate_skill env skill_path) as [valid text].
  destruct valid; cbn [negb].
  - change (print (print {| fs := root; log := [] |} MsgValidating) (MsgValid text))
      with (validated root text).
    destruct (output_stage env (validated root text) output_dir)
      as [[output_path st1] made].
    destruct made; cbn [negb]; [| reflexivity].
    unfold archive_stage, zip_stage.
    destruct (read_skillignore env (fs st1) skill_path); reflexivity.
  - eexists. split; [reflexivity |].
    intros ev [<- | [<- | [<- | []]]]; eauto.
Qed.

(** What the output stage leaves: the tree with the directories that
    [mkdir] made, and one event when [mkdir] was called. *)
Lemma output_stage_inv (st st1 : State) (output_dir : option Path)
    (output_path : Path) (made : bool) :
  output_stage env st output_dir = (output_path, st1, made) ->
  output_path = match output_dir with Some d => d | None => cwd env end
  /\ grows false (fs st) (fs st1)
  /\ (FS.unique_names (fs st) = true -> FS.unique_names (fs st1) = true)
  /\ log st1
     = log st ++ match output_dir with Some d => [Mkdir d] | None => [] end
  /\ match output_dir with
     | Some d => FS.mkdir_p (mkdir_ok env) (new_dir_listable env) (new_dir_searchable env) d (fs st) = (fs st1, made)
     | None => made = true
     end.
Proof.
  unfold output_stage, mkdir. destruct output_dir as [d |].
  - destruct (FS.mkdir_p (mkdir_ok env) (new_dir_listable env) (new_dir_searchable env) d (fs st)) as [root' made'] eqn:Hm.
    intros H. injection H as <- <- <-. cbn [fs log].
    unfold FS.mkdir_p in Hm.
    destruct (path_mkdir_grows _ _ _ _ _ _ _ Hm) as [Hg Hu]. auto.
  - intros H. injection H as <- <- <-. rewrite app_nil_r.
    repeat split; [apply grows_refl | auto].
Qed.

Lemma announce_fs (st : State) (patterns : list string) :
  fs (announce st patterns) = fs st.
Proof. destruct patterns; reflexivity. Qed.

Lemma announce_members (st : State) (patterns : list string) :
  members (log (announce st patterns)) = members (log st).
Proof.
  destruct patterns; [reflexivity |].
  cbn [announce print emit log]. rewrite members_app, app_nil_r. reflexivity.
Qed.

Lemma announce_zip_events (st : State) (patterns : list string) :
  filter is_zip_event (log (announce st patterns)) = filter is_zip_event (log st).
Proof.
  destruct patterns; [reflexivity |].
  cbn [announce print emit log]. rewrite filter_app, app_nil_r. reflexivity.
Qed.

(** The stage of the archive, whatever its end: either the archive could
    not be opened and nothing happened to it, or it was opened, written
    to and closed. *)
Lemma zip_stage_events (skill_path out : Path) (patterns : list string)
    (st : State) (r : outcome) (st' : State) :
  zip_stage env skill_path out patterns st = (r, st') ->
  r <> Raised
  /\ ((r = ReturnNone /\ fs st' = fs st
       /\ filter is_zip_event (log st') = filter is_zip_event (log st))
      \/ (FS.open_write (fs st) out = Some (fs st')
          /\ exists ws,
               filter is_zip_event (log st')
               = filter is_zip_event (log st)
                 ++ ZipOpen out :: map write_event ws ++ [ZipClose])).
Proof.
  intros H. unfold zip_stage in H.
  destruct (zip_open env st out) as [st2 |] eqn:Hopen.
  - unfold zip_open in Hopen.
    destruct (open_ok env out); [| discriminate].
    destruct (FS.open_write (fs st) out) as [root2 |] eqn:Hc; [| discriminate].
    injection Hopen as <-.
    match type of H with
    | match ?w with _ => _ end = _ => destruct w as [[[a e] |] st3] eqn:Hwalk
    end.
    + pose proof (walk_fs _ _ _ _ _ _ _ _ _ Hwalk) as Hfs.
      destruct (walk_zip_events _ _ _ _ _ _ _ _ _ Hwalk) as [ws Hws].
      cbn [fs log] in Hfs, Hws.
      rewrite filter_app in Hws. simpl in Hws.
      assert (Hst4 : exists st4,
                fs st4 = fs st3
                /\ filter is_zip_event (log st4) = filter is_zip_event (log st3)
                /\ (if (0 <? e)%nat then print st3 (MsgExcluded e) else st3) = st4).
      { exists (if (0 <? e)%nat then print st3 (MsgExcluded e) else st3).
        destruct (0 <? e)%nat; [| auto].
        cbn [print emit fs log]. rewrite filter_app, app_nil_r. auto. }
      destruct Hst4 as [st4 [Hfs4 [Hl4 E4]]]. rewrite E4 in H.
      destruct (close_ok env out); injection H as <- <-; cbn [print emit fs log];
        (split; [discriminate |]); right; (split; [congruence |]); exists ws;
        rewrite !filter_app, Hl4, Hws; simpl; rewrite <- !app_assoc; reflexivity.
    + pose proof (walk_fs _ _ _ _ _ _ _ _ _ Hwalk) as Hfs.
      destruct (walk_zip_events _ _ _ _ _ _ _ _ _ Hwalk) as [ws Hws].
      cbn [fs log] in Hfs, Hws.
      rewrite filter_app in Hws. simpl in Hws.
      injection H as <- <-. cbn [print emit fs log].
      split; [discriminate |]. right. split; [congruence |]. exists ws.
      rewrite !filter_app, Hws. simpl. rewrite <- !app_assoc. reflexivity.
  - injection H as <- <-. cbn [print emit fs log].
    split; [discriminate |]. left.
    rewrite filter_app, app_nil_r. auto.
Qed.

(** The stage of the archive when it ends well. *)
Lemma zip_stage_success (skill_path out : Path) (patterns : list string)
    (st : State) (o : Path) (a e : nat) (st' : State) :
  zip_stage env skill_path out patterns st = (ReturnPath o a e, st') ->
  let files := FS.rglob (fs st') skill_path in
  o = out
  /\ FS.open_write (fs st) out = Some (fs st')
  /\ members (log st')
     = members (log st)
       ++ flat_map (member_of skill_path)
            (filter (stored (fs st') skill_path patterns) files)
  /\ a = List.length (filter (stored (fs st') skill_path patterns) files)
  /\ e = List.length (filter (left_out (fs st') skill_path patterns) files)
  /\ (forall f, In f files -> FS.is_file (fs st') f <> None)
  /\ (forall f, In f files -> stored (fs st') skill_path patterns f = true ->
                store_ok env f = true).
Proof.
  intros H. cbv zeta. unfold zip_stage in H.
  destruct (zip_open env st out) as [st2 |] eqn:Hopen; [| discriminate].
  unfold zip_open in Hopen. destruct (open_ok env out); [| discriminate].
  destruct (FS.open_write (fs st) out) as [root2 |] eqn:Hc; [| discriminate].
  injection Hopen as <-.
  match type of H with
  | match ?w with _ => _ end = _ => destruct w as [[[a' e'] |] st3] eqn:Hwalk
  end; [| discriminate].
  destruct (close_ok env out); [| discriminate].
  pose proof (walk_fs _ _ _ _ _ _ _ _ _ Hwalk) as Hfs.
  destruct (walk_members _ _ _ _ _ _ _ _ _ _ Hwalk) as [Hm [Ha [He [Hans Hok]]]].
  cbn [fs log] in Hfs, Hm, Ha, He, Hans, Hok.
  rewrite members_app in Hm. simpl in Hm. rewrite app_nil_r in Hm.
  injection H as <- <- <- <-.
  assert (Hfs' : fs (print (print (emit (if (0 <? e')%nat
                                         then print st3 (MsgExcluded e') else st3)
                                     ZipClose) (MsgSuccess out)) (MsgPackaged a'))
                 = root2).
  { cbn [print emit fs]. destruct (0 <? e')%nat; exact Hfs. }
  assert (Hlog : members (log (print (print (emit (if (0 <? e')%nat
                                         then print st3 (MsgExcluded e') else st3)
                                     ZipClose) (MsgSuccess out)) (MsgPackaged a')))
                 = members (log st3)).
  { cbn [print emit log]. rewrite !members_app. simpl. rewrite !app_nil_r.
    destruct (0 <? e')%nat; [| reflexivity].
    cbn [print emit log]. rewrite members_app. simpl. apply app_nil_r. }
  rewrite Hfs', Hlog. repeat split; assumption.
Qed.

End Stages.

(** ** Runs of the packager *)

Section Runs.

Variable env : Env.

Lemma stdout_no_zip_event (events : list event) :
  (forall ev, In ev events -> exists m, ev = Stdout m) ->
  filter is_zip_event events = [].
Proof.
  induction events as [| ev events IH]; intros H; [reflexivity |].
  destruct (H ev (or_introl eq_refl)) as [m ->]. simpl.
  apply IH. intros ev' Hin. apply H. right. assumption.
Qed.

(** The state after the output stage of a run whose checks passed. *)
Lemma output_stage_validated (root : node) (text : string)
    (output_dir : option Path) (output_path : Path) (st1 : State) (made : bool) :
  output_stage env (validated root text) output_dir = (output_path, st1, made) ->
  output_path = match output_dir with Some d => d | None => cwd env end
  /\ grows false root (fs st1)
  /\ (FS.unique_names root = true -> FS.unique_names (fs st1) = true)
  /\ filter is_zip_event (log st1) = []
  /\ members (log st1) = [].
Proof.
  intros H. destruct (output_stage_inv env _ _ _ _ _ H) as [Hop [Hg [Hu [Hl _]]]].
  cbn [validated fs log] in Hg, Hu, Hl.
  repeat split; try assumption; rewrite Hl; destruct output_dir; reflexivity.
Qed.

(** A run: it ends before the archive is opened, with a tree that has at
    most gained directories, or it goes through the stage of the archive
    with the rules it has read. *)
Lemma package_skill_run (root : node) (skill_path : Path)
    (output_dir : option Path) (r : outcome) (st' : State) :
  package_skill env root skill_path output_dir = (r, st') ->
  ((r = ReturnNone \/ r = Raised)
   /\ grows false root (fs st')
   /\ filter is_zip_event (log st') = [])
  \/ (exists text st1 patterns,
        checks env root skill_path = Passed text
        /\ grows false root (fs st1)
        /\ (FS.unique_names root = true -> FS.unique_names (fs st1) = true)
        /\ filter is_zip_event (log st1) = []
        /\ members (log st1) = []
        /\ read_skillignore env (fs st1) skill_path = Some patterns
        /\ zip_stage env skill_path
             (PyPath.child
                match output_dir with Some d => d | None => cwd env end
                (PyPath.name skill_path ++ ".skill"))
             patterns (announce st1 patterns)
           = (r, st')).
Proof.
  intros H. pose proof (package_skill_checks env root skill_path output_dir) as Hc.
  destruct (checks env root skill_path) as [text | |] eqn:Hchecks.
  - rewrite Hc in H.
    destruct (output_stage env (validated root text) output_dir)
      as [[output_path st1] made] eqn:Ho.
    destruct (output_stage_validated _ _ _ _ _ _ Ho) as [Hop [Hg [Hu [Hz Hm]]]].
    destruct made.
    + unfold archive_stage in H.
      destruct (read_skillignore env (fs st1) skill_path) as [patterns |] eqn:Hr.
      * right. exists text, st1, patterns. rewrite <- Hop. auto 10.
      * left. injection H as <- <-. auto.
    + left. injection H as <- <-. auto.
  - destruct Hc as [events [E Hev]]. rewrite E in H. injection H as <- <-.
    left. cbn [fs log]. split; [auto |]. split; [apply grows_refl |].
    apply stdout_no_zip_event. assumption.
  - rewrite Hc in H. injection H as <- <-. left.
    split; [auto |]. split; [apply grows_refl | reflexivity].
Qed.

(** A run that returns the archive path. *)
Lemma package_skill_success (root : node) (skill_path : Path)
    (output_dir : option Path) (out : Path) (a e : nat) (st' : State) :
  package_skill env root skill_path output_dir = (ReturnPath out a e, st') ->
  let files := FS.rglob (fs st') skill_path in
  exists text st1 patterns,
    checks env root skill_path = Passed text
    /\ grows false root (fs st1)
    /\ (FS.unique_names root = true -> FS.unique_names (fs st1) = true)
    /\ read_skillignore env root skill_path = Some patterns
    /\ out = PyPath.child
               match output_dir with Some d => d | None => cwd env end
               (PyPath.name skill_path ++ ".skill")
    /\ FS.open_write (fs st1) out = Some (fs st')
    /\ members (log st')
       = flat_map (member_of skill_path)
           (filter (stored (fs st') skill_path patterns) files)
    /\ a = List.length (filter (stored (fs st') skill_path patterns) files)
    /\ e = List.length (filter (left_out (fs st') skill_path patterns) files)
    /\ (forall f, In f files -> FS.is_file (fs st') f <> None)
    /\ (forall f, In f files -> stored (fs st') skill_path patterns f = true ->
                  store_ok env f = true).
Proof.
  intros H. cbv zeta.
  destruct (package_skill_run _ _ _ _ _ H)
    as [[[E | E] _] | [text [st1 [patterns [Hc [Hg [Hu [_ [Hm1 [Hr Hz]]]]]]]]]];
    try discriminate.
  destruct (zip_stage_success env _ _ _ _ _ _ _ _ Hz)
    as [Hout [Hopen [Hm [Ha [He [Hans Hok]]]]]].
  rewrite announce_fs in Hopen. rewrite announce_members, Hm1 in Hm.
  exists text, st1, patterns. rewrite <- Hout in Hopen.
  pose proof (read_skillignore_grows env _ _ _ _ Hg Hr) as Hr0.
  repeat split; assumption.
Qed.

Lemma member_of_below (skill_path rel : Path) :
  exists arcname,
    member_of skill_path (skill_path ++ rel) = [(skill_path ++ rel, arcname)].
Proof.
  unfold member_of. destruct skill_path as [| c sp]; [simpl; eauto |].
  set (p := c :: sp). assert (Hne : p <> []) by discriminate.
  replace (p ++ rel) with (PyPath.parent p ++ ([PyPath.name p] ++ rel))
    by (rewrite app_assoc, <- (parent_name p Hne); reflexivity).
  rewrite relative_to_app. eauto.
Qed.

Lemma members_of_walk_length (root : node) (skill_path : Path) (f : Path -> bool) :
  List.length (flat_map (member_of skill_path) (filter f (FS.rglob root skill_path)))
  = List.length (filter f (FS.rglob root skill_path)).
Proof.
  assert (H : forall files,
            (forall x, In x files -> exists rel, x = skill_path ++ rel) ->
            List.length (flat_map (member_of skill_path) files) = List.length files).
  { induction files as [| x files IH]; intros Hall; [reflexivity |].
    cbn [flat_map]. rewrite length_app, IH by (intros; apply Hall; right; assumption).
    destruct (Hall x (or_introl eq_refl)) as [rel ->].
    destruct (member_of_below skill_path rel) as [arc ->]. reflexivity. }
  apply H. intros x Hx. apply filter_In in Hx as [Hx _].
  destruct (rglob_below _ _ _ Hx) as [rel [_ ->]]. eauto.
Qed.

(** Every file the walk meets is stored or left out. *)
Lemma stored_or_left_out (root : node) (skill_path : Path)
    (patterns : list string) (files : list Path) :
  List.length (filter (stored root skill_path patterns) files)
  + List.length (filter (left_out root skill_path patterns) files)
  = List.length (filter (is_file_at root) files).
Proof.
  induction files as [| f files IH]; [reflexivity |].
  cbn [filter]. unfold stored at 1, left_out at 1.
  destruct (is_file_at root f); cbn [andb]; [| exact IH].
  destruct (should_exclude f skill_path patterns); simpl; lia.
Qed.

Lemma count_below_split (root n : node) :
  FS.count_below (fun m => FS.is_regular_node m || FS.is_file_link_node root m) n
  = FS.count_below FS.is_regular_node n
    + FS.count_below (FS.is_file_link_node root) n.
Proof.
  induction n as [| listable searchable entries IH | |] using node_nested_ind;
    try reflexivity.
  cbn [FS.count_below]. destruct (listable && searchable); [| reflexivity].
  rewrite list_sum_map_add.
  f_equal. rewrite Forall_forall in IH. apply map_ext_in. intros x Hx.
  rewrite (IH x Hx).
  destruct (snd x) as [| ? ? ? | target |];
    cbn [FS.is_regular_node FS.is_file_link_node orb]; lia.
Qed.

(** The entries that the walk meets and [is_file()] holds for are the
    regular files and the links to regular files that the tree holds in
    the directories the walk enters. *)
Lemma rglob_count (root : node) (p : Path) :
  FS.unique_names root = true ->
  FS.resolved root p = true ->
  (forall f, In f (FS.rglob root p) -> FS.is_file root f <> None) ->
  List.length (filter (is_file_at root) (FS.rglob root p))
  = FS.regular_files_under root p + FS.file_links_under root p.
Proof.
  intros Hu Hres Hans.
  unfold FS.rglob, FS.regular_files_under, FS.file_links_under in *.
  unfold FS.resolved in Hres.
  destruct (FS.descend root p) as [n | | | |] eqn:Hd; try discriminate.
  rewrite (stat_node_resolved _ _ _ Hd) in *.
  destruct (FS.too_long p); [reflexivity |].
  rewrite <- count_below_split.
  apply rglob_node_count; [| assumption | assumption].
  exact (unique_names_descend _ _ _ Hu Hd).
Qed.

(** The walk comes to every entry it can reach. *)
Lemma rglob_node_complete (rel : Path) :
  forall (n : node) (base : Path),
    FS.reaches n rel = true -> In (base ++ rel) (FS.rglob_node base n).
Proof.
  induction rel as [| c rel IH]; intros n base H.
  - destruct n; discriminate.
  - destruct n as [| listable searchable entries | |]; try discriminate.
    cbn [FS.reaches] in H. apply andb_true_iff in H as [-> H].
    destruct (FS.assoc c entries) as [child |] eqn:Ha; [| discriminate].
    apply assoc_in in Ha. cbn [FS.rglob_node]. apply in_or_app.
    destruct rel as [| d rel].
    + left. apply in_map_iff. exists (c, child). split; [reflexivity | assumption].
    + apply andb_true_iff in H as [-> H].
      right. apply in_flat_map. exists (c, child). split; [assumption |].
      cbn [fst snd]. unfold PyPath.child.
      replace (base ++ c :: d :: rel) with ((base ++ [c]) ++ d :: rel)
        by (rewrite <- app_assoc; reflexivity).
      apply IH. assumption.
Qed.

End Runs.

(** ** The walk meets every entry once *)

Section Once.

Lemma nodupb_NoDup (l : list string) : FS.nodupb l = true -> NoDup l.
Proof.
  induction l as [| x l IH]; simpl; intros H; [constructor |].
  apply andb_true_iff in H as [Hx Hl]. constructor; [| exact (IH Hl)].
  intros Hin. apply negb_true_iff in Hx.
  assert (E : existsb (String.eqb x) l = true).
  { apply existsb_exists. exists x. split; [assumption | apply String.eqb_refl]. }
  congruence.
Qed.

Lemma NoDup_children (base : Path) (entries : list (string * node)) :
  NoDup (map fst entries) ->
  NoDup (map (fun e => PyPath.child base (fst e)) entries).
Proof.
  induction entries as [| e es IH]; simpl; intros H; [constructor |].
  inversion H as [| ? ? Hx Hes]; subst. constructor; [| exact (IH Hes)].
  intros Hin. apply in_map_iff in Hin as [e' [E He']]. apply Hx.
  unfold PyPath.child in E. apply app_inv_head in E. injection E as <-.
  apply in_map. assumption.
Qed.

Lemma NoDup_below (base : Path) (entries : list (string * node)) :
  NoDup (map fst entries) ->
  (forall e, In e entries ->
     NoDup (FS.rglob_node (PyPath.child base (fst e)) (snd e))) ->
  NoDup (flat_map (fun e => FS.rglob_node (PyPath.child base (fst e)) (snd e))
           entries).
Proof.
  induction entries as [| e es IH]; simpl; intros Hnd Hall; [constructor |].
  inversion Hnd as [| ? ? Hx Hes]; subst.
  apply NoDup_app; [apply Hall; auto | apply IH; auto |].
  intros p Hp Hp'. apply Hx.
  destruct (rglob_node_below _ _ _ Hp) as [rel [Hne ->]].
  apply in_flat_map in Hp' as [e' [He' Hp']].
  destruct (rglob_node_below _ _ _ Hp') as [rel' [Hne' E]].
  unfold PyPath.child in E. rewrite <- !app_assoc in E.
  apply app_inv_head in E. injection E as -> _. apply in_map. assumption.
Qed.

Lemma rglob_node_NoDup :
  forall (n : node) (base : Path),
    FS.unique_names n = true -> NoDup (FS.rglob_node base n).
Proof.
  induction n as [| listable searchable entries IH | |] using node_nested_ind;
    intros base Hu; try constructor.
  simpl in Hu. apply andb_true_iff in Hu as [Hnd Hall].
  apply nodupb_NoDup in Hnd. rewrite forallb_forall in Hall.
  rewrite Forall_forall in IH. cbn [FS.rglob_node].
  destruct listable; [| constructor].
  destruct searchable.
  - apply NoDup_app.
    + apply NoDup_children. assumption.
    + apply NoDup_below; [assumption |]. intros e He. apply IH; auto.
    + intros p Hp Hp'. apply in_map_iff in Hp as [e [<- _]].
      apply in_flat_map in Hp' as [e' [_ Hp']].
      destruct (rglob_node_below _ _ _ Hp') as [rel [Hne E]].
      unfold PyPath.child in E. rewrite <- app_assoc in E.
      apply app_inv_head in E. injection E as _ E. symmetry in E. contradiction.
  - rewrite app_nil_r. apply NoDup_children. assumption.
Qed.

Lemma rglob_NoDup (root : node) (p : Path) :
  FS.unique_names root = true -> NoDup (FS.rglob root p).
Proof.
  intros Hu. unfold FS.rglob, FS.stat_node, FS.resolve.
  destruct (FS.too_long p); [constructor |].
  destruct (FS.resolve_from (S FS.SYMLOOP_MAX) root p) as [q n | | | |] eqn:Hr;
    try constructor.
  apply rglob_node_NoDup.
  exact (unique_names_descend _ _ _ Hu (resolve_from_resolved _ _ _ _ _ Hr)).
Qed.

Lemma member_of_inv (skill_path file_path x : Path) (arcname : RelPath) :
  In (x, arcname) (member_of skill_path file_path) ->
  x = file_path /\ file_path = PyPath.parent skill_path ++ arcname.
Proof.
  unfold member_of.
  destruct (PyPath.relative_to file_path (PyPath.parent skill_path)) as [arc |] eqn:E;
    [| contradiction].
  intros [H | []]. injection H as <- <-. split; [reflexivity |].
  exact (relative_to_inv _ _ _ E).
Qed.

(** Files met once are stored under names that differ. *)
Lemma members_NoDup (skill_path : Path) (files : list Path) :
  NoDup files -> NoDup (map snd (flat_map (member_of skill_path) files)).
Proof.
  induction files as [| f files IH]; intros Hnd; [constructor |].
  inversion Hnd as [| ? ? Hf Hfiles]; subst.
  cbn [flat_map]. rewrite map_app. apply NoDup_app.
  - unfold member_of. destruct (PyPath.relative_to f _); repeat constructor.
    intros [].
  - exact (IH Hfiles).
  - intros arc Ha Ha'. apply Hf.
    apply in_map_iff in Ha as [[x arc1] [E1 Hin1]]. cbn [snd] in E1. subst arc1.
    apply in_map_iff in Ha' as [[y arc2] [E2 Hin2]]. cbn [snd] in E2. subst arc2.
    apply member_of_inv in Hin1 as [_ Hx].
    apply in_flat_map in Hin2 as [g [Hg Hin2]].
    apply member_of_inv in Hin2 as [_ Hy].
    rewrite Hx, <- Hy. assumption.
Qed.

End Once.

(** ** Properties of the packager *)

Section PackagerFacts.

Lemma member_of_rel (skill_path file_path x : Path) (arcname : RelPath) :
  In (x, arcname) (member_of skill_path file_path) ->
  x = file_path
  /\ PyPath.relative_to file_path (PyPath.parent skill_path) = Some arcname.
Proof.
  unfold member_of.
  destruct (PyPath.relative_to file_path (PyPath.parent skill_path)) as [arc |];
    [| contradiction].
  intros [H | []]. injection H as <- <-. auto.
Qed.

(** What is found and is no directory exists and is no directory. *)
Lemma stat_not_dir (root : node) (p : Path) :
  FS.stat root p = FS.Found KFile \/ FS.stat root p = FS.Found KOther ->
  FS.exists_ root p = Some true /\ FS.is_dir root p = Some false.
Proof.
  unfold FS.exists_, FS.is_dir. intros [-> | ->]; auto.
Qed.


(** The tree at the end of a run is the tree it started from, grown. *)
Lemma package_skill_grows (env : Env) (root : node) (skill_path : Path)
    (output_dir : option Path) (r : outcome) (st' : State) :
  package_skill env root skill_path output_dir = (r, st') ->
  grows true root (fs st')
  /\ (FS.unique_names root = true -> FS.unique_names (fs st') = true).
Proof.
  intros H.
  destruct (package_skill_run env _ _ _ _ _ H)
    as [[_ [Hg _]] | [text [st1 [patterns [_ [Hg [Hu [_ [_ [_ Hz]]]]]]]]]].
  - split; [apply grows_files; assumption |].
    (* nothing but directories was added *)
    intros Hu. pose proof (package_skill_checks env root skill_path output_dir) as Hc.
    destruct (checks env root skill_path) as [text | |].
    + rewrite Hc in H.
      destruct (output_stage env (validated root text) output_dir)
        as [[output_path st1] made] eqn:Ho.
      destruct (output_stage_validated env _ _ _ _ _ _ Ho) as [_ [_ [Hu1 _]]].
      destruct made; [| injection H as _ <-; auto].
      unfold archive_stage in H.
      destruct (read_skillignore env (fs st1) skill_path) as [patterns |];
        [| injection H as _ <-; auto].
      destruct (zip_stage_events env _ _ _ _ _ _ H) as [_ [[_ [E _]] | [Ho' _]]].
      * rewrite E, announce_fs. auto.
      * rewrite announce_fs in Ho'.
        destruct (open_write_inv _ _ _ Ho') as [_ [Hu2 _]]. auto.
    + destruct Hc as [events [E _]]. rewrite E in H. injection H as _ <-.
      assumption.
    + rewrite Hc in H. injection H as _ <-. assumption.
  - destruct (zip_stage_events env _ _ _ _ _ _ Hz) as [_ [[_ [E _]] | [Ho _]]];
      rewrite announce_fs in *.
    + rewrite E. split; [apply grows_files; assumption | assumption].
    + destruct (open_write_inv _ _ _ Ho) as [Hg2 [Hu2 _]].
      split; [| auto].
      exact (grows_trans _ _ _ _ (grows_files _ _ Hg) Hg2).
Qed.

End PackagerFacts.

(** C2: every member written to the archive is stored under the path of
    its file relative to the parent of the skill directory; that path
    starts with the base name of the skill directory, which is its first
    component unless the skill directory is the root of the file system
    (whose base name is empty). *)
Theorem archive_entry_paths :
  forall (env : Env) (root : node) (skill_path : Path) (output_dir : option Path)
         (out : Path) (a e : nat) (st' : State) (file_path : Path)
         (arcname : RelPath),
    package_skill env root skill_path output_dir = (ReturnPath out a e, st') ->
    In (ZipWrite file_path arcname) (log st') ->
    PyPath.relative_to file_path (PyPath.parent skill_path) = Some arcname
    /\ PyStr.startswith (PyPath.str arcname) (PyPath.name skill_path) = true
    /\ (skill_path <> [] ->
        exists rel, rel <> [] /\ file_path = skill_path ++ rel
                    /\ arcname = PyPath.name skill_path :: rel).
Proof.
  intros env root skill_path output_dir out a e st' file_path arcname Hrun Hin.
  destruct (package_skill_success env _ _ _ _ _ _ _ Hrun)
    as [text [st1 [patterns [_ [_ [_ [_ [_ [_ [Hm _]]]]]]]]]].
  apply in_members in Hin. rewrite Hm in Hin.
  apply in_flat_map in Hin as [x [Hx Hin]].
  apply member_of_rel in Hin as [<- Hrel].
  apply filter_In in Hx as [Hfile _].
  destruct (rglob_below _ _ _ Hfile) as [rel [Hne ->]].
  assert (Hfirst : skill_path <> [] -> arcname = PyPath.name skill_path :: rel).
  { intros Hsp. rewrite (parent_name skill_path Hsp) in Hrel at 1.
    rewrite <- app_assoc, relative_to_app in Hrel. simpl in Hrel. congruence. }
  split; [assumption |]. split.
  - destruct skill_path as [| c sp]; [reflexivity |].
    rewrite (Hfirst ltac:(discriminate)).
    destruct rel as [| r rel]; [congruence |].
    change (PyPath.str (PyPath.name (c :: sp) :: r :: rel))
      with (PyPath.name (c :: sp) ++ String "/" (PyStr.join "/" (r :: rel)))%string.
    apply startswith_app.
  - intros Hsp. exists rel. repeat split; auto.
Qed.

Lemma archive_entry_paths_witness :
  PyPath.relative_to ["home"; "my-skill"; "notes.md"] (PyPath.parent ["home"; "my-skill"])
  = Some ["my-skill"; "notes.md"]
  /\ PyStr.startswith (PyPath.str ["my-skill"; "notes.md"])
       (PyPath.name ["home"; "my-skill"]) = true
  /\ (["home"; "my-skill"] <> [] ->
      exists rel, rel <> [] /\ ["home"; "my-skill"; "notes.md"] = ["home"; "my-skill"] ++ rel
                  /\ ["my-skill"; "notes.md"] = PyPath.name ["home"; "my-skill"] :: rel).
Proof.
  apply (archive_entry_paths example_env example_root ["home"; "my-skill"]
           (Some ["home"; "dist"]) ["home"; "dist"; "my-skill.skill"] 3 1
           (snd (package_skill example_env example_root ["home"; "my-skill"]
                   (Some ["home"; "dist"])))).
  - reflexivity.
  - simpl. tauto.
Defined.

(** C4 (as amended): after a successful run on a resolved skill path, the
    two counters add up to the number of entries that are regular files or
    symbolic links leading to a regular file, counted in the tree as the
    run leaves it, which is the tree of the walk, and in the directories
    that the walk enters: the skill directory and the directories below
    it that may be listed and searched, links to directories apart. *)
Theorem counters_cover_files :
  forall (env : Env) (root : node) (skill_path : Path) (output_dir : option Path)
         (out : Path) (a e : nat) (st' : State),
    FS.unique_names root = true ->
    FS.resolved root skill_path = true ->
    package_skill env root skill_path output_dir = (ReturnPath out a e, st') ->
    a + e
    = FS.regular_files_under (fs st') skill_path
      + FS.file_links_under (fs st') skill_path.
Proof.
  intros env root skill_path output_dir out a e st' Hu Hres Hrun.
  destruct (package_skill_grows env _ _ _ _ _ Hrun) as [Hg Hu'].
  destruct (package_skill_success env _ _ _ _ _ _ _ Hrun)
    as [text [st1 [patterns [_ [_ [_ [_ [_ [_ [_ [Ha [He [Hans _]]]]]]]]]]]]].
  rewrite Ha, He, stored_or_left_out.
  apply rglob_count; [auto | | assumption].
  exact (grows_resolved true root (fs st') Hg _ Hres).
Qed.

Lemma counters_cover_files_witness :
  3 + 1
  = FS.regular_files_under
      (fs (snd (package_skill example_env example_root ["home"; "my-skill"]
                  (Some ["home"; "dist"]))))
      ["home"; "my-skill"]
    + FS.file_links_under
        (fs (snd (package_skill example_env example_root ["home"; "my-skill"]
                    (Some ["home"; "dist"]))))
        ["home"; "my-skill"].
Proof.
  apply (counters_cover_files example_env example_root ["home"; "my-skill"]
           (Some ["home"; "dist"]) ["home"; "dist"; "my-skill.skill"] 3 1
           (snd (package_skill example_env example_root ["home"; "my-skill"]
                   (Some ["home"; "dist"])))).
  - reflexivity.
  - reflexivity.
  - reflexivity.
Defined.

(** C4 (as stated) fails when the skill directory holds a symbolic link to
    a regular file: the link is archived and counted, so the counters add up
    to 2 while the directory holds one regular file, before and after the
    run. *)
Lemma link_counted_as_file :
  FS.unique_names linked_root = true
  /\ FS.resolved linked_root ["home"; "my-skill"] = true
  /\ fst (package_skill example_env linked_root ["home"; "my-skill"]
            (Some ["home"; "dist"]))
     = ReturnPath ["home"; "dist"; "my-skill.skill"] 2 0
  /\ FS.regular_files_under linked_root ["home"; "my-skill"] = 1
  /\ FS.regular_files_under
       (fs (snd (package_skill example_env linked_root ["home"; "my-skill"]
                   (Some ["home"; "dist"]))))
       ["home"; "my-skill"] = 1.
Proof. repeat split. Qed.

(** C6: when the skill path is missing, is not a directory, holds no
    [SKILL.md], or is rejected by the validator, [package_skill] does not
    return the archive path: it returns [None], or an exception of one of
    the tests [exists()] leaves it, which can only happen in the last of
    the four cases.  The tree is left as it was and the run only printed:
    the archive was never opened and no directory was created. *)
Theorem failed_checks_open_nothing :
  forall (env : Env) (root : node) (skill_path : Path) (output_dir : option Path),
    FS.exists_ root skill_path = Some false
    \/ FS.is_dir root skill_path = Some false
    \/ FS.exists_ root (PyPath.child skill_path "SKILL.md") = Some false
    \/ fst (validate_skill env skill_path) = false ->
    (fst (package_skill env root skill_path output_dir) = ReturnNone
     \/ fst (package_skill env root skill_path output_dir) = Raised)
    /\ (FS.exists_ root skill_path = Some false
        \/ FS.is_dir root skill_path = Some false
        \/ FS.exists_ root (PyPath.child skill_path "SKILL.md") = Some false ->
        fst (package_skill env root skill_path output_dir) = ReturnNone)
    /\ (fst (package_skill env root skill_path output_dir) = Raised ->
        FS.exists_ root skill_path = None
        \/ FS.exists_ root (PyPath.child skill_path "SKILL.md") = None)
    /\ fs (snd (package_skill env root skill_path output_dir)) = root
    /\ (forall ev, In ev (log (snd (package_skill env root skill_path output_dir))) ->
        exists m, ev = Stdout m)
    /\ (forall p, ~ In (ZipOpen p)
                    (log (snd (package_skill env root skill_path output_dir)))).
Proof.
  intros env root skill_path output_dir H.
  pose proof (package_skill_checks env root skill_path output_dir) as Hrun.
  pose proof (checks_failed env root skill_path) as Hfailed.
  pose proof (checks_crashed env root skill_path) as Hcrashed.
  destruct (checks env root skill_path) as [text | |] eqn:Hc.
  - exfalso. apply checks_passed in Hc as [H1 [H2 [H3 H4]]].
    rewrite H4 in H. simpl in H.
    destruct H as [H | [H | [H | H]]]; congruence.
  - destruct Hrun as [events [-> Hev]]. cbn [fst snd fs log].
    repeat split; auto; try discriminate.
    intros p Hin. destruct (Hev _ Hin) as [m Hm]. discriminate.
  - rewrite Hrun. cbn [fst snd fs log].
    repeat split; auto; try contradiction.
    intros H'. specialize (Hfailed H'). discriminate.
Qed.

Lemma failed_checks_open_nothing_witness :
  fst (package_skill example_env bare_root ["home"; "my-skill"] (Some ["home"; "dist"]))
  = ReturnNone
  /\ fs (snd (package_skill example_env bare_root ["home"; "my-skill"]
                (Some ["home"; "dist"]))) = bare_root.
Proof.
  destruct (failed_checks_open_nothing example_env bare_root ["home"; "my-skill"]
              (Some ["home"; "dist"])) as [_ [Hr [_ [Hfs _]]]].
  - right. right. left. reflexivity.
  - split; [apply Hr; right; right; reflexivity | assumption].
Defined.

(** X7: [package_skill] returns the archive path only for a skill path
    that exists, is a directory, holds [SKILL.md] and passes the validator,
    none of the tests having raised. *)
Theorem success_requires_checks :
  forall (env : Env) (root : node) (skill_path : Path) (output_dir : option Path)
         (out : Path) (a e : nat) (st' : State),
    package_skill env root skill_path output_dir = (ReturnPath out a e, st') ->
    FS.exists_ root skill_path = Some true
    /\ FS.is_dir root skill_path = Some true
    /\ FS.exists_ root (PyPath.child skill_path "SKILL.md") = Some true
    /\ fst (validate_skill env skill_path) = true.
Proof.
  intros env root skill_path output_dir out a e st' Hrun.
  destruct (package_skill_success env _ _ _ _ _ _ _ Hrun)
    as [text [st1 [patterns [Hc _]]]].
  apply checks_passed in Hc as [H1 [H2 [H3 H4]]]. rewrite H4. auto.
Qed.

Lemma success_requires_checks_witness :
  FS.exists_ example_root ["home"; "my-skill"] = Some true
  /\ FS.is_dir example_root ["home"; "my-skill"] = Some true
  /\ FS.exists_ example_root (PyPath.child ["home"; "my-skill"] "SKILL.md")
     = Some true
  /\ fst (validate_skill example_env ["home"; "my-skill"]) = true.
Proof.
  apply (success_requires_checks example_env example_root ["home"; "my-skill"]
           (Some ["home"; "dist"]) ["home"; "dist"; "my-skill.skill"] 3 1
           (snd (package_skill example_env example_root ["home"; "my-skill"]
                   (Some ["home"; "dist"])))).
  reflexivity.
Defined.

(** X8: the archive is named after the skill directory, with [.skill]
    added, inside the output directory (the current directory when none is
    given); after a successful run its path names an entry of the tree
    that is no directory (a regular file, or the special file that a link
    in its place led to) and the output directory is a directory. *)
Theorem archive_location :
  forall (env : Env) (root : node) (skill_path : Path) (output_dir : option Path)
         (out : Path) (a e : nat) (st' : State),
    package_skill env root skill_path output_dir = (ReturnPath out a e, st') ->
    let output_path := match output_dir with Some d => d | None => cwd env end in
    out = PyPath.child output_path (PyPath.name skill_path ++ ".skill")
    /\ FS.exists_ (fs st') out = Some true
    /\ FS.is_dir (fs st') out = Some false
    /\ FS.is_dir (fs st') output_path = Some true.
Proof.
  intros env root skill_path output_dir out a e st' Hrun. cbv zeta.
  destruct (package_skill_success env _ _ _ _ _ _ _ Hrun)
    as [text [st1 [patterns [_ [_ [_ [_ [Hout [Hopen _]]]]]]]]].
  destruct (open_write_inv _ _ _ Hopen) as [_ [_ Hs]].
  destruct (stat_not_dir _ _ Hs) as [He Hd].
  repeat split; try assumption.
  rewrite Hout in Hopen. exact (open_write_parent _ _ _ _ Hopen).
Qed.

Lemma archive_location_witness :
  ["home"; "dist"; "my-skill.skill"]
  = PyPath.child ["home"; "dist"] (PyPath.name ["home"; "my-skill"] ++ ".skill")
  /\ FS.exists_
       (fs (snd (package_skill example_env device_root ["home"; "my-skill"]
                   (Some ["home"; "dist"]))))
       ["home"; "dist"; "my-skill.skill"] = Some true
  /\ FS.is_dir
       (fs (snd (package_skill example_env device_root ["home"; "my-skill"]
                   (Some ["home"; "dist"]))))
       ["home"; "dist"; "my-skill.skill"] = Some false
  /\ FS.is_dir
       (fs (snd (package_skill example_env device_root ["home"; "my-skill"]
                   (Some ["home"; "dist"]))))
       ["home"; "dist"] = Some true.
Proof.
  apply (archive_location example_env device_root ["home"; "my-skill"]
           (Some ["home"; "dist"]) ["home"; "dist"; "my-skill.skill"] 1 0).
  reflexivity.
Defined.

(** X9: in every run the archive is opened at most once, members are
    written only between its opening and its closing, and once opened it
    is closed, whatever the end of the run. *)
Theorem archive_protocol :
  forall (env : Env) (root : node) (skill_path : Path) (output_dir : option Path),
    filter is_zip_event (log (snd (package_skill env root skill_path output_dir)))
    = []
    \/ exists out ws,
         filter is_zip_event
           (log (snd (package_skill env root skill_path output_dir)))
         = ZipOpen out :: map write_event ws ++ [ZipClose].
Proof.
  intros env root skill_path output_dir.
  destruct (package_skill env root skill_path output_dir) as [r st'] eqn:Hrun.
  cbn [snd].
  destruct (package_skill_run env _ _ _ _ _ Hrun)
    as [[_ [_ Hz]] | [text [st1 [patterns [_ [_ [_ [Hz1 [_ [_ Hz]]]]]]]]]].
  - left. assumption.
  - destruct (zip_stage_events env _ _ _ _ _ _ Hz) as [_ [[_ [_ E]] | [_ [ws E]]]];
      rewrite announce_zip_events, Hz1 in E.
    + left. assumption.
    + right. eauto.
Qed.

(** X10: once the archive has been opened its path names an entry of the
    tree that is no directory, also when the run fails afterwards: a
    partial archive is left behind. *)
Theorem opened_archive_exists :
  forall (env : Env) (root : node) (skill_path : Path) (output_dir : option Path)
         (r : outcome) (st' : State) (out : Path),
    package_skill env root skill_path output_dir = (r, st') ->
    In (ZipOpen out) (log st') ->
    FS.exists_ (fs st') out = Some true /\ FS.is_dir (fs st') out = Some false.
Proof.
  intros env root skill_path output_dir r st' out Hrun Hin.
  assert (Hz : In (ZipOpen out) (filter is_zip_event (log st')))
    by (apply filter_In; auto).
  destruct (package_skill_run env _ _ _ _ _ Hrun)
    as [[_ [_ E]] | [text [st1 [patterns [_ [_ [_ [Hz1 [_ [_ Hstage]]]]]]]]]].
  - rewrite E in Hz. contradiction.
  - destruct (zip_stage_events env _ _ _ _ _ _ Hstage)
      as [_ [[_ [_ E]] | [Hopen [ws E]]]];
      rewrite announce_zip_events, Hz1 in E; rewrite E in Hz.
    + contradiction.
    + simpl in Hz. destruct Hz as [Hz | Hz].
      * injection Hz as <-.
        destruct (open_write_inv _ _ _ Hopen) as [_ [_ Hs]].
        exact (stat_not_dir _ _ Hs).
      * apply in_app_or in Hz as [Hz | [Hz | []]]; [| discriminate].
        apply in_map_iff in Hz as [m [Hm _]]. discriminate.
Qed.

Lemma opened_archive_exists_witness :
  (FS.exists_
     (fs (snd (package_skill full_disk_env example_root ["home"; "my-skill"]
                 (Some ["home"; "dist"]))))
     ["home"; "dist"; "my-skill.skill"] = Some true
   /\ FS.is_dir
        (fs (snd (package_skill full_disk_env example_root ["home"; "my-skill"]
                    (Some ["home"; "dist"]))))
        ["home"; "dist"; "my-skill.skill"] = Some false)
  /\ fst (package_skill full_disk_env example_root ["home"; "my-skill"]
            (Some ["home"; "dist"])) = ReturnNone.
Proof.
  split; [| reflexivity].
  apply (opened_archive_exists full_disk_env example_root ["home"; "my-skill"]
           (Some ["home"; "dist"]) ReturnNone).
  - reflexivity.
  - simpl. tauto.
Defined.

(** X11: after a successful run the members of the archive are the entries
    that the walk of the skill directory meets, for which [is_file()]
    holds and that the rules read from the skill directory do not exclude,
    each under its path relative to the parent of the skill directory, in
    the order of the walk; [files_added] is their number and
    [files_excluded] the number of the entries that are excluded. *)
Theorem archive_contents :
  forall (env : Env) (root : node) (skill_path : Path) (output_dir : option Path)
         (out : Path) (a e : nat) (st' : State),
    package_skill env root skill_path output_dir = (ReturnPath out a e, st') ->
    exists patterns,
      read_skillignore env root skill_path = Some patterns
      /\ let files := FS.rglob (fs st') skill_path in
         members (log st')
         = flat_map (member_of skill_path)
             (filter (stored (fs st') skill_path patterns) files)
         /\ a = List.length (members (log st'))
         /\ e = List.length (filter (left_out (fs st') skill_path patterns) files).
Proof.
  intros env root skill_path output_dir out a e st' Hrun.
  destruct (package_skill_success env _ _ _ _ _ _ _ Hrun)
    as [text [st1 [patterns [_ [_ [_ [Hr [_ [_ [Hm [Ha [He _]]]]]]]]]]]].
  exists patterns. split; [assumption |]. cbv zeta.
  rewrite Hm, members_of_walk_length. auto.
Qed.

Lemma archive_contents_witness :
  exists patterns,
    read_skillignore example_env example_root ["home"; "my-skill"] = Some patterns
    /\ members (log (snd (package_skill example_env example_root
                            ["home"; "my-skill"] (Some ["home"; "dist"]))))
       = flat_map (member_of ["home"; "my-skill"])
           (filter
              (stored
                 (fs (snd (package_skill example_env example_root
                             ["home"; "my-skill"] (Some ["home"; "dist"]))))
                 ["home"; "my-skill"] patterns)
              (FS.rglob
                 (fs (snd (package_skill example_env example_root
                             ["home"; "my-skill"] (Some ["home"; "dist"]))))
                 ["home"; "my-skill"])).
Proof.
  destruct (archive_contents example_env example_root ["home"; "my-skill"]
              (Some ["home"; "dist"]) ["home"; "dist"; "my-skill.skill"] 3 1
              (snd (package_skill example_env example_root ["home"; "my-skill"]
                      (Some ["home"; "dist"])))
              eq_refl) as [patterns [Hr [Hm _]]].
  exists patterns. split; assumption.
Defined.

(** X12: when the skill directory holds no rules file, or a directory in
    its place, a successful run excludes nothing and archives every entry
    that the walk meets and for which [is_file()] holds. *)
Theorem no_rules_nothing_excluded :
  forall (env : Env) (root : node) (skill_path : Path) (output_dir : option Path)
         (out : Path) (a e : nat) (st' : State),
    FS.exists_ root (PyPath.child skill_path ".skillignore") = Some false
    \/ FS.is_dir root (PyPath.child skill_path ".skillignore") = Some true ->
    package_skill env root skill_path output_dir = (ReturnPath out a e, st') ->
    e = 0
    /\ members (log st')
       = flat_map (member_of skill_path)
           (filter (is_file_at (fs st')) (FS.rglob (fs st') skill_path)).
Proof.
  intros env root skill_path output_dir out a e st' Hno Hrun.
  destruct (package_skill_success env _ _ _ _ _ _ _ Hrun)
    as [text [st1 [patterns [_ [_ [_ [Hr [_ [_ [Hm [_ [He _]]]]]]]]]]]].
  assert (E : patterns = []).
  { revert Hr. unfold read_skillignore, read_text, FS.exists_, FS.is_dir in *.
    destruct (FS.stat root (PyPath.child skill_path ".skillignore"))
      as [[| |] | |]; destruct Hno as [Hno | Hno]; try discriminate; congruence. }
  subst patterns. split.
  - rewrite He. clear.
    induction (FS.rglob (fs st') skill_path) as [| f files IH]; [reflexivity |].
    cbn [filter]. unfold left_out at 1. cbn [should_exclude].
    rewrite andb_false_r. exact IH.
  - rewrite Hm. f_equal. apply filter_ext. intros f. unfold stored.
    cbn [should_exclude negb]. apply andb_true_r.
Qed.

Lemma no_rules_nothing_excluded_witness :
  0 = 0
  /\ members (log (snd (package_skill example_env linked_root ["home"; "my-skill"]
                          (Some ["home"; "dist"]))))
     = flat_map (member_of ["home"; "my-skill"])
         (filter (is_file_at
                    (fs (snd (package_skill example_env linked_root
                                ["home"; "my-skill"] (Some ["home"; "dist"])))))
            (FS.rglob
               (fs (snd (package_skill example_env linked_root
                           ["home"; "my-skill"] (Some ["home"; "dist"]))))
               ["home"; "my-skill"])).
Proof.
  apply (no_rules_nothing_excluded example_env linked_root ["home"; "my-skill"]
           (Some ["home"; "dist"]) ["home"; "dist"; "my-skill.skill"] 2 0).
  - left. reflexivity.
  - reflexivity.
Defined.

(** X13: a failure of [mkdir] is not caught: when the checks have passed
    and [output_path.mkdir(parents=True, exist_ok=True)] raises, the
    exception leaves [package_skill]; the archive was never opened, and
    the directories that [mkdir] made before it failed stay in the tree. *)
Theorem mkdir_failure_raises :
  forall (env : Env) (root : node) (skill_path d : Path),
    FS.exists_ root skill_path = Some true ->
    FS.is_dir root skill_path = Some true ->
    FS.exists_ root (PyPath.child skill_path "SKILL.md") = Some true ->
    fst (validate_skill env skill_path) = true ->
    snd (FS.mkdir_p (mkdir_ok env) (new_dir_listable env) (new_dir_searchable env) d root) = false ->
    package_skill env root skill_path (Some d)
    = (Raised,
       {| fs := fst (FS.mkdir_p (mkdir_ok env) (new_dir_listable env) (new_dir_searchable env) d root);
          log := [Stdout MsgValidating;
                  Stdout (MsgValid (snd (validate_skill env skill_path)));
                  Mkdir d] |}).
Proof.
  intros env root skill_path d H1 H2 H3 H4 Hfail.
  destruct (validate_skill env skill_path) as [valid text] eqn:Hv.
  cbn [fst snd] in *. subst valid.
  assert (Hc : checks env root skill_path = Passed text)
    by (apply checks_passed; auto).
  pose proof (package_skill_checks env root skill_path (Some d)) as Hrun.
  rewrite Hc in Hrun. rewrite Hrun.
  unfold output_stage, mkdir. cbn [validated fs log].
  destruct (FS.mkdir_p (mkdir_ok env) (new_dir_listable env) (new_dir_searchable env) d root) as [root' made].
  cbn [fst snd] in *. subst made. reflexivity.
Qed.

Lemma mkdir_failure_raises_witness :
  package_skill one_dir_env example_root ["home"; "my-skill"]
    (Some ["home"; "out"; "v1"])
  = (Raised,
     {| fs := fst (FS.mkdir_p (mkdir_ok one_dir_env) true true ["home"; "out"; "v1"]
                     example_root);
        log := [Stdout MsgValidating;
                Stdout (MsgValid
                          (snd (validate_skill one_dir_env ["home"; "my-skill"])));
                Mkdir ["home"; "out"; "v1"]] |})
  /\ FS.is_dir
       (fst (FS.mkdir_p (mkdir_ok one_dir_env) true true ["home"; "out"; "v1"] example_root))
       ["home"; "out"] = Some true
  /\ FS.is_dir example_root ["home"; "out"] = Some false.
Proof.
  split; [| split; reflexivity].
  apply (mkdir_failure_raises one_dir_env example_root ["home"; "my-skill"]
           ["home"; "out"; "v1"]); reflexivity.
Defined.

(** X14: no run removes an entry or changes its kind: whatever [os.stat]
    found at a path before the run, it finds after it. *)
Theorem entries_preserved :
  forall (env : Env) (root : node) (skill_path : Path) (output_dir : option Path)
         (p : Path) (k : kind),
    FS.stat root p = FS.Found k ->
    FS.stat (fs (snd (package_skill env root skill_path output_dir))) p
    = FS.Found k.
Proof.
  intros env root skill_path output_dir p k Hs.
  destruct (package_skill env root skill_path output_dir) as [r st'] eqn:Hrun.
  cbn [snd]. destruct (package_skill_grows env _ _ _ _ _ Hrun) as [Hg _].
  exact (grows_stat_found true root (fs st') Hg p k Hs).
Qed.

Lemma entries_preserved_witness :
  FS.stat
    (fs (snd (package_skill example_env example_root ["home"; "my-skill"]
                (Some ["home"; "my-skill"; "dist"]))))
    ["home"; "my-skill"; "build"; "out.bin"] = FS.Found KFile.
Proof.
  apply (entries_preserved example_env example_root ["home"; "my-skill"]
           (Some ["home"; "my-skill"; "dist"])).
  reflexivity.
Defined.

(** X15: when the archive is written below the skill directory, at a
    place that the walk comes to, the walk meets the archive itself: if
    [is_file()] holds for it, a successful run has stored it as a member
    of itself unless a rule excludes it. *)
Theorem archive_inside_walked :
  forall (env : Env) (root : node) (skill_path : Path) (output_dir : option Path)
         (out : Path) (a e : nat) (st' : State) (patterns : list string)
         (n : node) (rel : RelPath),
    package_skill env root skill_path output_dir = (ReturnPath out a e, st') ->
    read_skillignore env root skill_path = Some patterns ->
    out = skill_path ++ rel ->
    FS.stat_node (fs st') skill_path = FS.Found n ->
    FS.reaches n rel = true ->
    FS.is_file (fs st') out = Some true ->
    In out (FS.rglob (fs st') skill_path)
    /\ (In out (map fst (members (log st')))
        \/ should_exclude out skill_path patterns = true).
Proof.
  intros env root skill_path output_dir out a e st' patterns n rel
    Hrun Hr Hout Hn Hreach Hfile.
  destruct (package_skill_success env _ _ _ _ _ _ _ Hrun)
    as [text [st1 [patterns' [_ [_ [_ [Hr' [_ [_ [Hm _]]]]]]]]]].
  assert (patterns' = patterns) by congruence. subst patterns'.
  assert (Hin : In out (FS.rglob (fs st') skill_path)).
  { unfold FS.rglob. rewrite Hn, Hout. apply rglob_node_complete. assumption. }
  split; [assumption |].
  destruct (should_exclude out skill_path patterns) eqn:Hex;
    [right; reflexivity | left].
  rewrite Hm. apply in_map_iff.
  destruct (member_of_below skill_path rel) as [arc Harc]. rewrite <- Hout in Harc.
  exists (out, arc). split; [reflexivity |].
  apply in_flat_map. exists out. split; [| rewrite Harc; left; reflexivity].
  apply filter_In. split; [assumption |]. unfold stored, is_file_at.
  rewrite Hfile, Hex. reflexivity.
Qed.

Lemma archive_inside_walked_witness :
  In ["home"; "my-skill"; "dist"; "my-skill.skill"]
    (map fst
       (members (log (snd (package_skill example_env linked_root
                             ["home"; "my-skill"]
                             (Some ["home"; "my-skill"; "dist"])))))).
Proof.
  destruct (archive_inside_walked example_env linked_root ["home"; "my-skill"]
              (Some ["home"; "my-skill"; "dist"])
              ["home"; "my-skill"; "dist"; "my-skill.skill"] 3 0
              (snd (package_skill example_env linked_root ["home"; "my-skill"]
                      (Some ["home"; "my-skill"; "dist"])))
              []
              (Dir true true
                 [("SKILL.md", File);
                  ("link.md", Symlink ["home"; "my-skill"; "SKILL.md"]);
                  ("dist", Dir true true [("my-skill.skill", File)])])
              ["dist"; "my-skill.skill"]
              eq_refl eq_refl eq_refl eq_refl eq_refl eq_refl) as [_ [H | H]].
  - exact H.
  - discriminate H.
Defined.

(** X17: after a successful run no two members of the archive bear the
    same name. *)
Theorem archive_names_differ :
  forall (env : Env) (root : node) (skill_path : Path) (output_dir : option Path)
         (out : Path) (a e : nat) (st' : State),
    FS.unique_names root = true ->
    package_skill env root skill_path output_dir = (ReturnPath out a e, st') ->
    NoDup (map snd (members (log st'))).
Proof.
  intros env root skill_path output_dir out a e st' Hu Hrun.
  destruct (package_skill_grows env _ _ _ _ _ Hrun) as [_ Hu'].
  destruct (package_skill_success env _ _ _ _ _ _ _ Hrun)
    as [text [st1 [patterns [_ [_ [_ [_ [_ [_ [Hm _]]]]]]]]]].
  rewrite Hm. apply members_NoDup, NoDup_filter, rglob_NoDup. auto.
Qed.

Lemma archive_names_differ_witness :
  NoDup (map snd
           (members (log (snd (package_skill example_env example_root
                                 ["home"; "my-skill"] (Some ["home"; "dist"])))))).
Proof.
  apply (archive_names_differ example_env example_root ["home"; "my-skill"]
           (Some ["home"; "dist"]) ["home"; "dist"; "my-skill.skill"] 3 1).
  - reflexivity.
  - reflexivity.
Defined.

(** X19: [package_skill] returns the archive path only when every file it
    had to store could be stored: one failing [zipf.write] makes the run
    return [None]. *)
Theorem success_stores_every_file :
  forall (env : Env) (root : node) (skill_path : Path) (output_dir : option Path)
         (out : Path) (a e : nat) (st' : State) (patterns : list string)
         (file_path : Path),
    package_skill env root skill_path output_dir = (ReturnPath out a e, st') ->
    read_skillignore env root skill_path = Some patterns ->
    In file_path (FS.rglob (fs st') skill_path) ->
    FS.is_file (fs st') file_path = Some true ->
    should_exclude file_path skill_path patterns = false ->
    store_ok env file_path = true
    /\ In file_path (map fst (members (log st'))).
Proof.
  intros env root skill_path output_dir out a e st' patterns file_path
    Hrun Hr Hin Hfile Hex.
  destruct (package_skill_success env _ _ _ _ _ _ _ Hrun)
    as [text [st1 [patterns' [_ [_ [_ [Hr' [_ [_ [Hm [_ [_ [_ Hok]]]]]]]]]]]]].
  assert (patterns' = patterns) by congruence. subst patterns'.
  assert (Hkept : stored (fs st') skill_path patterns file_path = true).
  { unfold stored, is_file_at. rewrite Hfile, Hex. reflexivity. }
  split; [exact (Hok _ Hin Hkept) |].
  rewrite Hm. destruct (rglob_below _ _ _ Hin) as [rel [_ E]].
  destruct (member_of_below skill_path rel) as [arc Harc]. rewrite <- E in Harc.
  apply in_map_iff. exists (file_path, arc). split; [reflexivity |].
  apply in_flat_map. exists file_path. split; [| rewrite Harc; left; reflexivity].
  apply filter_In. auto.
Qed.

Lemma success_stores_every_file_witness :
  store_ok example_env ["home"; "my-skill"; "notes.md"] = true
  /\ In ["home"; "my-skill"; "notes.md"]
       (map fst
          (members (log (snd (package_skill example_env example_root
                                ["home"; "my-skill"] (Some ["home"; "dist"])))))).
Proof.
  apply (success_stores_every_file example_env example_root ["home"; "my-skill"]
           (Some ["home"; "dist"]) ["home"; "dist"; "my-skill.skill"] 3 1
           (snd (package_skill example_env example_root ["home"; "my-skill"]
                   (Some ["home"; "dist"])))
           ["build/"]).
  - reflexivity.
  - reflexivity.
  - simpl. tauto.
  - reflexivity.
  - reflexivity.
Defined.

(** X21: [package_skill] returns the archive path only when [is_file()]
    answered for every entry that the walk met: an entry in a directory
    that may be listed but not searched makes the run return [None]. *)
Theorem success_needs_answers :
  forall (env : Env) (root : node) (skill_path : Path) (output_dir : option Path)
         (out : Path) (a e : nat) (st' : State) (file_path : Path),
    package_skill env root skill_path output_dir = (ReturnPath out a e, st') ->
    In file_path (FS.rglob (fs st') skill_path) ->
    FS.is_file (fs st') file_path = Some true
    \/ FS.is_file (fs st') file_path = Some false.
Proof.
  intros env root skill_path output_dir out a e st' file_path Hrun Hin.
  destruct (package_skill_success env _ _ _ _ _ _ _ Hrun)
    as [text [st1 [patterns [_ [_ [_ [_ [_ [_ [_ [_ [_ [Hans _]]]]]]]]]]]]].
  specialize (Hans _ Hin).
  destruct (FS.is_file (fs st') file_path) as [[|] |]; auto. congruence.
Qed.

Lemma success_needs_answers_witness :
  FS.is_file
    (fs (snd (package_skill example_env odd_root ["home"; "my-skill"]
                (Some ["home"; "dist"]))))
    ["home"; "my-skill"; "pipe"] = Some true
  \/ FS.is_file
       (fs (snd (package_skill example_env odd_root ["home"; "my-skill"]
                   (Some ["home"; "dist"]))))
       ["home"; "my-skill"; "pipe"] = Some false.
Proof.
  apply (success_needs_answers example_env odd_root ["home"; "my-skill"]
           (Some ["home"; "dist"]) ["home"; "dist"; "my-skill.skill"] 2 0).
  - reflexivity.
  - simpl. tauto.
Defined.

(** ** The command line *)


